(** * Covered-call backtester: a shallow embedding of the simulation engine

    The development follows the Python sources of the repository:

    - [GreeksCalculator]      services/greeks_calculator.py
    - [IVPercentileService]   services/iv_percentile.py
    - [CoveredCallEngine]     services/covered_call_service.py

    Numbers.  Python floats are modelled by exact rationals ([Q]); the
    integers of the code ([lot_size], day counts, periods) by [Z].  The
    entries of a pandas Series are [pyfloat]: a rational or one of the
    special values NaN, +inf, -inf (there is no rounding and no signed zero).
    The transcendental functions of the pricing model ([math.log],
    [math.sqrt], [math.exp], [norm.cdf]) are a parameter: the class
    [MathLib].  Dates are day ordinals ([Z]), so that
    [(expiry_date - current_date).days] is a subtraction.

    Exceptions.  A Python exception ([KeyError] on a missing dictionary
    key, [ValueError] of [min]/[max] on an empty list or of [math.log] and
    [math.sqrt] outside their domain, [ZeroDivisionError]) is [None] in the
    result of the embedded function. *)

From Stdlib Require Import ZArith QArith Qround Qabs Lqa Lia.
From Stdlib Require Import List Bool String Ascii DecimalString.
Import ListNotations.

Local Open Scope Q_scope.

(** ** Numeric helpers *)

(** Strict comparison on rationals, as a boolean. *)
Definition Qlt_bool (x y : Q) : bool := negb (Qle_bool y x).

(** [float('inf')] as the initial value of a running minimum: an extended
    rational, [None] for plus infinity. *)
Definition lt_ext (x : Q) (bound : option Q) : bool :=
  match bound with
  | None => true
  | Some b => Qlt_bool x b
  end.

(** Python's [int(x)] on a float: truncation toward zero. *)
Definition py_int (x : Q) : Z := Z.quot (Qnum x) (Zpos (Qden x)).

(** Python's [round(x)]: round half to even. *)
Definition py_round (x : Q) : Z :=
  let f := Qfloor x in
  let r := x - inject_Z f in
  if Qlt_bool r (1 # 2) then f
  else if Qlt_bool (1 # 2) r then (f + 1)%Z
  else if Z.even f then f else (f + 1)%Z.

(** Decimal rendering of an integer inside an f-string. *)
Definition str_of_Z (z : Z) : string := NilZero.string_of_int (Z.to_int z).

(** Python's [str.upper] on ASCII letters. *)
Definition upper_ascii (c : ascii) : ascii :=
  let n := nat_of_ascii c in
  if ((97 <=? n) && (n <=? 122))%nat then ascii_of_nat (n - 32) else c.

Fixpoint str_upper (s : string) : string :=
  match s with
  | EmptyString => EmptyString
  | String c r => String (upper_ascii c) (str_upper r)
  end.

(** Python's [min(l, key=f)]: the first element with the least key;
    [ValueError] on an empty list.  [ltb] is the comparison of the keys. *)
Fixpoint min_by_key {K : Type} (ltb : K -> K -> bool) (key : Q -> K)
    (best : Q) (l : list Q) : Q :=
  match l with
  | [] => best
  | x :: l' => if ltb (key x) (key best)
               then min_by_key ltb key x l'
               else min_by_key ltb key best l'
  end.

Definition py_min_key {K : Type} (ltb : K -> K -> bool) (key : Q -> K)
    (l : list Q) : option Q :=
  match l with
  | [] => None
  | x :: l' => Some (min_by_key ltb key x l')
  end.

(** Python's [min(l)] and [max(l)]: the first least (greatest) element. *)
Definition py_min (l : list Q) : option Q := py_min_key Qlt_bool (fun x => x) l.

Definition py_max (l : list Q) : option Q := py_min_key Qlt_bool (fun x => - x) l.

(** Python's [max(a, b)] and [min(a, b)] on two numbers: the first
    argument unless the second is strictly greater (smaller). *)
Definition py_max2 (a b : Q) : Q := if Qlt_bool a b then b else a.

Definition py_min2 (a b : Q) : Q := if Qlt_bool b a then b else a.

(** Python's [sum] over integers. *)
Definition py_sum (l : list Z) : Z := fold_left Z.add l 0%Z.

(** Python's [sorted(l)] on integers, by insertion. *)
Fixpoint insert_sorted (x : Z) (l : list Z) : list Z :=
  match l with
  | [] => [x]
  | y :: r => if (x <=? y)%Z then x :: l else y :: insert_sorted x r
  end.

Definition py_sorted (l : list Z) : list Z := fold_right insert_sorted [] l.

(** The elements of [set(l)]: each value once. *)
Definition py_set (l : list Z) : list Z := nodup Z.eq_dec l.

(** The library functions the pricing model calls. *)
Class MathLib := {
  math_log : Q -> Q;
  math_sqrt : Q -> Q;
  math_exp : Q -> Q;
  norm_cdf : Q -> Q
}.

(** A small instance on which the definitions can be run. *)
Definition sample_math : MathLib :=
  {| math_log := fun x => x - 1;
     math_sqrt := fun x => (x + 1) / 2;
     math_exp := fun x => 1 + x;
     norm_cdf := fun x => if Qle_bool x (-2) then 0
                          else if Qle_bool 2 x then 1
                          else (x + 2) / 4 |}.

(** ** services/greeks_calculator.py *)

Module GreeksCalculator.

Section Calculator.

Context {M : MathLib}.

(** [self.risk_free_rate] *)
Variable risk_free_rate : Q.

Definition rate_or_default (r : option Q) : Q :=
  match r with
  | None => risk_free_rate
  | Some r => r
  end.

(** [math.log] raises [ValueError] outside the positive numbers,
    [math.sqrt] on a negative number, and the two divisions raise
    [ZeroDivisionError] on a zero divisor: the result is [None] then. *)
Definition calculate_d1_d2 (spot strike time_to_expiry volatility : Q)
    (rfr : option Q) : option (Q * Q) :=
  let r := rate_or_default rfr in
  if Qeq_bool strike 0 then None
  else if Qle_bool (spot / strike) 0 then None
  else if Qlt_bool time_to_expiry 0 then None
  else if Qeq_bool (volatility * math_sqrt time_to_expiry) 0 then None
  else
    let d1 := (math_log (spot / strike) +
               (r + (1 # 2) * (volatility * volatility)) * time_to_expiry) /
              (volatility * math_sqrt time_to_expiry) in
    let d2 := d1 - volatility * math_sqrt time_to_expiry in
    Some (d1, d2).

Definition calculate_option_price (spot strike time_to_expiry volatility : Q)
    (option_type : string) (rfr : option Q) : option Q :=
  let r := rate_or_default rfr in
  match calculate_d1_d2 spot strike time_to_expiry volatility (Some r) with
  | None => None
  | Some (d1, d2) =>
      if String.eqb option_type "CE" then
        Some (spot * norm_cdf d1 -
              strike * math_exp (- r * time_to_expiry) * norm_cdf d2)
      else
        Some (strike * math_exp (- r * time_to_expiry) * norm_cdf (- d2) -
              spot * norm_cdf (- d1))
  end.

Definition calculate_delta (spot strike time_to_expiry volatility : Q)
    (option_type : string) (rfr : option Q) : option Q :=
  let r := rate_or_default rfr in
  match calculate_d1_d2 spot strike time_to_expiry volatility (Some r) with
  | None => None
  | Some (d1, _) =>
      if String.eqb option_type "CE" then Some (norm_cdf d1)
      else Some (norm_cdf d1 - 1)
  end.

(** The distance that [find_strike_by_delta] minimises. *)
Definition delta_diff (option_type : string) (target_delta delta : Q) : Q :=
  if String.eqb option_type "PE"
  then Qabs (Qabs delta - Qabs target_delta)
  else Qabs (delta - target_delta).

(** Loop state of [find_strike_by_delta]:
    [(best_strike, best_delta, min_diff)]. *)
Definition scan_state : Type := option Q * option Q * option Q.

(** One iteration of the loop; [None] when [calculate_delta] raises. *)
Definition scan_step (spot time_to_expiry volatility target_delta : Q)
    (option_type : string) (st : scan_state) (strike : Q)
    : option scan_state :=
  let '(best_strike, best_delta, min_diff) := st in
  match calculate_delta spot strike time_to_expiry volatility
                        option_type None with
  | None => None
  | Some delta =>
      let diff := delta_diff option_type target_delta delta in
      if lt_ext diff min_diff
      then Some (Some strike, Some delta, Some diff)
      else Some st
  end.

(** The loop: an exception in an iteration ends it. *)
Fixpoint scan (spot time_to_expiry volatility target_delta : Q)
    (option_type : string) (strikes : list Q) (st : scan_state)
    : option scan_state :=
  match strikes with
  | [] => Some st
  | strike :: rest =>
      match scan_step spot time_to_expiry volatility target_delta
                      option_type st strike with
      | None => None
      | Some st' =>
          scan spot time_to_expiry volatility target_delta option_type
               rest st'
      end
  end.

(** The result is [None] when the function raises, and [Some] of the
    tuple it returns otherwise. *)
Definition find_strike_by_delta (spot time_to_expiry volatility target_delta : Q)
    (available_strikes : list Q) (option_type : string)
    : option (option Q * option Q) :=
  match scan spot time_to_expiry volatility target_delta option_type
             available_strikes (None, None, None) with
  | None => None
  | Some (best_strike, best_delta, _) => Some (best_strike, best_delta)
  end.

Definition find_strike_by_otm_percent (spot otm_percent : Q)
    (available_strikes : list Q) (option_type : string) : option Q :=
  let target_strike :=
    if String.eqb option_type "CE" then spot * (1 + otm_percent)
    else spot * (1 - otm_percent) in
  py_min_key Qlt_bool (fun x => Qabs (x - target_strike)) available_strikes.

End Calculator.

End GreeksCalculator.


(** ** services/iv_percentile.py *)

Module IVPercentileService.

Record IVMetrics := {
  symbol : string;
  current_iv : Q;
  iv_percentile : Q;
  iv_rank : Q;
  iv_52w_high : Q;
  iv_52w_low : Q;
  target_delta : Q;
  target_otm_pct : Q;
  regime : string;
  date : Z
}.

(** [sum(1 for iv in historical_ivs if iv < current_iv)] *)
Definition below_count (current_iv : Q) (historical_ivs : list Q) : Z :=
  py_sum (map (fun _ => 1%Z)
              (filter (fun iv => Qlt_bool iv current_iv) historical_ivs)).

Definition calculate_iv_percentile (current_iv : Q) (historical_ivs : list Q) : Q :=
  match historical_ivs with
  | [] => 50
  | _ :: _ =>
      (inject_Z (below_count current_iv historical_ivs) /
       inject_Z (Z.of_nat (List.length historical_ivs))) * 100
  end.

Definition Qclamp (lo hi x : Q) : Q :=
  if Qlt_bool x lo then lo else if Qlt_bool hi x then hi else x.

Definition calculate_iv_rank (current_iv iv_high iv_low : Q) : Q :=
  if Qeq_bool iv_high iv_low then 50
  else Qclamp 0 100 (((current_iv - iv_low) / (iv_high - iv_low)) * 100).

Definition get_regime (iv_percentile : Q) : string :=
  if Qlt_bool iv_percentile 25 then "LOW"
  else if Qlt_bool iv_percentile 50 then "NORMAL"
  else if Qlt_bool iv_percentile 75 then "ELEVATED"
  else "HIGH".

(** [DELTA_MAP[regime]] on the four regimes [get_regime] returns. *)
Definition get_target_delta (iv_percentile : Q) : Q :=
  let regime := get_regime iv_percentile in
  if String.eqb regime "LOW" then 35 # 100
  else if String.eqb regime "NORMAL" then 30 # 100
  else if String.eqb regime "ELEVATED" then 25 # 100
  else 20 # 100.

(** The class attributes [DELTA_MAP] and [OTM_MAP]. *)
Definition DELTA_MAP : list (string * Q) :=
  [("LOW"%string, 35 # 100); ("NORMAL"%string, 30 # 100);
   ("ELEVATED"%string, 25 # 100); ("HIGH"%string, 20 # 100)].

Definition OTM_MAP : list (string * Q) :=
  [("LOW"%string, 35 # 1000); ("NORMAL"%string, 45 # 1000);
   ("ELEVATED"%string, 6 # 100); ("HIGH"%string, 85 # 1000)].

(** [m[key]] on one of the two maps: [KeyError] on a key it lacks. *)
Fixpoint getitem (m : list (string * Q)) (key : string) : option Q :=
  match m with
  | [] => None
  | (k, v) :: m' => if String.eqb k key then Some v else getitem m' key
  end.

Definition get_target_otm_pct (iv_percentile : Q) : option Q :=
  getitem OTM_MAP (get_regime iv_percentile).

End IVPercentileService.

(** ** The pandas operations the engine calls *)

Module Pandas.

(** An entry of a float Series. *)
Inductive pyfloat : Type :=
| Fin (q : Q)
| PInf
| NInf
| NaN.

(** [pd.isna] *)
Definition isna (x : pyfloat) : bool :=
  match x with
  | NaN => true
  | _ => false
  end.

Definition fneg (x : pyfloat) : pyfloat :=
  match x with
  | Fin q => Fin (- q)
  | PInf => NInf
  | NInf => PInf
  | NaN => NaN
  end.

Definition fadd (x y : pyfloat) : pyfloat :=
  match x, y with
  | NaN, _ | _, NaN => NaN
  | Fin a, Fin b => Fin (a + b)
  | PInf, NInf | NInf, PInf => NaN
  | PInf, _ | _, PInf => PInf
  | NInf, _ | _, NInf => NInf
  end.

Definition fsub (x y : pyfloat) : pyfloat := fadd x (fneg y).

(** The infinity of the given sign ([true] for a positive one). *)
Definition inf_of (positive : bool) : pyfloat := if positive then PInf else NInf.

Definition fmul (x y : pyfloat) : pyfloat :=
  match x, y with
  | NaN, _ | _, NaN => NaN
  | Fin a, Fin b => Fin (a * b)
  | Fin a, PInf | PInf, Fin a =>
      if Qeq_bool a 0 then NaN else inf_of (Qlt_bool 0 a)
  | Fin a, NInf | NInf, Fin a =>
      if Qeq_bool a 0 then NaN else inf_of (Qlt_bool a 0)
  | PInf, PInf | NInf, NInf => PInf
  | PInf, NInf | NInf, PInf => NInf
  end.

(** Division as numpy does it: a finite value over zero is an infinity,
    zero over zero is NaN. *)
Definition fdiv (x y : pyfloat) : pyfloat :=
  match x, y with
  | NaN, _ | _, NaN => NaN
  | Fin a, Fin b =>
      if Qeq_bool b 0
      then (if Qeq_bool a 0 then NaN else inf_of (Qlt_bool 0 a))
      else Fin (a / b)
  | Fin _, PInf | Fin _, NInf => Fin 0
  | PInf, Fin b => inf_of (Qle_bool 0 b)
  | NInf, Fin b => inf_of (Qlt_bool b 0)
  | PInf, PInf | PInf, NInf | NInf, PInf | NInf, NInf => NaN
  end.

Definition fabs (x : pyfloat) : pyfloat :=
  match x with
  | Fin q => Fin (Qabs q)
  | PInf | NInf => PInf
  | NaN => NaN
  end.

(** Comparisons: every comparison with NaN is false. *)
Definition flt (x y : pyfloat) : bool :=
  match x, y with
  | NaN, _ | _, NaN => false
  | Fin a, Fin b => Qlt_bool a b
  | NInf, NInf | PInf, _ | _, NInf => false
  | NInf, _ | _, PInf => true
  end.

Definition fle (x y : pyfloat) : bool :=
  match x, y with
  | NaN, _ | _, NaN => false
  | Fin a, Fin b => Qle_bool a b
  | NInf, _ | _, PInf => true
  | PInf, _ | _, NInf => false
  end.

Definition fgt (x y : pyfloat) : bool := flt y x.

Definition fge (x y : pyfloat) : bool := fle y x.

Definition Series : Type := list pyfloat.

Definition of_Q (l : list Q) : Series := map Fin l.

(** Element-wise binary operation on two aligned Series. *)
Definition s_map2 (f : pyfloat -> pyfloat -> pyfloat) (a b : Series) : Series :=
  map (fun xy => f (fst xy) (snd xy)) (combine a b).

(** [s.shift(1)] *)
Definition s_shift (s : Series) : Series :=
  match s with
  | [] => []
  | _ :: _ => NaN :: removelast s
  end.

(** [s.diff()] *)
Definition s_diff (s : Series) : Series := s_map2 fsub s (s_shift s).

(** [s.replace(0, np.nan)] *)
Definition s_replace_zero (s : Series) : Series :=
  map (fun x => match x with
                | Fin q => if Qeq_bool q 0 then NaN else x
                | _ => x
                end) s.

(** [s.fillna(0)] *)
Definition s_fillna_zero (s : Series) : Series :=
  map (fun x => if isna x then Fin 0 else x) s.

(** [s.iloc[-1]] and [s.iloc[-2]]; the callers check the length first
    (an [IndexError] otherwise). *)
Definition iloc_last (s : Series) : pyfloat := last s NaN.

Definition iloc_prev (s : Series) : pyfloat := last (removelast s) NaN.

(** [l.tail(n)] *)
Definition tail {A : Type} (n : nat) (l : list A) : list A :=
  skipn (List.length l - n) l.

Definition finite_values (w : Series) : list Q :=
  flat_map (fun x => match x with Fin q => [q] | _ => [] end) w.

(** The rows [i-w+1 .. i] of a Series (fewer at its start). *)
Definition window_at (w : nat) (s : Series) (i : nat) : Series :=
  skipn (S i - w) (firstn (S i) s).

(** [s.rolling(window=w, min_periods=m).agg()]: NaN unless the window
    holds at least [m] observations that are not NaN. *)
Definition rolling (w min_periods : nat) (agg : list Q -> pyfloat)
    (s : Series) : Series :=
  map (fun i =>
         let vals := finite_values (window_at w s i) in
         if (List.length vals <? min_periods)%nat then NaN else agg vals)
      (seq 0 (List.length s)).

Definition q_sum (l : list Q) : Q := fold_left Qplus l 0.

Definition agg_sum (l : list Q) : pyfloat := Fin (q_sum l).

Definition agg_mean (l : list Q) : pyfloat :=
  match l with
  | [] => NaN
  | _ :: _ => Fin (q_sum l / inject_Z (Z.of_nat (List.length l)))
  end.

Definition agg_min (l : list Q) : pyfloat :=
  match py_min l with
  | None => NaN
  | Some m => Fin m
  end.

Definition agg_max (l : list Q) : pyfloat :=
  match py_max l with
  | None => NaN
  | Some m => Fin m
  end.

(** [s.ewm(alpha=a, adjust=False).mean()] on a Series without NaN:
    [y0 = x0], [y_t = (1 - a) * y_(t-1) + a * x_t]. *)
Fixpoint ewm_from (alpha prev : Q) (xs : list Q) : list Q :=
  match xs with
  | [] => []
  | x :: r =>
      let y := (1 - alpha) * prev + alpha * x in
      y :: ewm_from alpha y r
  end.

Definition ewm_mean (alpha : Q) (xs : list Q) : list Q :=
  match xs with
  | [] => []
  | x :: r => x :: ewm_from alpha x r
  end.

(** [ewm(span=n)]: [alpha = 2 / (n + 1)]. *)
Definition ewm_span (span : Z) (xs : list Q) : list Q :=
  ewm_mean (2 / (inject_Z span + 1)) xs.

(** [x != y] on floats. *)
Definition fne (x y : pyfloat) : bool :=
  match x, y with
  | Fin a, Fin b => negb (Qeq_bool a b)
  | PInf, PInf | NInf, NInf => false
  | _, _ => true
  end.

(** [s.ewm(alpha=a, adjust=False).mean()] on a Series that may hold NaN,
    as the loop of pandas computes it (with [ignore_na=False] and no
    [min_periods]): [weighted] is the average so far and [old_wt] the weight
    it carries.  A NaN entry leaves the average as it is and lets its
    weight decay; while the average is NaN the first entry that is not
    NaN starts it. *)
Fixpoint ewm_nan_from (alpha : Q) (weighted : pyfloat) (old_wt : Q)
    (xs : Series) : Series :=
  match xs with
  | [] => []
  | cur :: r =>
      let is_observation := negb (isna cur) in
      let '(weighted, old_wt) :=
        if negb (isna weighted) then
          let old_wt := old_wt * (1 - alpha) in
          if is_observation then
            ((if fne weighted cur
              then fdiv (fadd (fmul (Fin old_wt) weighted)
                              (fmul (Fin alpha) cur))
                        (Fin (old_wt + alpha))
              else weighted),
             1)
          else (weighted, old_wt)
        else if is_observation then (cur, old_wt)
        else (weighted, old_wt) in
      weighted :: ewm_nan_from alpha weighted old_wt r
  end.

Definition s_ewm_mean (alpha : Q) (xs : Series) : Series :=
  match xs with
  | [] => []
  | x :: r => x :: ewm_nan_from alpha x 1 r
  end.

(** [s.ewm(span=n, adjust=False).mean()] on a Series that may hold NaN. *)
Definition s_ewm_span (span : Z) (xs : Series) : Series :=
  s_ewm_mean (2 / (inject_Z span + 1)) xs.


(** The [min_periods] argument of [ewm]: the first [m - 1] results are NaN. *)
Definition mask_min_periods (min_periods : nat) (ys : list Q) : Series :=
  map (fun iy => if (S (fst iy) <? min_periods)%nat then NaN else Fin (snd iy))
      (combine (seq 0 (List.length ys)) ys).

(** One row of an OHLCV table, with its index entry. *)
Record Bar := {
  bar_date : Z;
  open : Q;
  high : Q;
  low : Q;
  close : Q;
  volume : Q
}.

Definition DataFrame : Type := list Bar.

(** [df[column]] *)
Definition col (f : Bar -> Q) (df : DataFrame) : Series := of_Q (map f df).

(** [df.loc[df.index <= current_date]] *)
Definition df_upto (current_date : Z) (df : DataFrame) : DataFrame :=
  filter (fun b => (bar_date b <=? current_date)%Z) df.

(** The index and the close column of a table in which a price may be
    missing: a cell of the column is a number, an infinity or NaN.  The
    trend filters read nothing else of a table. *)
Definition CloseFrame : Type := list (Z * pyfloat).

(** The index and the close column of a table of numbers. *)
Definition close_frame (df : DataFrame) : CloseFrame :=
  map (fun b => (bar_date b, Fin (close b))) df.

(** [df.loc[df.index <= current_date]] *)
Definition cf_upto (current_date : Z) (df : CloseFrame) : CloseFrame :=
  filter (fun r => (fst r <=? current_date)%Z) df.

(** [pd.concat([a, b, c], axis=1).max(axis=1)]: the row-wise maximum,
    NaN entries skipped. *)
Definition row_max3 (a b c : pyfloat) : pyfloat :=
  agg_max (finite_values [a; b; c]).

(** [s.dropna()] *)
Definition dropna (s : Series) : Series := filter (fun x => negb (isna x)) s.

Definition is_inf (x : pyfloat) : bool :=
  match x with
  | PInf | NInf => true
  | _ => false
  end.

(** Python's [max(a, b)] and [min(a, b)] on floats: the first argument
    unless the second is strictly greater (smaller); a comparison with
    NaN is false. *)
Definition fmax2 (a b : pyfloat) : pyfloat := if fgt b a then b else a.

Definition fmin2 (a b : pyfloat) : pyfloat := if flt b a then b else a.

End Pandas.

(** ** The calendar: [datetime] and [calendar] of the standard library *)

Module Calendar.

Local Open Scope Z_scope.

(** A [datetime] at midnight, as the rows of a daily table are. *)
Record datetime := {
  year : Z;
  month : Z;
  day : Z
}.

(** [calendar.isleap] *)
Definition isleap (y : Z) : bool :=
  (y mod 4 =? 0) && (negb (y mod 100 =? 0) || (y mod 400 =? 0)).

(** [calendar.mdays[month]] *)
Definition mdays (m : Z) : Z :=
  match m with
  | 1 => 31 | 2 => 28 | 3 => 31 | 4 => 30 | 5 => 31 | 6 => 30
  | 7 => 31 | 8 => 31 | 9 => 30 | 10 => 31 | 11 => 30 | 12 => 31
  | _ => 0
  end.

(** [calendar.monthrange(year, month)[1]], the number of days of the
    month; [IllegalMonthError] for a month outside 1..12. *)
Definition monthrange_days (y m : Z) : option Z :=
  if (1 <=? m) && (m <=? 12)
  then Some (mdays m + (if (m =? 2) && isleap y then 1 else 0))
  else None.

(** The constructor [datetime(year, month, day)]: [ValueError] when the
    date does not exist. *)
Definition make_datetime (y m d : Z) : option datetime :=
  match monthrange_days y m with
  | None => None
  | Some dim =>
      if (1 <=? y) && (y <=? 9999) && (1 <=? d) && (d <=? dim)
      then Some {| year := y; month := m; day := d |}
      else None
  end.

(** The number of days before January 1st of the year. *)
Definition days_before_year (y : Z) : Z :=
  let y := y - 1 in
  y * 365 + y / 4 - y / 100 + y / 400.

(** The number of days of the year before the first day of the month. *)
Definition days_before_month (y m : Z) : Z :=
  match m with
  | 1 => 0 | 2 => 31 | 3 => 59 | 4 => 90 | 5 => 120 | 6 => 151
  | 7 => 181 | 8 => 212 | 9 => 243 | 10 => 273 | 11 => 304 | 12 => 334
  | _ => 0
  end + (if (2 <? m) && isleap y then 1 else 0).

(** [d.toordinal()]: January 1st of year 1 is day 1. *)
Definition toordinal (d : datetime) : Z :=
  days_before_year (year d) + days_before_month (year d) (month d) + day d.

(** [d.weekday()]: Monday is 0, Thursday is 3. *)
Definition weekday (d : datetime) : Z := (toordinal d + 6) mod 7.

(** [(a - b).days] *)
Definition days_between (a b : datetime) : Z := toordinal a - toordinal b.

(** [d - timedelta(days=1)]; [OverflowError] before January 1st of
    year 1. *)
Definition minus_one_day (d : datetime) : option datetime :=
  if 1 <? day d then
    Some {| year := year d; month := month d; day := day d - 1 |}
  else if 1 <? month d then
    match monthrange_days (year d) (month d - 1) with
    | None => None
    | Some dim =>
        Some {| year := year d; month := month d - 1; day := dim |}
    end
  else if 1 <? year d then
    Some {| year := year d - 1; month := 12; day := 31 |}
  else None.

(** An existing date. *)
Definition valid (d : datetime) : Prop :=
  1 <= year d <= 9999 /\ 1 <= month d <= 12 /\
  exists dim, monthrange_days (year d) (month d) = Some dim /\
              1 <= day d <= dim.

End Calendar.

(** ** services/covered_call_service.py *)

Module CoveredCallEngine.

Import Pandas.

Inductive StrikeMethod : Type :=
| DELTA_30
| DELTA_40
| OTM_2PCT
| OTM_5PCT
| ATM
| ADAPTIVE_DELTA
| ATR_BASED
| BOLLINGER_UPPER
| PIVOT_R1
| PIVOT_R2
| OTHER_METHOD (value : string).
(** [OTHER_METHOD] stands for any value that is none of the ten members
    above; [_select_strike] sends it to its final [else]. *)

Definition strike_method_value (m : StrikeMethod) : string :=
  match m with
  | DELTA_30 => "DELTA_30"
  | DELTA_40 => "DELTA_40"
  | OTM_2PCT => "OTM_2PCT"
  | OTM_5PCT => "OTM_5PCT"
  | ATM => "ATM"
  | ADAPTIVE_DELTA => "ADAPTIVE_DELTA"
  | ATR_BASED => "ATR_BASED"
  | BOLLINGER_UPPER => "BOLLINGER_UPPER"
  | PIVOT_R1 => "PIVOT_R1"
  | PIVOT_R2 => "PIVOT_R2"
  | OTHER_METHOD value => value
  end.

Inductive ExitStrategy : Type :=
| HOLD_TO_EXPIRY
| PROFIT_TARGET
| STOP_LOSS
| PROFIT_TARGET_AND_STOP_LOSS.

Definition exit_strategy_value (e : ExitStrategy) : string :=
  match e with
  | HOLD_TO_EXPIRY => "HOLD_TO_EXPIRY"
  | PROFIT_TARGET => "PROFIT_TARGET"
  | STOP_LOSS => "STOP_LOSS"
  | PROFIT_TARGET_AND_STOP_LOSS => "PROFIT_TARGET_AND_STOP_LOSS"
  end.

Record BacktestConfig := {
  symbols : list string;
  start_date : Z;
  end_date : Z;
  strike_method : StrikeMethod;
  exit_strategy : ExitStrategy;
  initial_capital : Q;
  position_size : Z;
  risk_free_rate : Q;
  default_iv : Q;
  profit_target_pct : Q;
  stop_loss_multiple : Q;
  allow_sl_adjustment : bool;
  use_trend_filter : bool;
  trend_filter_mode : string;
  use_rsi_filter : bool;
  rsi_period : Z;
  rsi_min : Q;
  rsi_max : Q;
  atr_multiplier : Q;
  use_stochastic_filter : bool;
  stochastic_k_period : Z;
  stochastic_d_period : Z;
  stochastic_smoothing : Z;
  stochastic_overbought : Q;
  use_dte_exit : bool;
  dte_exit_threshold : Z;
  use_trailing_stop : bool;
  trailing_stop_activation : Q;
  trailing_stop_distance : Q;
  use_supertrend_filter : bool;
  supertrend_period : Z;
  supertrend_multiplier : Q;
  use_vwap_filter : bool;
  vwap_mode : string;
  vwap_period : Z;
  use_adx_filter : bool;
  adx_period : Z;
  adx_threshold : Q;
  adx_require_bullish : bool;
  use_williams_filter : bool;
  williams_period : Z;
  williams_overbought : Q;
  williams_oversold : Q;
  use_macd_filter : bool;
  macd_fast : Z;
  macd_slow : Z;
  macd_signal : Z;
  macd_mode : string;
  use_bollinger_filter : bool;
  bollinger_period : Z;
  bollinger_std : Q
}.

(** The dataclass defaults; the five fields without a default are arguments. *)
Definition default_config (syms : list string) (d0 d1 : Z)
    (method : StrikeMethod) (strategy : ExitStrategy) : BacktestConfig :=
  {| symbols := syms; start_date := d0; end_date := d1;
     strike_method := method; exit_strategy := strategy;
     initial_capital := 1000000; position_size := 1;
     risk_free_rate := 7 # 100; default_iv := 20 # 100;
     profit_target_pct := 50; stop_loss_multiple := 2;
     allow_sl_adjustment := false;
     use_trend_filter := false; trend_filter_mode := "NONE";
     use_rsi_filter := false; rsi_period := 14; rsi_min := 40; rsi_max := 70;
     atr_multiplier := 3 # 2;
     use_stochastic_filter := false; stochastic_k_period := 14;
     stochastic_d_period := 3; stochastic_smoothing := 3;
     stochastic_overbought := 70;
     use_dte_exit := false; dte_exit_threshold := 7;
     use_trailing_stop := false; trailing_stop_activation := 25;
     trailing_stop_distance := 15;
     use_supertrend_filter := false; supertrend_period := 10;
     supertrend_multiplier := 3;
     use_vwap_filter := false; vwap_mode := "ABOVE"; vwap_period := 1;
     use_adx_filter := false; adx_period := 14; adx_threshold := 25;
     adx_require_bullish := true;
     use_williams_filter := false; williams_period := 14;
     williams_overbought := -20; williams_oversold := -80;
     use_macd_filter := false; macd_fast := 12; macd_slow := 26;
     macd_signal := 9; macd_mode := "BULLISH";
     use_bollinger_filter := false; bollinger_period := 20;
     bollinger_std := 2 |}.


(** A configuration with the given filters enabled. *)
Definition with_filters (c : BacktestConfig)
    (trend_legacy rsi stochastic : bool) : BacktestConfig :=
  {| symbols := symbols c;
     start_date := start_date c;
     end_date := end_date c;
     strike_method := strike_method c;
     exit_strategy := exit_strategy c;
     initial_capital := initial_capital c;
     position_size := position_size c;
     risk_free_rate := risk_free_rate c;
     default_iv := default_iv c;
     profit_target_pct := profit_target_pct c;
     stop_loss_multiple := stop_loss_multiple c;
     allow_sl_adjustment := allow_sl_adjustment c;
     use_trend_filter := trend_legacy;
     trend_filter_mode := trend_filter_mode c;
     use_rsi_filter := rsi;
     rsi_period := rsi_period c;
     rsi_min := rsi_min c;
     rsi_max := rsi_max c;
     atr_multiplier := atr_multiplier c;
     use_stochastic_filter := stochastic;
     stochastic_k_period := stochastic_k_period c;
     stochastic_d_period := stochastic_d_period c;
     stochastic_smoothing := stochastic_smoothing c;
     stochastic_overbought := stochastic_overbought c;
     use_dte_exit := use_dte_exit c;
     dte_exit_threshold := dte_exit_threshold c;
     use_trailing_stop := use_trailing_stop c;
     trailing_stop_activation := trailing_stop_activation c;
     trailing_stop_distance := trailing_stop_distance c;
     use_supertrend_filter := use_supertrend_filter c;
     supertrend_period := supertrend_period c;
     supertrend_multiplier := supertrend_multiplier c;
     use_vwap_filter := use_vwap_filter c;
     vwap_mode := vwap_mode c;
     vwap_period := vwap_period c;
     use_adx_filter := use_adx_filter c;
     adx_period := adx_period c;
     adx_threshold := adx_threshold c;
     adx_require_bullish := adx_require_bullish c;
     use_williams_filter := use_williams_filter c;
     williams_period := williams_period c;
     williams_overbought := williams_overbought c;
     williams_oversold := williams_oversold c;
     use_macd_filter := use_macd_filter c;
     macd_fast := macd_fast c;
     macd_slow := macd_slow c;
     macd_signal := macd_signal c;
     macd_mode := macd_mode c;
     use_bollinger_filter := use_bollinger_filter c;
     bollinger_period := bollinger_period c;
     bollinger_std := bollinger_std c |}.

Module Position.

Record t := mk {
  symbol : string;
  lot_size : Z;
  entry_date : Z;
  stock_entry_price : Q;
  strike_price : Q;
  premium_received : Q;
  expiry_date : Z;
  delta_at_entry : Q;
  theta_at_entry : Q;
  iv_at_entry : Q;
  adjusted : bool;
  original_premium : Q;
  adjustment_date : option Z;
  adjustment_cost : Q;
  profit_high_water_mark : Q;
  trailing_stop_active : bool
}.

End Position.

Module Trade.

Record t := mk {
  symbol : string;
  lot_size : Z;
  entry_date : Z;
  stock_entry_price : Q;
  strike_price : Q;
  premium_received : Q;
  expiry_date : Z;
  exit_date : Z;
  stock_exit_price : Q;
  option_exit_price : Q;
  exit_reason : string;
  stock_pnl : Q;
  option_pnl : Q;
  total_pnl : Q;
  return_pct : Q;
  delta_at_entry : Q;
  theta_at_entry : Q;
  iv_at_entry : Q;
  strike_method : string;
  exit_strategy : string
}.

End Trade.

(** A Python [dict] with string keys: an association list in insertion
    order, one entry per key. *)
Definition dict (V : Type) : Type := list (string * V).

Fixpoint dict_get {V : Type} (k : string) (d : dict V) : option V :=
  match d with
  | [] => None
  | (k', v) :: d' => if String.eqb k' k then Some v else dict_get k d'
  end.

(** [d[k] = v]: in place for a present key, appended otherwise. *)
Fixpoint dict_set {V : Type} (k : string) (v : V) (d : dict V) : dict V :=
  match d with
  | [] => [(k, v)]
  | (k', v') :: d' =>
      if String.eqb k' k then (k', v) :: d' else (k', v') :: dict_set k v d'
  end.

(** [d.pop(k)]: the value and the remaining dictionary; [KeyError] when
    the key is absent. *)
Fixpoint dict_pop {V : Type} (k : string) (d : dict V) : option (V * dict V) :=
  match d with
  | [] => None
  | (k', v) :: d' =>
      if String.eqb k' k then Some (v, d')
      else match dict_pop k d' with
           | None => None
           | Some (x, rest) => Some (x, (k', v) :: rest)
           end
  end.

(** The mutable state of the engine: [self.positions], [self.trades],
    [self.cash]. *)
Record EngineState := {
  positions : dict Position.t;
  trades : list Trade.t;
  cash : Q
}.

(** [df.loc[label, 'close']] on a unique index. *)
Definition loc_close (label : Z) (df : DataFrame) : option Q :=
  option_map close (find (fun b => (bar_date b =? label)%Z) df).

Definition _get_price (symbol : string) (date : Z)
    (stock_data : dict DataFrame) : option Q :=
  match dict_get symbol stock_data with
  | None => None
  | Some df =>
      match loc_close date df with
      | Some c => Some c
      | None =>
          match rev (df_upto date df) with
          | [] => None
          | nearest :: _ => loc_close (bar_date nearest) df
          end
      end
  end.

Section Engine.

Context {M : MathLib}.

(** The rendering of a float inside an f-string ([repr]). *)
Variable float_repr : Q -> string.

Variable config : BacktestConfig.

Definition _close_position (symbol : string) (exit_date : Z)
    (stock_exit_price option_exit_price : Q) (exit_reason : string)
    (st : EngineState) : option EngineState :=
  match dict_pop symbol (positions st) with
  | None => None
  | Some (position, rest) =>
      let lot := inject_Z (Position.lot_size position) in
      let stock_pnl :=
        (stock_exit_price - Position.stock_entry_price position) * lot in
      let option_pnl :=
        (Position.premium_received position - option_exit_price) * lot in
      let total_pnl := stock_pnl + option_pnl in
      let initial_investment := Position.stock_entry_price position * lot in
      let return_pct :=
        if Qlt_bool 0 initial_investment
        then (total_pnl / initial_investment) * 100 else 0 in
      let trade :=
        {| Trade.symbol := symbol;
           Trade.lot_size := Position.lot_size position;
           Trade.entry_date := Position.entry_date position;
           Trade.stock_entry_price := Position.stock_entry_price position;
           Trade.strike_price := Position.strike_price position;
           Trade.premium_received := Position.premium_received position;
           Trade.expiry_date := Position.expiry_date position;
           Trade.exit_date := exit_date;
           Trade.stock_exit_price := stock_exit_price;
           Trade.option_exit_price := option_exit_price;
           Trade.exit_reason := exit_reason;
           Trade.stock_pnl := stock_pnl;
           Trade.option_pnl := option_pnl;
           Trade.total_pnl := total_pnl;
           Trade.return_pct := return_pct;
           Trade.delta_at_entry := Position.delta_at_entry position;
           Trade.theta_at_entry := Position.theta_at_entry position;
           Trade.iv_at_entry := Position.iv_at_entry position;
           Trade.strike_method := strike_method_value (strike_method config);
           Trade.exit_strategy := exit_strategy_value (exit_strategy config) |} in
      let cash' :=
        if String.eqb exit_reason "ASSIGNED"
        then cash st + Position.strike_price position * lot
        else cash st + stock_exit_price * lot - option_exit_price * lot in
      Some {| positions := rest;
              trades := trades st ++ [trade];
              cash := cash' |}
  end.

Definition _handle_expiry (symbol : string) (current_date : Z)
    (stock_data : dict DataFrame) (st : EngineState) : option EngineState :=
  match dict_get symbol (positions st) with
  | None => None
  | Some position =>
      let stock_price :=
        match _get_price symbol current_date stock_data with
        | None => Position.stock_entry_price position
        | Some p => p
        end in
      if Qle_bool (Position.strike_price position) stock_price
      then _close_position symbol current_date
             (Position.strike_price position) 0 "ASSIGNED" st
      else _close_position symbol current_date stock_price 0 "EXPIRY" st
  end.

(** A [for] loop over a list whose body may raise. *)
Fixpoint for_each {A : Type} (body : A -> EngineState -> option EngineState)
    (l : list A) (st : EngineState) : option EngineState :=
  match l with
  | [] => Some st
  | a :: l' =>
      match body a st with
      | None => None
      | Some st' => for_each body l' st'
      end
  end.

Definition expired_symbols (current_date : Z) (st : EngineState) : list string :=
  map fst (filter (fun sp => (Position.expiry_date (snd sp) <=? current_date)%Z)
                  (positions st)).

Definition _check_expiries (current_date : Z) (stock_data : dict DataFrame)
    (st : EngineState) : option EngineState :=
  for_each (fun symbol => _handle_expiry symbol current_date stock_data)
           (expired_symbols current_date st) st.

(** *** Strike ladder *)

Definition _get_strike_interval (stock_price : Q) : Q :=
  if Qlt_bool stock_price 100 then 5 # 2
  else if Qlt_bool stock_price 500 then 5
  else if Qlt_bool stock_price 1000 then 10
  else if Qlt_bool stock_price 2500 then 25
  else if Qlt_bool stock_price 5000 then 50
  else 100.

(** [round((stock_price * 0.9) / interval)] and
    [round((stock_price * 1.2) / interval)]. *)
Definition ladder_start_index (stock_price interval : Q) : Z :=
  py_round ((stock_price * (9 # 10)) / interval).

Definition ladder_end_index (stock_price interval : Q) : Z :=
  py_round ((stock_price * (12 # 10)) / interval).

(** The [while current <= end] loop; [fuel] bounds the number of tests of
    its condition. *)
Fixpoint strikes_loop (fuel : nat) (current end_ interval : Q) : list Q :=
  match fuel with
  | O => []
  | S fuel' =>
      if Qle_bool current end_
      then current :: strikes_loop fuel' (current + interval) end_ interval
      else []
  end.

(** One test per strike between the two indices, and the last one, which
    fails ([strikes_loop_fuel_enough]). *)
Definition ladder_fuel (stock_price interval : Q) : nat :=
  S (Z.to_nat (ladder_end_index stock_price interval -
               ladder_start_index stock_price interval + 1)).

Definition _generate_strikes (stock_price interval : Q) : list Q :=
  let start := inject_Z (ladder_start_index stock_price interval) * interval in
  let end_ := inject_Z (ladder_end_index stock_price interval) * interval in
  strikes_loop (ladder_fuel stock_price interval) start end_ interval.

(** [min(strikes, key=lambda x: abs(x - target))] *)
Definition nearest_strike (strikes : list Q) (target : pyfloat) : option Q :=
  py_min_key flt (fun x => fabs (fsub (Fin x) target)) strikes.

(** *** Indicators used for strike selection *)

Definition s_map3 (f : pyfloat -> pyfloat -> pyfloat -> pyfloat)
    (a b c : Series) : Series :=
  map (fun xyz => f (fst (fst xyz)) (snd (fst xyz)) (snd xyz))
      (combine (combine a b) c).

(** True range: [max(high - low, |high - prev_close|, |low - prev_close|)]. *)
Definition true_range_of (df : DataFrame) : Series :=
  let high_ := col high df in
  let low_ := col low df in
  let close_ := col close df in
  let prev_close := s_shift close_ in
  let tr1 := s_map2 fsub high_ low_ in
  let tr2 := map fabs (s_map2 fsub high_ prev_close) in
  let tr3 := map fabs (s_map2 fsub low_ prev_close) in
  s_map3 row_max3 tr1 tr2 tr3.

Definition _calculate_atr (symbol : string) (current_date : Z)
    (stock_data : dict DataFrame) (period : nat) : pyfloat :=
  match dict_get symbol stock_data with
  | None => Fin 0
  | Some df =>
      let historical_data := tail (period + 1) (df_upto current_date df) in
      if (List.length historical_data <? period + 1)%nat then
        if (0 <? List.length historical_data)%nat then
          let avg_price := agg_mean (map close historical_data) in
          fmul avg_price (Fin (2 # 100))
        else Fin 0
      else
        let true_range := true_range_of historical_data in
        agg_mean (finite_values (tail period true_range))
  end.

Record Pivots := {
  pivot : Q;
  r1 : Q;
  r2 : Q;
  r3 : Q;
  s1 : Q;
  s2 : Q;
  s3 : Q
}.

(** The standard formulas, from the high, low and close of one bar. *)
Definition pivots_of_bar (prev_day : Bar) : Pivots :=
  let high_ := high prev_day in
  let low_ := low prev_day in
  let close_ := close prev_day in
  let pivot_ := (high_ + low_ + close_) / 3 in
  {| pivot := pivot_;
     r1 := (2 * pivot_) - low_;
     r2 := pivot_ + (high_ - low_);
     r3 := high_ + 2 * (pivot_ - low_);
     s1 := (2 * pivot_) - high_;
     s2 := pivot_ - (high_ - low_);
     s3 := low_ - 2 * (high_ - pivot_) |}.

(** [l.iloc[-k]] on the rows of a table, for [1 <= k <= len(l)]. *)
Definition row_from_end (k : nat) (l : DataFrame) : option Bar :=
  nth_error l (List.length l - k).

(** The result is [None] for the empty dictionary [{}]. *)
Definition _calculate_pivot_points (symbol : string) (current_date : Z)
    (stock_data : dict DataFrame) : option Pivots :=
  match dict_get symbol stock_data with
  | None => None
  | Some df =>
      let historical_data := tail 2 (df_upto current_date df) in
      if (List.length historical_data <? 1)%nat then None
      else
        let prev_day :=
          if (2 <=? List.length historical_data)%nat
          then row_from_end 2 historical_data
          else row_from_end 1 historical_data in
        option_map pivots_of_bar prev_day
  end.

(** [rolling(...).std()]: the sample standard deviation (ddof = 1). *)
Definition agg_std (l : list Q) : pyfloat :=
  match l with
  | [] | [_] => NaN
  | _ =>
      let n := inject_Z (Z.of_nat (List.length l)) in
      let mean := q_sum l / n in
      Fin (math_sqrt (q_sum (map (fun x => (x - mean) * (x - mean)) l) / (n - 1)))
  end.

Definition _calculate_bollinger_bands (df : DataFrame) (period : Z)
    (std_dev : Q) : Series * Series * Series :=
  let close_ := col close df in
  let w := Z.to_nat period in
  let middle_band := rolling w w agg_mean close_ in
  let rolling_std := rolling w w agg_std close_ in
  let upper_band :=
    s_map2 fadd middle_band (map (fmul (Fin std_dev)) rolling_std) in
  let lower_band :=
    s_map2 fsub middle_band (map (fmul (Fin std_dev)) rolling_std) in
  (upper_band, middle_band, lower_band).

(** *** Strike selection *)

(** [strike, _ = self.greeks.find_strike_by_delta(...)] and
    [return strike]. *)
Definition strike_by_delta (stock_price time_to_expiry iv target_delta : Q)
    (strikes : list Q) : option Q :=
  match GreeksCalculator.find_strike_by_delta (risk_free_rate config)
          stock_price time_to_expiry iv target_delta strikes "CE" with
  | None => None
  | Some (strike, _) => strike
  end.

(** The target of the [BOLLINGER_UPPER] method when the band is usable. *)
Definition bollinger_target (symbol : string) (stock_price : Q)
    (current_date : Z) (stock_data : dict DataFrame) : option pyfloat :=
  match dict_get symbol stock_data with
  | None => None
  | Some df =>
      let historical_data := df_upto current_date df in
      if (bollinger_period config + 5 <=? Z.of_nat (List.length historical_data))%Z
      then
        let '(upper_band, middle_band, _) :=
          _calculate_bollinger_bands historical_data
            (bollinger_period config) (bollinger_std config) in
        let current_upper := iloc_last upper_band in
        if negb (isna current_upper) && fgt current_upper (Fin stock_price)
        then Some current_upper
        else None
      else None
  end.

(** The result is [None] when the Python code returns [None] or raises
    ([min] of an empty ladder, the pricing of a strike). *)
Definition _select_strike (symbol : string) (stock_price time_to_expiry iv : Q)
    (iv_metrics : option IVPercentileService.IVMetrics)
    (current_date : Z) (stock_data : dict DataFrame) : option Q :=
  let strike_interval := _get_strike_interval stock_price in
  let strikes := _generate_strikes stock_price strike_interval in
  match strike_method config with
  | ATR_BASED =>
      let atr := _calculate_atr symbol current_date stock_data 14 in
      let target := fadd (Fin stock_price) (fmul atr (Fin (atr_multiplier config))) in
      nearest_strike strikes target
  | ADAPTIVE_DELTA =>
      let target_delta :=
        match iv_metrics with
        | Some m => IVPercentileService.target_delta m
        | None => 30 # 100
        end in
      strike_by_delta stock_price time_to_expiry iv target_delta strikes
  | DELTA_30 =>
      strike_by_delta stock_price time_to_expiry iv (30 # 100) strikes
  | DELTA_40 =>
      strike_by_delta stock_price time_to_expiry iv (40 # 100) strikes
  | OTM_2PCT =>
      nearest_strike strikes (Fin (stock_price * (102 # 100)))
  | OTM_5PCT =>
      nearest_strike strikes (Fin (stock_price * (105 # 100)))
  | ATM =>
      nearest_strike strikes (Fin stock_price)
  | PIVOT_R1 =>
      match _calculate_pivot_points symbol current_date stock_data with
      | Some pivots =>
          let target := r1 pivots in
          let target :=
            if Qle_bool target stock_price
            then stock_price * (102 # 100) else target in
          nearest_strike strikes (Fin target)
      | None =>
          nearest_strike strikes (Fin (stock_price * (102 # 100)))
      end
  | PIVOT_R2 =>
      match _calculate_pivot_points symbol current_date stock_data with
      | Some pivots =>
          let target := r2 pivots in
          let target :=
            if Qle_bool target stock_price
            then stock_price * (105 # 100) else target in
          nearest_strike strikes (Fin target)
      | None =>
          nearest_strike strikes (Fin (stock_price * (105 # 100)))
      end
  | BOLLINGER_UPPER =>
      match bollinger_target symbol stock_price current_date stock_data with
      | Some target => nearest_strike strikes target
      | None => nearest_strike strikes (Fin (stock_price * (102 # 100)))
      end
  | OTHER_METHOD _ =>
      nearest_strike strikes (Fin (stock_price * (102 # 100)))
  end.

(** *** Early exits and the roll-up adjustment *)

(** A position with new values for the fields the engine assigns after
    the position was opened. *)
Definition with_fields (p : Position.t) (strike premium delta : Q)
    (adjusted : bool) (original_premium : Q) (adjustment_date : option Z)
    (adjustment_cost hwm : Q) (active : bool) : Position.t :=
  {| Position.symbol := Position.symbol p;
     Position.lot_size := Position.lot_size p;
     Position.entry_date := Position.entry_date p;
     Position.stock_entry_price := Position.stock_entry_price p;
     Position.strike_price := strike;
     Position.premium_received := premium;
     Position.expiry_date := Position.expiry_date p;
     Position.delta_at_entry := delta;
     Position.theta_at_entry := Position.theta_at_entry p;
     Position.iv_at_entry := Position.iv_at_entry p;
     Position.adjusted := adjusted;
     Position.original_premium := original_premium;
     Position.adjustment_date := adjustment_date;
     Position.adjustment_cost := adjustment_cost;
     Position.profit_high_water_mark := hwm;
     Position.trailing_stop_active := active |}.

(** [position.profit_high_water_mark = v] *)
Definition set_profit_high_water_mark (v : Q) (p : Position.t) : Position.t :=
  with_fields p (Position.strike_price p) (Position.premium_received p)
    (Position.delta_at_entry p) (Position.adjusted p)
    (Position.original_premium p) (Position.adjustment_date p)
    (Position.adjustment_cost p) v (Position.trailing_stop_active p).

(** [position.trailing_stop_active = v] *)
Definition set_trailing_stop_active (v : bool) (p : Position.t) : Position.t :=
  with_fields p (Position.strike_price p) (Position.premium_received p)
    (Position.delta_at_entry p) (Position.adjusted p)
    (Position.original_premium p) (Position.adjustment_date p)
    (Position.adjustment_cost p) (Position.profit_high_water_mark p) v.

(** [position.original_premium = v] *)
Definition set_original_premium (v : Q) (p : Position.t) : Position.t :=
  with_fields p (Position.strike_price p) (Position.premium_received p)
    (Position.delta_at_entry p) (Position.adjusted p)
    v (Position.adjustment_date p)
    (Position.adjustment_cost p) (Position.profit_high_water_mark p)
    (Position.trailing_stop_active p).

(** What the loop of [_check_early_exits] decides for one position: an
    entry of [symbols_to_close], an entry of [symbols_to_adjust], or
    neither. *)
Inductive ExitAction : Type :=
| NoAction
| CloseAction (stock_price option_price : Q) (reason : string)
| AdjustAction (stock_price buyback_price premium_lost time_to_expiry iv : Q).

Definition check_profit_target : bool :=
  match exit_strategy config with
  | PROFIT_TARGET | PROFIT_TARGET_AND_STOP_LOSS => true
  | _ => false
  end.

Definition check_stop_loss : bool :=
  match exit_strategy config with
  | STOP_LOSS | PROFIT_TARGET_AND_STOP_LOSS => true
  | _ => false
  end.

(** The block [# Check stop loss]. *)
Definition stop_loss_block (position : Position.t)
    (stock_price current_option_price option_pnl time_to_expiry iv : Q)
    : ExitAction :=
  if check_stop_loss then
    let stop_multiple := stop_loss_multiple config in
    if Qle_bool option_pnl (- stop_multiple * Position.premium_received position)
    then
      if allow_sl_adjustment config && negb (Position.adjusted position) then
        let premium_lost := Qabs option_pnl in
        AdjustAction stock_price current_option_price premium_lost
                     time_to_expiry iv
      else
        let reason :=
          String.append "STOP_LOSS_"
            (String.append (float_repr stop_multiple) "X") in
        let reason :=
          if Position.adjusted position
          then String.append reason "_AFTER_ADJ" else reason in
        CloseAction stock_price current_option_price reason
    else NoAction
  else NoAction.

(** The block [# Check profit target]; it falls through to the stop loss. *)
Definition profit_target_block (position : Position.t)
    (stock_price current_option_price option_pnl max_profit time_to_expiry iv : Q)
    : ExitAction :=
  if check_profit_target then
    let target_pct := profit_target_pct config / 100 in
    if Qle_bool (max_profit * target_pct) option_pnl then
      CloseAction stock_price current_option_price
        (String.append "PROFIT_TARGET_"
           (String.append (str_of_Z (py_int (profit_target_pct config))) "PCT"))
    else
      stop_loss_block position stock_price current_option_price option_pnl
                      time_to_expiry iv
  else
    stop_loss_block position stock_price current_option_price option_pnl
                    time_to_expiry iv.

(** The two assignments at the head of the trailing-stop block. *)
Definition trailing_stop_update (position : Position.t) (profit_pct : Q)
    : Position.t :=
  let position :=
    if Qlt_bool (Position.profit_high_water_mark position) profit_pct
    then set_profit_high_water_mark profit_pct position
    else position in
  if negb (Position.trailing_stop_active position) then
    if Qle_bool (trailing_stop_activation config) profit_pct
    then set_trailing_stop_active true position
    else position
  else position.

(** The block [# === ADVANCED EXIT: Trailing stop ===]. *)
Definition trailing_stop_block (position : Position.t)
    (stock_price current_option_price option_pnl max_profit profit_pct
     time_to_expiry iv : Q) : Position.t * ExitAction :=
  if use_trailing_stop config then
    let position := trailing_stop_update position profit_pct in
    if Position.trailing_stop_active position then
      let drawdown_from_high :=
        Position.profit_high_water_mark position - profit_pct in
      if Qle_bool (trailing_stop_distance config) drawdown_from_high then
        (position,
         CloseAction stock_price current_option_price
           (String.append "TRAILING_STOP_"
              (String.append
                 (str_of_Z (py_int (Position.profit_high_water_mark position)))
                 "PCT_HWM")))
      else
        (position,
         profit_target_block position stock_price current_option_price
           option_pnl max_profit time_to_expiry iv)
    else
      (position,
       profit_target_block position stock_price current_option_price
         option_pnl max_profit time_to_expiry iv)
  else
    (position,
     profit_target_block position stock_price current_option_price
       option_pnl max_profit time_to_expiry iv).

(** The block [# === ADVANCED EXIT: DTE-based exit ===]. *)
Definition dte_exit_block (position : Position.t) (dte : Z)
    (stock_price current_option_price option_pnl max_profit profit_pct
     time_to_expiry iv : Q) : Position.t * ExitAction :=
  if use_dte_exit config then
    if (dte <=? dte_exit_threshold config)%Z then
      (position,
       CloseAction stock_price current_option_price
         (String.append "DTE_EXIT_" (String.append (str_of_Z dte) "D")))
    else
      trailing_stop_block position stock_price current_option_price
        option_pnl max_profit profit_pct time_to_expiry iv
  else
    trailing_stop_block position stock_price current_option_price
      option_pnl max_profit profit_pct time_to_expiry iv.

(** The body of the loop over [self.positions.items()]: the position as
    the body leaves it, and what was appended for it; [None] when the
    pricing of the option raises. *)
Definition evaluate_position (current_date : Z) (stock_data : dict DataFrame)
    (symbol : string) (position : Position.t)
    : option (Position.t * ExitAction) :=
  match _get_price symbol current_date stock_data with
  | None => Some (position, NoAction)
  | Some stock_price =>
      let dte := (Position.expiry_date position - current_date)%Z in
      if (dte <=? 0)%Z then Some (position, NoAction)
      else
        let iv := Position.iv_at_entry position in
        let time_to_expiry := inject_Z dte / 365 in
        match
          GreeksCalculator.calculate_option_price (risk_free_rate config)
            stock_price (Position.strike_price position) time_to_expiry iv
            "CE" None
        with
        | None => None
        | Some current_option_price =>
            let option_pnl :=
              Position.premium_received position - current_option_price in
            let max_profit := Position.premium_received position in
            let profit_pct :=
              if Qlt_bool 0 max_profit
              then (option_pnl / max_profit) * 100 else 0 in
            Some (dte_exit_block position dte stock_price current_option_price
                    option_pnl max_profit profit_pct time_to_expiry iv)
        end
  end.

Definition _adjust_position (symbol : string) (current_date : Z)
    (stock_price buyback_price premium_lost time_to_expiry iv : Q)
    (st : EngineState) : option EngineState :=
  match dict_get symbol (positions st) with
  | None => None
  | Some position =>
      let position :=
        if Qeq_bool (Position.original_premium position) 0
        then set_original_premium (Position.premium_received position) position
        else position in
      (* a zero price: ZeroDivisionError *)
      if Qeq_bool stock_price 0 then None
      else
        let otm_increase := premium_lost / stock_price in
        let strike_interval := _get_strike_interval stock_price in
        let strikes := _generate_strikes stock_price strike_interval in
        let min_new_strike :=
          Position.strike_price position + (otm_increase * stock_price) in
        let valid_strikes :=
          filter (fun s => Qle_bool min_new_strike s) strikes in
        let chosen :=
          match valid_strikes with
          | [] => py_max strikes
          | _ :: _ => py_min valid_strikes
          end in
        match chosen with
        | None => None
        | Some new_strike =>
            match
              GreeksCalculator.calculate_option_price (risk_free_rate config)
                stock_price new_strike time_to_expiry iv "CE" None,
              GreeksCalculator.calculate_delta (risk_free_rate config)
                stock_price new_strike time_to_expiry iv "CE" None
            with
            | Some new_premium, Some new_delta =>
                let lot := inject_Z (Position.lot_size position) in
                let cash1 := cash st - buyback_price * lot in
                let cash2 := cash1 + new_premium * lot in
                let position :=
                  with_fields position new_strike new_premium new_delta true
                    (Position.original_premium position) (Some current_date)
                    buyback_price (Position.profit_high_water_mark position)
                    (Position.trailing_stop_active position) in
                Some {| positions := dict_set symbol position (positions st);
                        trades := trades st;
                        cash := cash2 |}
            | _, _ => None
            end
        end
  end.

(** An entry of [symbols_to_close] and of [symbols_to_adjust]. *)
Definition close_entry : Type := string * Q * Q * string.

Definition adjust_entry : Type := string * Q * Q * Q * Q * Q.

Definition close_entries (symbol : string) (a : ExitAction) : list close_entry :=
  match a with
  | CloseAction stock_price option_price reason =>
      [(symbol, stock_price, option_price, reason)]
  | _ => []
  end.

Definition adjust_entries (symbol : string) (a : ExitAction) : list adjust_entry :=
  match a with
  | AdjustAction stock_price buyback_price premium_lost tte iv =>
      [(symbol, stock_price, buyback_price, premium_lost, tte, iv)]
  | _ => []
  end.

(** The loop of [_check_early_exits] over all positions: each symbol with
    what its iteration leaves; [None] when an iteration raises. *)
Fixpoint evaluate_all (current_date : Z) (stock_data : dict DataFrame)
    (ps : dict Position.t)
    : option (list (string * (Position.t * ExitAction))) :=
  match ps with
  | [] => Some []
  | (symbol, position) :: rest =>
      match evaluate_position current_date stock_data symbol position with
      | None => None
      | Some r =>
          match evaluate_all current_date stock_data rest with
          | None => None
          | Some l => Some ((symbol, r) :: l)
          end
      end
  end.

Definition symbols_to_close
    (evaluated : list (string * (Position.t * ExitAction)))
    : list close_entry :=
  flat_map (fun e => close_entries (fst e) (snd (snd e))) evaluated.

Definition symbols_to_adjust
    (evaluated : list (string * (Position.t * ExitAction)))
    : list adjust_entry :=
  flat_map (fun e => adjust_entries (fst e) (snd (snd e))) evaluated.

(** The bodies of the two loops that end [_check_early_exits]. *)
Definition adjust_body (current_date : Z) (e : adjust_entry)
    : EngineState -> option EngineState :=
  let '(symbol, stock_price, buyback_price, premium_lost, tte, iv) := e in
  _adjust_position symbol current_date stock_price buyback_price
                   premium_lost tte iv.

Definition close_body (current_date : Z) (e : close_entry)
    : EngineState -> option EngineState :=
  let '(symbol, stock_price, option_price, reason) := e in
  _close_position symbol current_date stock_price option_price reason.

Definition _check_early_exits (current_date : Z) (stock_data : dict DataFrame)
    (st : EngineState) : option EngineState :=
  match evaluate_all current_date stock_data (positions st) with
  | None => None
  | Some evaluated =>
      let st1 :=
        {| positions := map (fun e => (fst e, fst (snd e))) evaluated;
           trades := trades st;
           cash := cash st |} in
      (* Process adjustments first *)
      match
        for_each (adjust_body current_date) (symbols_to_adjust evaluated) st1
      with
      | None => None
      | Some st2 =>
          (* Then close remaining positions *)
          for_each (close_body current_date) (symbols_to_close evaluated) st2
      end
  end.

(** *** Technical indicators of the entry filters *)

(** The first rows of a Series are numbered from 0. *)
Definition indexed {A : Type} (l : list A) : list (nat * A) :=
  combine (seq 0 (List.length l)) l.

Definition _calculate_rsi (prices : list Q) (period : Z) : Series :=
  let delta := s_diff (of_Q prices) in
  let gains := map (fun d => if fgt d (Fin 0) then d else Fin 0) delta in
  let losses := map (fun d => if flt d (Fin 0) then fneg d else Fin 0) delta in
  let alpha := 1 / inject_Z period in
  let avg_gains :=
    mask_min_periods (Z.to_nat period) (ewm_mean alpha (finite_values gains)) in
  let avg_losses :=
    mask_min_periods (Z.to_nat period) (ewm_mean alpha (finite_values losses)) in
  let rs := s_map2 fdiv avg_gains avg_losses in
  map (fun r => fsub (Fin 100) (fdiv (Fin 100) (fadd (Fin 1) r))) rs.

Definition _calculate_stochastic (df : DataFrame)
    (k_period d_period smoothing : Z) : Series * Series :=
  let k := Z.to_nat k_period in
  let lowest_low := rolling k k agg_min (col low df) in
  let highest_high := rolling k k agg_max (col high df) in
  let range_hl := s_replace_zero (s_map2 fsub highest_high lowest_low) in
  let raw_k :=
    s_map2 fdiv
      (map (fmul (Fin 100)) (s_map2 fsub (col close df) lowest_low))
      range_hl in
  let slow_k :=
    rolling (Z.to_nat smoothing) (Z.to_nat smoothing) agg_mean raw_k in
  let slow_d :=
    rolling (Z.to_nat d_period) (Z.to_nat d_period) agg_mean slow_k in
  (slow_k, slow_d).

Definition _calculate_williams_r (df : DataFrame) (period : Z) : Series :=
  let w := Z.to_nat period in
  let highest_high := rolling w w agg_max (col high df) in
  let lowest_low := rolling w w agg_min (col low df) in
  let range_hl := s_replace_zero (s_map2 fsub highest_high lowest_low) in
  map (fun x => fmul x (Fin (-100)))
      (s_map2 fdiv (s_map2 fsub highest_high (col close df)) range_hl).

(** Every table of this model has its volume column. *)
Definition _calculate_vwap (df : DataFrame) (period : Z) : Series :=
  let typical_price :=
    of_Q (map (fun b => (high b + low b + close b) / 3) df) in
  if (period =? 1)%Z then typical_price
  else
    let tp_volume := s_map2 fmul typical_price (col volume df) in
    let w := Z.to_nat period in
    let cumsum_tp_vol := rolling w 1 agg_sum tp_volume in
    let cumsum_vol := s_replace_zero (rolling w 1 agg_sum (col volume df)) in
    s_map2 fdiv cumsum_tp_vol cumsum_vol.

Definition _calculate_macd (df : DataFrame) (fast slow signal : Z)
    : Series * Series * Series :=
  let close_ := map close df in
  let fast_ema := ewm_span fast close_ in
  let slow_ema := ewm_span slow close_ in
  let macd_line :=
    map (fun fs => fst fs - snd fs) (combine fast_ema slow_ema) in
  let signal_line := ewm_span signal macd_line in
  let histogram :=
    map (fun ms => fst ms - snd ms) (combine macd_line signal_line) in
  (of_Q macd_line, of_Q signal_line, of_Q histogram).

(** The inner function [wilder_smooth] of [_calculate_adx]. *)
Fixpoint wilder_from (n : Q) (prev : pyfloat) (xs : Series) : Series :=
  match xs with
  | [] => []
  | x :: r =>
      let y := fadd (fsub prev (fdiv prev (Fin n))) x in
      y :: wilder_from n y r
  end.

Definition wilder_smooth (series : Series) (n : nat) : Series :=
  let first_sum := agg_sum (finite_values (firstn n series)) in
  repeat NaN (n - 1) ++
  first_sum :: wilder_from (inject_Z (Z.of_nat n)) first_sum (skipn n series).

Definition _calculate_adx (df : DataFrame) (period : Z)
    : Series * Series * Series :=
  let n := Z.to_nat period in
  let true_range := true_range_of df in
  let delta_high := s_diff (col high df) in
  let delta_low := s_map2 fsub (s_shift (col low df)) (col low df) in
  let plus_dm :=
    map (fun row =>
           let '(i, (dh, dl)) := row in
           if (i =? 0)%nat then Fin 0
           else if fgt dh dl && fgt dh (Fin 0) then dh else Fin 0)
        (indexed (combine delta_high delta_low)) in
  let minus_dm :=
    map (fun row =>
           let '(i, (dh, dl)) := row in
           if (i =? 0)%nat then Fin 0
           else if fgt dl dh && fgt dl (Fin 0) then dl else Fin 0)
        (indexed (combine delta_high delta_low)) in
  let smoothed_tr := wilder_smooth true_range n in
  let smoothed_plus_dm := wilder_smooth plus_dm n in
  let smoothed_minus_dm := wilder_smooth minus_dm n in
  let plus_di :=
    s_map2 fdiv (map (fmul (Fin 100)) smoothed_plus_dm)
           (s_replace_zero smoothed_tr) in
  let minus_di :=
    s_map2 fdiv (map (fmul (Fin 100)) smoothed_minus_dm)
           (s_replace_zero smoothed_tr) in
  let di_sum := s_map2 fadd plus_di minus_di in
  let di_diff := map fabs (s_map2 fsub plus_di minus_di) in
  let dx :=
    s_map2 fdiv (map (fmul (Fin 100)) di_diff) (s_replace_zero di_sum) in
  let adx := wilder_smooth (s_fillna_zero dx) n in
  (adx, plus_di, minus_di).

(** One row of the four Series that the loop of [_calculate_supertrend]
    fills: [final_upper], [final_lower], [supertrend], [trend_direction]. *)
Record SupertrendRow := {
  final_upper : pyfloat;
  final_lower : pyfloat;
  supertrend_line : pyfloat;
  trend_direction : Z
}.

(** The body of the loop at index [i]; [prev] is the row [i-1] with
    [close.iloc[i-1]]. *)
Definition supertrend_row (start_idx i : nat) (prev : option (SupertrendRow * Q))
    (basic_upper basic_lower : pyfloat) (close_i : Q) : SupertrendRow :=
  if (i <? start_idx)%nat then
    {| final_upper := NaN; final_lower := NaN;
       supertrend_line := NaN; trend_direction := 0 |}
  else
    match (if (i =? start_idx)%nat then None else prev) with
    | None =>
        if fle (Fin close_i) basic_upper then
          {| final_upper := basic_upper; final_lower := basic_lower;
             supertrend_line := basic_upper; trend_direction := -1 |}
        else
          {| final_upper := basic_upper; final_lower := basic_lower;
             supertrend_line := basic_lower; trend_direction := 1 |}
    | Some (p, close_prev) =>
        let fu :=
          if flt basic_upper (final_upper p) ||
             fgt (Fin close_prev) (final_upper p)
          then basic_upper else final_upper p in
        let fl :=
          if fgt basic_lower (final_lower p) ||
             flt (Fin close_prev) (final_lower p)
          then basic_lower else final_lower p in
        if (trend_direction p =? -1)%Z then
          if fgt (Fin close_i) fu then
            {| final_upper := fu; final_lower := fl;
               supertrend_line := fl; trend_direction := 1 |}
          else
            {| final_upper := fu; final_lower := fl;
               supertrend_line := fu; trend_direction := -1 |}
        else
          if flt (Fin close_i) fl then
            {| final_upper := fu; final_lower := fl;
               supertrend_line := fu; trend_direction := -1 |}
          else
            {| final_upper := fu; final_lower := fl;
               supertrend_line := fl; trend_direction := 1 |}
    end.

Fixpoint supertrend_loop (start_idx : nat) (prev : option (SupertrendRow * Q))
    (rows : list (nat * (pyfloat * pyfloat * Q))) : list SupertrendRow :=
  match rows with
  | [] => []
  | (i, (bu, bl, c)) :: rest =>
      let row := supertrend_row start_idx i prev bu bl c in
      row :: supertrend_loop start_idx (Some (row, c)) rest
  end.

Definition _calculate_supertrend (df : DataFrame) (period : Z)
    (multiplier : Q) : Series * list Z :=
  let w := Z.to_nat period in
  let atr := rolling w w agg_mean (true_range_of df) in
  let hl2 := of_Q (map (fun b => (high b + low b) / 2) df) in
  let basic_upper := s_map2 fadd hl2 (map (fmul (Fin multiplier)) atr) in
  let basic_lower := s_map2 fsub hl2 (map (fmul (Fin multiplier)) atr) in
  let start_idx := if (0 <? period)%Z then (w - 1)%nat else 0%nat in
  let rows :=
    supertrend_loop start_idx None
      (indexed (combine (combine basic_upper basic_lower) (map close df))) in
  (map supertrend_line rows, map trend_direction rows).

(** *** Entry filters *)

(** [len(historical_data) < min_required] *)
Definition shorter_than {A : Type} (historical_data : list A)
    (min_required : Z) : bool :=
  (Z.of_nat (List.length historical_data) <? min_required)%Z.

(** The legacy filter, which [_check_multi_timeframe_trend_filter]
    replaces.  The two trend filters read the close column only, and
    compare its moving averages without asking whether they are NaN. *)
Definition _check_trend_filter (symbol : string) (current_date : Z)
    (stock_data : dict CloseFrame) : bool :=
  match dict_get symbol stock_data with
  | None => true
  | Some df =>
      let historical_data := cf_upto current_date df in
      if shorter_than historical_data 50 then true
      else
        let close_prices := map snd historical_data in
        let ema_20 := s_ewm_span 20 close_prices in
        let ema_50 := s_ewm_span 50 close_prices in
        let current_ema_20 := iloc_last ema_20 in
        let current_ema_50 := iloc_last ema_50 in
        let filter_passed := flt current_ema_20 current_ema_50 in
        filter_passed
  end.

Definition _check_multi_timeframe_trend_filter (symbol : string)
    (current_date : Z) (stock_data : dict CloseFrame) : bool :=
  let mode := trend_filter_mode config in
  let mode :=
    if String.eqb mode "NONE" && use_trend_filter config
    then "BEARISH"%string else mode in
  if String.eqb mode "NONE" then true
  else
    match dict_get symbol stock_data with
    | None => true
    | Some df =>
        let historical_data := cf_upto current_date df in
        let close_prices := map snd historical_data in
        let long_mode :=
          String.eqb mode "GOLDEN_CROSS" || String.eqb mode "DEATH_CROSS" ||
          String.eqb mode "BULLISH_ALIGNED" in
        if long_mode && shorter_than historical_data 200 then true
        else
          let ema_200 := iloc_last (s_ewm_span 200 close_prices) in
          if shorter_than historical_data 50 then true
          else
            let ema_20 := iloc_last (s_ewm_span 20 close_prices) in
            let ema_50 := iloc_last (s_ewm_span 50 close_prices) in
            if String.eqb mode "BEARISH" then flt ema_20 ema_50
            else if String.eqb mode "BULLISH" then fgt ema_20 ema_50
            else if String.eqb mode "GOLDEN_CROSS" then fgt ema_50 ema_200
            else if String.eqb mode "DEATH_CROSS" then flt ema_50 ema_200
            else if String.eqb mode "BULLISH_ALIGNED"
                 then fgt ema_20 ema_50 && fgt ema_50 ema_200
            else true
    end.

Definition _check_rsi_filter (symbol : string) (current_date : Z)
    (stock_data : dict DataFrame) : bool :=
  match dict_get symbol stock_data with
  | None => true
  | Some df =>
      let historical_data := df_upto current_date df in
      let min_periods := (rsi_period config + 10)%Z in
      if shorter_than historical_data min_periods then true
      else
        let close_prices := map close historical_data in
        let rsi := _calculate_rsi close_prices (rsi_period config) in
        let current_rsi := iloc_last rsi in
        if isna current_rsi then true
        else fle (Fin (rsi_min config)) current_rsi &&
             fle current_rsi (Fin (rsi_max config))
  end.

Definition _check_stochastic_filter (symbol : string) (current_date : Z)
    (stock_data : dict DataFrame) : bool :=
  match dict_get symbol stock_data with
  | None => true
  | Some df =>
      let historical_data := df_upto current_date df in
      let min_required :=
        (stochastic_k_period config + stochastic_smoothing config +
         stochastic_d_period config + 5)%Z in
      if shorter_than historical_data min_required then true
      else
        let '(slow_k, slow_d) :=
          _calculate_stochastic historical_data (stochastic_k_period config)
            (stochastic_d_period config) (stochastic_smoothing config) in
        if ((List.length slow_k <? 2) || (List.length slow_d <? 2))%nat then true
        else
          let current_k := iloc_last slow_k in
          let previous_k := iloc_prev slow_k in
          let current_d := iloc_last slow_d in
          let previous_d := iloc_prev slow_d in
          if isna current_k || isna previous_k ||
             isna current_d || isna previous_d then true
          else
            let overbought := stochastic_overbought config in
            let was_overbought :=
              fgt previous_k (Fin overbought) ||
              fgt current_k (Fin (overbought - 10)) in
            let bearish_crossover :=
              fge previous_k previous_d && flt current_k current_d in
            was_overbought && bearish_crossover
  end.

Definition _check_supertrend_filter (symbol : string) (current_date : Z)
    (stock_data : dict DataFrame) : bool :=
  match dict_get symbol stock_data with
  | None => true
  | Some df =>
      let historical_data := df_upto current_date df in
      let min_required := (supertrend_period config + 10)%Z in
      if shorter_than historical_data min_required then true
      else
        let '(supertrend, trend) :=
          _calculate_supertrend historical_data (supertrend_period config)
            (supertrend_multiplier config) in
        let current_supertrend := iloc_last supertrend in
        let current_trend := last trend 0%Z in
        (* an integer entry is never NaN *)
        if isna current_supertrend then true
        else (current_trend =? 1)%Z
  end.

Definition _check_vwap_filter (symbol : string) (current_date : Z)
    (stock_data : dict DataFrame) : bool :=
  match dict_get symbol stock_data with
  | None => true
  | Some df =>
      let historical_data := df_upto current_date df in
      let min_required := Z.max (vwap_period config) 5 in
      if shorter_than historical_data min_required then true
      else
        let vwap := _calculate_vwap historical_data (vwap_period config) in
        let current_close := iloc_last (col close historical_data) in
        let current_vwap := iloc_last vwap in
        if isna current_close || isna current_vwap then true
        else
          let mode := str_upper (vwap_mode config) in
          if String.eqb mode "ABOVE" then fgt current_close current_vwap
          else if String.eqb mode "BELOW" then flt current_close current_vwap
          else true
  end.

Definition _check_adx_filter (symbol : string) (current_date : Z)
    (stock_data : dict DataFrame) : bool :=
  match dict_get symbol stock_data with
  | None => true
  | Some df =>
      let historical_data := df_upto current_date df in
      let min_required := (2 * adx_period config + 10)%Z in
      if shorter_than historical_data min_required then true
      else
        let '(adx, plus_di, minus_di) :=
          _calculate_adx historical_data (adx_period config) in
        let current_adx := iloc_last adx in
        let current_plus_di := iloc_last plus_di in
        let current_minus_di := iloc_last minus_di in
        if isna current_adx || isna current_plus_di || isna current_minus_di
        then true
        else
          let adx_condition := fgt current_adx (Fin (adx_threshold config)) in
          if adx_require_bullish config then
            let bullish_condition := fgt current_plus_di current_minus_di in
            adx_condition && bullish_condition
          else adx_condition
  end.

Definition _check_bollinger_filter (symbol : string) (current_date : Z)
    (stock_data : dict DataFrame) : bool :=
  match dict_get symbol stock_data with
  | None => true
  | Some df =>
      let historical_data := df_upto current_date df in
      let min_required := (bollinger_period config + 5)%Z in
      if shorter_than historical_data min_required then true
      else
        let '(upper_band, middle_band, _) :=
          _calculate_bollinger_bands historical_data
            (bollinger_period config) (bollinger_std config) in
        let current_close := iloc_last (col close historical_data) in
        let current_upper := iloc_last upper_band in
        let current_middle := iloc_last middle_band in
        if isna current_upper || isna current_middle then true
        else flt current_close current_upper
  end.

Definition _check_macd_filter (symbol : string) (current_date : Z)
    (stock_data : dict DataFrame) : bool :=
  match dict_get symbol stock_data with
  | None => true
  | Some df =>
      let historical_data := df_upto current_date df in
      let min_required := (macd_slow config + macd_signal config + 5)%Z in
      if shorter_than historical_data min_required then true
      else
        let '(macd_line, signal_line, histogram) :=
          _calculate_macd historical_data (macd_fast config)
            (macd_slow config) (macd_signal config) in
        if ((List.length macd_line <? 2) || (List.length signal_line <? 2) ||
            (List.length histogram <? 2))%nat then true
        else
          let current_macd := iloc_last macd_line in
          let current_signal := iloc_last signal_line in
          let current_histogram := iloc_last histogram in
          let previous_histogram := iloc_prev histogram in
          if isna current_macd || isna current_signal || isna current_histogram
          then true
          else
            let mode := str_upper (macd_mode config) in
            if String.eqb mode "BULLISH" then fgt current_macd current_signal
            else if String.eqb mode "REVERSAL" then
              (fgt previous_histogram (Fin 0) &&
               flt current_histogram previous_histogram) ||
              (flt current_histogram (Fin 0) &&
               fge previous_histogram (Fin 0))
            else true
  end.

Definition _check_williams_filter (symbol : string) (current_date : Z)
    (stock_data : dict DataFrame) : bool :=
  match dict_get symbol stock_data with
  | None => true
  | Some df =>
      let historical_data := df_upto current_date df in
      let min_required := (williams_period config + 5)%Z in
      if shorter_than historical_data min_required then true
      else
        let williams_r :=
          _calculate_williams_r historical_data (williams_period config) in
        if (List.length williams_r <? 2)%nat then true
        else
          let current_wr := iloc_last williams_r in
          let previous_wr := iloc_prev williams_r in
          if isna current_wr || isna previous_wr then true
          else
            let overbought := williams_overbought config in
            let was_overbought :=
              fgt previous_wr (Fin overbought) ||
              fgt current_wr (Fin (overbought - 10)) in
            let momentum_turning := flt current_wr previous_wr in
            was_overbought && momentum_turning
  end.

(** The filters of [_check_new_entries], in the order it applies them. *)
Inductive EntryFilter : Type :=
| TrendFilter
| RsiFilter
| StochasticFilter
| SupertrendFilter
| VwapFilter
| AdxFilter
| BollingerFilter
| MacdFilter
| WilliamsFilter.

Definition all_filters : list EntryFilter :=
  [TrendFilter; RsiFilter; StochasticFilter; SupertrendFilter; VwapFilter;
   AdxFilter; BollingerFilter; MacdFilter; WilliamsFilter].

(** The flag that makes [_check_new_entries] call the filter; the trend
    filter is always called. *)
Definition filter_enabled (f : EntryFilter) : bool :=
  match f with
  | TrendFilter => true
  | RsiFilter => use_rsi_filter config
  | StochasticFilter => use_stochastic_filter config
  | SupertrendFilter => use_supertrend_filter config
  | VwapFilter => use_vwap_filter config
  | AdxFilter => use_adx_filter config
  | BollingerFilter => use_bollinger_filter config
  | MacdFilter => use_macd_filter config
  | WilliamsFilter => use_williams_filter config
  end.

(** The close columns of the tables of a run. *)
Definition close_frames (stock_data : dict DataFrame) : dict CloseFrame :=
  map (fun e => (fst e, close_frame (snd e))) stock_data.

Definition check_filter (f : EntryFilter) (symbol : string) (current_date : Z)
    (stock_data : dict DataFrame) : bool :=
  match f with
  | TrendFilter =>
      _check_multi_timeframe_trend_filter symbol current_date
        (close_frames stock_data)
  | RsiFilter => _check_rsi_filter symbol current_date stock_data
  | StochasticFilter => _check_stochastic_filter symbol current_date stock_data
  | SupertrendFilter => _check_supertrend_filter symbol current_date stock_data
  | VwapFilter => _check_vwap_filter symbol current_date stock_data
  | AdxFilter => _check_adx_filter symbol current_date stock_data
  | BollingerFilter => _check_bollinger_filter symbol current_date stock_data
  | MacdFilter => _check_macd_filter symbol current_date stock_data
  | WilliamsFilter => _check_williams_filter symbol current_date stock_data
  end.

(** The chain of [if self.config.use_x: if not self._check_x(...): continue]
    in [_check_new_entries]: [false] when an enabled filter blocks. *)
Definition entry_filters_pass (symbol : string) (current_date : Z)
    (stock_data : dict DataFrame) : bool :=
  forallb (fun f => if filter_enabled f
                    then check_filter f symbol current_date stock_data
                    else true)
          all_filters.

(** *** Volatility estimated from the price history *)

(** [np.log] on one entry: minus infinity at zero, NaN below it. *)
Definition np_log (x : pyfloat) : pyfloat :=
  match x with
  | Fin q =>
      if Qlt_bool 0 q then Fin (math_log q)
      else if Qeq_bool q 0 then NInf else NaN
  | PInf => PInf
  | NInf | NaN => NaN
  end.

(** [s.std()]: the sample standard deviation of the entries that are not
    NaN; NaN when one of them is infinite or fewer than two remain. *)
Definition series_std (s : Series) : pyfloat :=
  if existsb is_inf s then NaN else agg_std (finite_values s).

Definition _estimate_iv (symbol : string) (current_date : Z)
    (stock_data : dict DataFrame) : pyfloat :=
  match dict_get symbol stock_data with
  | None => Fin (default_iv config)
  | Some df =>
      let recent_data := tail 30 (df_upto current_date df) in
      if (List.length recent_data <? 10)%nat then Fin (default_iv config)
      else
        let close_ := col close recent_data in
        let returns := dropna (map np_log (s_map2 fdiv close_ (s_shift close_))) in
        let hv := fmul (series_std returns) (Fin (math_sqrt 252)) in
        let iv := fmul hv (Fin (12 # 10)) in
        fmax2 (Fin (10 # 100)) (fmin2 (Fin (80 # 100)) iv)
  end.

(** *** The end of the run and the equity curve *)

(** The body of the loop of [_close_all_positions]. *)
Definition close_all_body (exit_date : Z) (stock_data : dict DataFrame)
    (symbol : string) (st : EngineState) : option EngineState :=
  match dict_get symbol (positions st) with
  | None => None
  | Some position =>
      let stock_price :=
        match _get_price symbol exit_date stock_data with
        | None => Position.stock_entry_price position
        | Some p => p
        end in
      let dte := Z.max (Position.expiry_date position - exit_date) 0 in
      let option_price :=
        if (0 <? dte)%Z then
          let time_to_expiry := inject_Z dte / 365 in
          GreeksCalculator.calculate_option_price (risk_free_rate config)
            stock_price (Position.strike_price position) time_to_expiry
            (Position.iv_at_entry position) "CE" None
        else Some (py_max2 0 (stock_price - Position.strike_price position)) in
      match option_price with
      | None => None
      | Some option_price =>
          _close_position symbol exit_date stock_price option_price
                          "END_OF_BACKTEST" st
      end
  end.

Definition _close_all_positions (exit_date : Z) (stock_data : dict DataFrame)
    (st : EngineState) : option EngineState :=
  let symbols_to_close := map fst (positions st) in
  for_each (close_all_body exit_date stock_data) symbols_to_close st.

(** *** The days of a run *)

Definition _get_trading_dates (stock_data : dict DataFrame) : list Z :=
  let all_dates :=
    py_set (flat_map (fun sdf => map bar_date (snd sdf)) stock_data) in
  let filtered :=
    filter (fun d => (start_date config <=? d)%Z && (d <=? end_date config)%Z)
           all_dates in
  py_sorted filtered.

(** *** The monthly cycle *)

Definition _is_entry_day (current_date : Calendar.datetime) : bool :=
  if (Calendar.day current_date <=? 5)%Z then true else false.

(** The loop [while last_date.weekday() != 3: last_date -= timedelta(days=1)];
    [fuel] bounds the number of tests of its condition. *)
Fixpoint last_thursday_loop (fuel : nat) (last_date : Calendar.datetime)
    : option Calendar.datetime :=
  match fuel with
  | O => None
  | S fuel' =>
      if negb (Calendar.weekday last_date =? 3)%Z then
        match Calendar.minus_one_day last_date with
        | None => None
        | Some d => last_thursday_loop fuel' d
        end
      else Some last_date
  end.

(** The result is [None] when the Python code raises; seven tests of the
    loop condition always suffice. *)
Definition _get_monthly_expiry (current_date : Calendar.datetime)
    : option Calendar.datetime :=
  let year := Calendar.year current_date in
  let month := Calendar.month current_date in
  let '(year, month) :=
    if (20 <? Calendar.day current_date)%Z then
      let month := (month + 1)%Z in
      if (12 <? month)%Z then ((year + 1)%Z, 1%Z) else (year, month)
    else (year, month) in
  match Calendar.monthrange_days year month with
  | None => None
  | Some last_day =>
      match Calendar.make_datetime year month last_day with
      | None => None
      | Some last_date => last_thursday_loop 7 last_date
      end
  end.

End Engine.

End CoveredCallEngine.

(** ** services/iv_percentile.py: the estimate from realised volatility *)

Module IVEstimates.

Import Pandas CoveredCallEngine.

Section Service.

Context {M : MathLib}.

Definition calculate_iv_from_hv (returns : Series) (annualize : bool)
    : pyfloat :=
  if (List.length returns <? 10)%nat then Fin (20 # 100)
  else
    let std := series_std returns in
    let hv := if annualize then fmul std (Fin (math_sqrt 252)) else std in
    let iv := fmul hv (Fin (12 # 10)) in
    fmax2 (Fin (10 # 100)) (fmin2 (Fin (80 # 100)) iv).

End Service.

End IVEstimates.

(** ** services/metrics_calculator.py *)

Module MetricsCalculator.

Import Pandas CoveredCallEngine.

Definition calculate_total_return (initial_value final_value : Q) : Q :=
  if Qle_bool initial_value 0 then 0
  else ((final_value - initial_value) / initial_value) * 100.

Definition calculate_win_rate (winning_trades total_trades : Z) : Q :=
  if (total_trades <=? 0)%Z then 0
  else (inject_Z winning_trades / inject_Z total_trades) * 100.

Definition calculate_assignment_rate (assigned_trades total_trades : Z) : Q :=
  if (total_trades <=? 0)%Z then 0
  else (inject_Z assigned_trades / inject_Z total_trades) * 100.

(** [s.cummax()]: the running maximum; a NaN entry stays NaN and does
    not enter the maximum. *)
Fixpoint cummax_from (m : option pyfloat) (s : Series) : Series :=
  match s with
  | [] => []
  | x :: r =>
      if isna x then NaN :: cummax_from m r
      else
        let m' :=
          match m with
          | None => x
          | Some v => if flt v x then x else v
          end in
        m' :: cummax_from (Some m') r
  end.

Definition cummax (s : Series) : Series := cummax_from None s.

(** [s.max()]: the greatest entry that is not NaN, NaN when there is
    none. *)
Definition series_max (s : Series) : pyfloat :=
  match dropna s with
  | [] => NaN
  | x :: r => fold_left (fun m y => if flt m y then y else m) r x
  end.

Definition calculate_max_drawdown (equity_curve : Series) : pyfloat :=
  if (List.length equity_curve =? 0)%nat then Fin 0
  else
    let running_max := cummax equity_curve in
    let drawdown :=
      s_map2 fdiv (s_map2 fsub running_max equity_curve) running_max in
    let max_dd := series_max drawdown in
    fmul max_dd (Fin 100).

(** The counts and rates of the block [# Trade metrics] of
    [calculate_all_metrics], on the trades of a run. *)
Record TradeCounts := {
  total_trades : Z;
  profitable_trades : Z;
  losing_trades : Z;
  win_rate : Q;
  assignment_rate : Q
}.

Definition trade_counts (trades : list Trade.t) : TradeCounts :=
  if (0 <? List.length trades)%nat then
    let total := Z.of_nat (List.length trades) in
    let profitable :=
      Z.of_nat (List.length
                  (filter (fun t => Qlt_bool 0 (Trade.total_pnl t)) trades)) in
    let assigned :=
      Z.of_nat (List.length
                  (filter (fun t => String.eqb (Trade.exit_reason t) "ASSIGNED")
                          trades)) in
    {| total_trades := total;
       profitable_trades := profitable;
       losing_trades := (total - profitable)%Z;
       win_rate := calculate_win_rate profitable total;
       assignment_rate := calculate_assignment_rate assigned total |}
  else
    {| total_trades := 0; profitable_trades := 0; losing_trades := 0;
       win_rate := 0; assignment_rate := 0 |}.

End MetricsCalculator.

Module SpecCurve.

(** An equity curve that never falls. *)
Fixpoint nondecreasing (l : list Q) : Prop :=
  match l with
  | [] => True
  | x :: r => (forall y, In y r -> x <= y) /\ nondecreasing r
  end.

End SpecCurve.

(** ** The claims in the words of the specification

    Definitions written from the specification, to be compared with the
    embedded code. *)

Module Spec.

(** "the fraction of trailing estimates strictly below the current one":
    the number of such estimates. *)
Fixpoint strictly_below (current_iv : Q) (trailing : list Q) : nat :=
  match trailing with
  | [] => O
  | iv :: rest =>
      if Qlt_bool iv current_iv
      then S (strictly_below current_iv rest)
      else strictly_below current_iv rest
  end.

(** "Percentile = fraction of trailing estimates strictly below the
    current one, x100"; 50 for an empty trailing list. *)
Definition iv_percentile (current_iv : Q) (trailing : list Q) : Q :=
  match trailing with
  | [] => 50
  | _ :: _ =>
      (inject_Z (Z.of_nat (strictly_below current_iv trailing)) /
       inject_Z (Z.of_nat (List.length trailing))) * 100
  end.

End Spec.

Module SpecPricing.

Section Domain.

Context {M : MathLib}.

(** Arguments on which the pricing formula is computed: positive prices,
    a time to expiry that is not negative, and a divisor
    [volatility * sqrt(T)] that is not zero. *)
Definition priceable (spot strike time_to_expiry volatility : Q) : Prop :=
  0 < spot /\ 0 < strike /\ 0 <= time_to_expiry /\
  ~ (volatility * math_sqrt time_to_expiry == 0).

End Domain.

End SpecPricing.

Module SpecDelta.

(** "the strike minimizing |actual_delta - target_delta| (absolute value
    for puts)" *)
Definition distance (option_type : string) (target_delta delta : Q) : Q :=
  if String.eqb option_type "PE"
  then Qabs (Qabs delta - Qabs target_delta)
  else Qabs (delta - target_delta).

End SpecDelta.

Module SpecLadder.

Import CoveredCallEngine.

(** The strike methods that select by delta, and so price every strike
    of the ladder. *)
Definition selects_by_delta (m : StrikeMethod) : bool :=
  match m with
  | DELTA_30 | DELTA_40 | ADAPTIVE_DELTA => true
  | _ => false
  end.

(** "the price-tier interval (2.5 below 100, 5 below 500, 10 below 1000,
    25 below 2500, 50 below 5000, 100 at or above 5000)" *)
Definition tier_interval (spot interval : Q) : Prop :=
  (spot < 100 -> interval = 5 # 2) /\
  (100 <= spot -> spot < 500 -> interval = 5) /\
  (500 <= spot -> spot < 1000 -> interval = 10) /\
  (1000 <= spot -> spot < 2500 -> interval = 25) /\
  (2500 <= spot -> spot < 5000 -> interval = 50) /\
  (5000 <= spot -> interval = 100).

(** "the ladder spans 90% to 120% of spot ... every ladder strike is an
    integer multiple of that interval": [s] is the multiple number [k] of
    the interval, between 90% and 120% of spot rounded to the interval. *)
Definition ladder_point (spot interval : Q) (k : Z) (s : Q) : Prop :=
  (py_round ((spot * (9 # 10)) / interval) <= k)%Z /\
  (k <= py_round ((spot * (12 # 10)) / interval))%Z /\
  s == inject_Z k * interval.

End SpecLadder.

Module SpecPivot.

Import Pandas CoveredCallEngine.

(** The table is in chronological order, one row per date. *)
Fixpoint chronological (df : DataFrame) : Prop :=
  match df with
  | [] => True
  | b :: rest =>
      (forall b', In b' rest -> (bar_date b < bar_date b')%Z) /\
      chronological rest
  end.

(** The bar the pivots are computed from: of the bars dated at or before
    the current date, the one before the last when there are two or more,
    and the only one when there is exactly one. *)
Definition source_bar (current_date : Z) (df : DataFrame) : option Bar :=
  match rev (df_upto current_date df) with
  | [] => None
  | [only] => Some only
  | _ :: previous :: _ => Some previous
  end.

(** "falling back to 2%/5% OTM if the level is at or below spot or
    unavailable": the target of the strike, [pct] being 1.02 or 1.05. *)
Definition resistance_target (pct stock_price : Q) (level : option Q) : Q :=
  match level with
  | None => stock_price * pct
  | Some l => if Qle_bool l stock_price then stock_price * pct else l
  end.

(** A table with a single bar, dated 5. *)
Definition single_bar : Bar :=
  {| bar_date := 5; open := 10; high := 12; low := 8; close := 10;
     volume := 1000 |}.

Definition single_bar_data : dict DataFrame :=
  [("RELIANCE"%string, [single_bar])].

(** A table with three bars, dated 5, 6 and 7. *)
Definition second_bar : Bar :=
  {| bar_date := 6; open := 10; high := 14; low := 9; close := 13;
     volume := 1200 |}.

Definition third_bar : Bar :=
  {| bar_date := 7; open := 13; high := 15; low := 12; close := 14;
     volume := 900 |}.

Definition three_bar_table : DataFrame := [single_bar; second_bar; third_bar].

End SpecPivot.

Module SpecExpiry.

Import Pandas CoveredCallEngine.

(** The stock price of the settlement: the price of the current date,
    the entry price when there is none. *)
Definition settlement_price (symbol : string) (current_date : Z)
    (stock_data : dict DataFrame) (position : Position.t) : Q :=
  match _get_price symbol current_date stock_data with
  | None => Position.stock_entry_price position
  | Some p => p
  end.

(** "ASSIGNED (stock price >= strike ...) or EXPIRY" *)
Definition settlement_reason (stock_price : Q) (position : Position.t) : string :=
  if Qle_bool (Position.strike_price position) stock_price
  then "ASSIGNED" else "EXPIRY".

(** "assignment crediting strike x lot_size instead of spot x lot_size";
    otherwise the stock price times the lot size minus the option exit
    price, which is 0, times the lot size. *)
Definition settlement_credit (stock_price : Q) (position : Position.t) : Q :=
  if Qle_bool (Position.strike_price position) stock_price
  then Position.strike_price position * inject_Z (Position.lot_size position)
  else stock_price * inject_Z (Position.lot_size position)
       - 0 * inject_Z (Position.lot_size position).

(** The trade that records the settlement of [position]. *)
Definition settles (symbol : string) (current_date : Z) (stock_price : Q)
    (position : Position.t) (trade : Trade.t) : Prop :=
  Trade.symbol trade = symbol /\
  Trade.exit_date trade = current_date /\
  Trade.exit_reason trade = settlement_reason stock_price position /\
  Trade.option_exit_price trade = 0 /\
  Trade.stock_exit_price trade =
    (if Qle_bool (Position.strike_price position) stock_price
     then Position.strike_price position else stock_price) /\
  Trade.strike_price trade = Position.strike_price position /\
  Trade.lot_size trade = Position.lot_size position.

(** A position with strike 1000 that expires on day 30, and a price
    table whose close on that day is exactly 1000. *)
Definition at_strike_position : Position.t :=
  {| Position.symbol := "RELIANCE"; Position.lot_size := 250;
     Position.entry_date := 2; Position.stock_entry_price := 980;
     Position.strike_price := 1000; Position.premium_received := 12;
     Position.expiry_date := 30; Position.delta_at_entry := 30 # 100;
     Position.theta_at_entry := - (1 # 2); Position.iv_at_entry := 20 # 100;
     Position.adjusted := false; Position.original_premium := 0;
     Position.adjustment_date := None; Position.adjustment_cost := 0;
     Position.profit_high_water_mark := 0;
     Position.trailing_stop_active := false |}.

Definition at_strike_state : EngineState :=
  {| positions := [("RELIANCE"%string, at_strike_position)];
     trades := [];
     cash := 5000 |}.

Definition at_strike_data : dict DataFrame :=
  [("RELIANCE"%string,
    [{| bar_date := 30; open := 990; high := 1005; low := 985;
        close := 1000; volume := 1000 |}])].

End SpecExpiry.

Module SpecAdjust.

Import Pandas CoveredCallEngine.

(** "An adjusted position keeps its original entry date/expiry": the
    fields of a position that an adjustment leaves as they were. *)
Definition same_identity (before after : Position.t) : Prop :=
  Position.symbol after = Position.symbol before /\
  Position.lot_size after = Position.lot_size before /\
  Position.entry_date after = Position.entry_date before /\
  Position.stock_entry_price after = Position.stock_entry_price before /\
  Position.expiry_date after = Position.expiry_date before /\
  Position.theta_at_entry after = Position.theta_at_entry before /\
  Position.iv_at_entry after = Position.iv_at_entry before /\
  Position.profit_high_water_mark after =
    Position.profit_high_water_mark before /\
  Position.trailing_stop_active after = Position.trailing_stop_active before.

(** What an adjustment of the position of [symbol] may change: that
    position, within [same_identity], and the cash. *)
Definition frame (symbol : string) (st st' : EngineState) : Prop :=
  exists before after,
    dict_get symbol (positions st) = Some before /\
    dict_get symbol (positions st') = Some after /\
    same_identity before after /\
    (forall other, other <> symbol ->
       dict_get other (positions st') = dict_get other (positions st)) /\
    map fst (positions st') = map fst (positions st) /\
    trades st' = trades st.

(** A position with strike 1000 on a stock now at 1040, and the state
    that holds it. *)
Definition losing_position : Position.t :=
  {| Position.symbol := "RELIANCE"; Position.lot_size := 250;
     Position.entry_date := 2; Position.stock_entry_price := 980;
     Position.strike_price := 1000; Position.premium_received := 12;
     Position.expiry_date := 30; Position.delta_at_entry := 30 # 100;
     Position.theta_at_entry := - (1 # 2); Position.iv_at_entry := 20 # 100;
     Position.adjusted := false; Position.original_premium := 0;
     Position.adjustment_date := None; Position.adjustment_cost := 0;
     Position.profit_high_water_mark := 0;
     Position.trailing_stop_active := false |}.

Definition losing_state : EngineState :=
  {| positions := [("TCS"%string, losing_position);
                   ("RELIANCE"%string, losing_position)];
     trades := [];
     cash := 5000 |}.

Definition adjusting_config : BacktestConfig :=
  default_config ["RELIANCE"%string] 0 365 DELTA_30 STOP_LOSS.

(** The state after the adjustment of [losing_state] on day 10, at a
    stock price of 1040, a buyback price of 45 and a lost premium of 33. *)
Definition adjusted_state : EngineState :=
  match @_adjust_position sample_math adjusting_config "RELIANCE" 10
          1040 45 33 (20 # 365) (20 # 100) losing_state with
  | Some st' => st'
  | None => losing_state
  end.

End SpecAdjust.

Module SpecExit.

Import Pandas CoveredCallEngine.



Section Rules.

Variable float_repr : Q -> string.

Variable config : BacktestConfig.

(** What the day shows of a position: days to expiry, stock price,
    current option price, time to expiry in years. *)
Record DayMark := {
  dte : Z;
  stock_price : Q;
  option_price : Q;
  time_to_expiry : Q
}.

(** Option P&L = [premium_received - current_value]. *)
Definition option_pnl (position : Position.t) (m : DayMark) : Q :=
  Position.premium_received position - option_price m.

(** The profit in percent of the premium, 0 without a positive premium. *)
Definition profit_pct (position : Position.t) (m : DayMark) : Q :=
  if Qlt_bool 0 (Position.premium_received position)
  then (option_pnl position m / Position.premium_received position) * 100
  else 0.









End Rules.








End SpecExit.

Module SpecRollUp.

Import Pandas CoveredCallEngine.



(** Day 10, on which the stock trades at 1040. *)
Definition stop_day_data : dict DataFrame :=
  [("RELIANCE"%string,
    [{| bar_date := 10; open := 1030; high := 1045; low := 1025;
        close := 1040; volume := 1000 |}])].


(** The least new strike that [_adjust_position] asks for. *)
Definition min_new_strike (position : Position.t)
    (stock_price premium_lost : Q) : Q :=
  Position.strike_price position + (premium_lost / stock_price) * stock_price.

Section Run.

Context {M : MathLib}.

Variable float_repr : Q -> string.

Variable config : BacktestConfig.



End Run.

End SpecRollUp.

Module SpecFilter.

Import Pandas CoveredCallEngine.

Section Degraded.

Context {M : MathLib}.

Variable config : BacktestConfig.

(** The trend mode in force: the legacy flag stands for BEARISH. *)
Definition trend_mode : string :=
  if String.eqb (trend_filter_mode config) "NONE" && use_trend_filter config
  then "BEARISH"%string else trend_filter_mode config.

(** The modes that read the 200-period average. *)
Definition long_trend_mode : bool :=
  String.eqb trend_mode "GOLDEN_CROSS" || String.eqb trend_mode "DEATH_CROSS" ||
  String.eqb trend_mode "BULLISH_ALIGNED".

(** "that filter's minimum required length" *)
Definition min_history (f : EntryFilter) : Z :=
  match f with
  | TrendFilter => if long_trend_mode then 200 else 50
  | RsiFilter => rsi_period config + 10
  | StochasticFilter =>
      stochastic_k_period config + stochastic_smoothing config +
      stochastic_d_period config + 5
  | SupertrendFilter => supertrend_period config + 10
  | VwapFilter => Z.max (vwap_period config) 5
  | AdxFilter => 2 * adx_period config + 10
  | BollingerFilter => bollinger_period config + 5
  | MacdFilter => macd_slow config + macd_signal config + 5
  | WilliamsFilter => williams_period config + 5
  end.

(** "indicator value at the evaluation date": the values of the last row
    that the filter tests with [pd.isna].  The trend filter tests none of
    its moving averages. *)
Definition current_values (f : EntryFilter) (historical_data : DataFrame)
    : list pyfloat :=
  match f with
  | TrendFilter => []
  | RsiFilter =>
      [iloc_last (_calculate_rsi (map close historical_data)
                                 (rsi_period config))]
  | StochasticFilter =>
      let kd :=
        _calculate_stochastic historical_data (stochastic_k_period config)
          (stochastic_d_period config) (stochastic_smoothing config) in
      [iloc_last (fst kd); iloc_last (snd kd)]
  | SupertrendFilter =>
      [iloc_last (fst (_calculate_supertrend historical_data
                         (supertrend_period config)
                         (supertrend_multiplier config)))]
  | VwapFilter =>
      [iloc_last (_calculate_vwap historical_data (vwap_period config))]
  | AdxFilter =>
      let r := _calculate_adx historical_data (adx_period config) in
      [iloc_last (fst (fst r)); iloc_last (snd (fst r)); iloc_last (snd r)]
  | BollingerFilter =>
      let r :=
        _calculate_bollinger_bands historical_data (bollinger_period config)
          (bollinger_std config) in
      [iloc_last (fst (fst r)); iloc_last (snd (fst r))]
  | MacdFilter =>
      let r :=
        _calculate_macd historical_data (macd_fast config) (macd_slow config)
          (macd_signal config) in
      [iloc_last (fst (fst r)); iloc_last (snd (fst r)); iloc_last (snd r)]
  | WilliamsFilter =>
      [iloc_last (_calculate_williams_r historical_data
                    (williams_period config))]
  end.

(** The data of a symbol do not let the filter judge: there is no table
    for the symbol, or its history up to the date is shorter than the
    filter requires, or an indicator value of the date that the filter
    tests is NaN. *)
Definition degraded (f : EntryFilter) (symbol : string) (current_date : Z)
    (stock_data : dict DataFrame) : Prop :=
  match dict_get symbol stock_data with
  | None => True
  | Some df =>
      let historical_data := df_upto current_date df in
      (Z.of_nat (List.length historical_data) < min_history f)%Z \/
      Exists (fun v => isna v = true) (current_values f historical_data)
  end.

End Degraded.

(** [n] bars with the same price on days [0 .. n-1]. *)
Definition flat_table (n : nat) : DataFrame :=
  map (fun i => {| bar_date := Z.of_nat i; open := 100; high := 100;
                   low := 100; close := 100; volume := 1000 |})
      (seq 0 n).



(** The modes of the trend filter that compare moving averages. *)
Definition comparing_modes : list string :=
  ["BEARISH"%string; "BULLISH"%string; "GOLDEN_CROSS"%string;
   "DEATH_CROSS"%string; "BULLISH_ALIGNED"%string].

(** The RSI and Stochastic filters enabled, with their default periods. *)
Definition filtering_config : BacktestConfig :=
  with_filters
    (default_config ["RELIANCE"%string] 0 365 DELTA_30 HOLD_TO_EXPIRY)
    false true true.

End SpecFilter.

Module SpecLedger.

Import Pandas CoveredCallEngine.

(** From [st] to [st'] the list of trades was only appended to, with one
    record for each position that is no longer open. *)
Definition ledger_extended (st st' : EngineState) : Prop :=
  exists new_trades,
    trades st' = trades st ++ new_trades /\
    (List.length (positions st') + List.length new_trades
     = List.length (positions st))%nat.

(** Two open positions, the second one past its expiry on day 40. *)
Definition two_positions : EngineState :=
  {| positions :=
       [("RELIANCE"%string, SpecAdjust.losing_position);
        ("TCS"%string, SpecExpiry.at_strike_position)];
     trades := [];
     cash := 5000 |}.

End SpecLedger.

Module SpecClose.

Import Pandas CoveredCallEngine.

(** The price at which the end of the run values the stock of a
    position: the price of the date, or the entry price without one. *)
Definition closing_price (exit_date : Z) (stock_data : dict DataFrame)
    (symbol : string) (position : Position.t) : Q :=
  match _get_price symbol exit_date stock_data with
  | Some price => price
  | None => Position.stock_entry_price position
  end.

(** The option of the position can be valued on the date: it has expired
    (its value is then the intrinsic value, which needs no pricing), or
    the arguments of the pricing are in its domain. *)
Definition valued {M : MathLib} (exit_date : Z) (stock_data : dict DataFrame)
    (symbol : string) (position : Position.t) : Prop :=
  (Position.expiry_date position <= exit_date)%Z \/
  SpecPricing.priceable
    (closing_price exit_date stock_data symbol position)
    (Position.strike_price position)
    (inject_Z (Position.expiry_date position - exit_date) / 365)
    (Position.iv_at_entry position).

End SpecClose.

Module SpecDates.

(** Strictly increasing: in particular without duplicates. *)
Fixpoint increasing (l : list Z) : Prop :=
  match l with
  | [] => True
  | x :: r => (forall y, In y r -> (x < y)%Z) /\ increasing r
  end.

End SpecDates.

(** * Properties *)

Import Pandas CoveredCallEngine.

(** ** Comparisons *)

Lemma Qlt_bool_iff (x y : Q) : Qlt_bool x y = true <-> x < y.
Proof.
  unfold Qlt_bool. rewrite negb_true_iff.
  split; intro H.
  - apply Qnot_le_lt. intro Hle. apply Qle_bool_iff in Hle. congruence.
  - destruct (Qle_bool y x) eqn:E; [|reflexivity].
    apply Qle_bool_iff in E. lra.
Qed.

Lemma Qlt_bool_false_iff (x y : Q) : Qlt_bool x y = false <-> y <= x.
Proof.
  unfold Qlt_bool. rewrite negb_false_iff. apply Qle_bool_iff.
Qed.

Lemma Qle_bool_false_iff (x y : Q) : Qle_bool x y = false <-> y < x.
Proof.
  rewrite <- Qlt_bool_iff. unfold Qlt_bool.
  destruct (Qle_bool x y); simpl; split; congruence.
Qed.

(** ** [find_strike_by_delta] *)

Section DeltaScan.

Context {M : MathLib}.
Variables (rfr spot tte vol target : Q) (option_type : string).

Let delta_of (strike : Q) : option Q :=
  GreeksCalculator.calculate_delta rfr spot strike tte vol option_type None.

Let dist (delta : Q) : Q := SpecDelta.distance option_type target delta.

Let scan := GreeksCalculator.scan rfr spot tte vol target option_type.

(** The state of the scan once [s], of delta [d], is the best strike so
    far. *)
Let best (s d : Q) : GreeksCalculator.scan_state :=
  (Some s, Some d, Some (dist d)).

(** On priceable arguments the pricing functions return. *)
Lemma calculate_d1_d2_priceable (strike : Q) (r : option Q) :
  SpecPricing.priceable spot strike tte vol ->
  exists d1 d2,
    GreeksCalculator.calculate_d1_d2 rfr spot strike tte vol r = Some (d1, d2).
Proof.
  intros (Hs & Hk & Ht & Hden). unfold GreeksCalculator.calculate_d1_d2.
  replace (Qeq_bool strike 0) with false.
  2:{ symmetry. destruct (Qeq_bool strike 0) eqn:E; [|reflexivity].
      apply Qeq_bool_iff in E. lra. }
  replace (Qle_bool (spot / strike) 0) with false.
  2:{ symmetry. apply Qle_bool_false_iff. apply Qlt_shift_div_l; lra. }
  replace (Qlt_bool tte 0) with false
    by (symmetry; apply Qlt_bool_false_iff; exact Ht).
  replace (Qeq_bool (vol * math_sqrt tte) 0) with false.
  2:{ symmetry. destruct (Qeq_bool (vol * math_sqrt tte) 0) eqn:E;
        [|reflexivity].
      apply Qeq_bool_iff in E. contradiction. }
  eauto.
Qed.

Lemma calculate_delta_priceable (strike : Q) :
  SpecPricing.priceable spot strike tte vol ->
  exists d, delta_of strike = Some d.
Proof.
  intro H. unfold delta_of, GreeksCalculator.calculate_delta.
  destruct (calculate_d1_d2_priceable strike
              (Some (GreeksCalculator.rate_or_default rfr None)) H)
    as (d1 & d2 & ->).
  destruct (String.eqb option_type "CE"); eauto.
Qed.

Lemma calculate_option_price_priceable (strike : Q) :
  SpecPricing.priceable spot strike tte vol ->
  exists price,
    GreeksCalculator.calculate_option_price rfr spot strike tte vol
      option_type None = Some price.
Proof.
  intro H. unfold GreeksCalculator.calculate_option_price.
  destruct (calculate_d1_d2_priceable strike
              (Some (GreeksCalculator.rate_or_default rfr None)) H)
    as (d1 & d2 & ->).
  destruct (String.eqb option_type "CE"); eauto.
Qed.

Lemma scan_cons_best (s d x dx : Q) (rest : list Q) :
  delta_of x = Some dx ->
  scan (x :: rest) (best s d)
  = scan rest (if Qlt_bool (dist dx) (dist d) then best x dx else best s d).
Proof.
  intro Hx. unfold scan, best. cbn [GreeksCalculator.scan].
  unfold GreeksCalculator.scan_step. fold (delta_of x). rewrite Hx.
  change (GreeksCalculator.delta_diff option_type target dx) with (dist dx).
  cbn [lt_ext]. destruct (Qlt_bool (dist dx) (dist d)); reflexivity.
Qed.

(** Invariant of the scan: the best strike is a first minimum of the
    prefix read so far. *)
Lemma scan_first_minimum (rest : list Q) :
  forall before s d after,
    delta_of s = Some d ->
    (forall x dx, In x before -> delta_of x = Some dx -> dist d < dist dx) ->
    (forall x dx, In x after -> delta_of x = Some dx -> dist d <= dist dx) ->
    (forall x, In x rest -> exists dx, delta_of x = Some dx) ->
    exists before' s' d' after',
      (before ++ s :: after) ++ rest = before' ++ s' :: after' /\
      scan rest (best s d) = Some (best s' d') /\
      delta_of s' = Some d' /\
      (forall x dx, In x before' -> delta_of x = Some dx ->
                    dist d' < dist dx) /\
      (forall x dx, In x after' -> delta_of x = Some dx ->
                    dist d' <= dist dx).
Proof.
  induction rest as [|x rest IH]; intros before s d after Hs Hb Ha Hrest.
  - exists before, s, d, after. rewrite app_nil_r.
    split; [reflexivity|]. split; [reflexivity|]. auto.
  - destruct (Hrest x (or_introl eq_refl)) as (dx & Hx).
    rewrite (scan_cons_best s d x dx rest Hx).
    assert (Hrest' : forall y, In y rest -> exists dy, delta_of y = Some dy)
      by (intros y Hy; apply Hrest; right; exact Hy).
    destruct (Qlt_bool (dist dx) (dist d)) eqn:E.
    + apply Qlt_bool_iff in E.
      destruct (IH (before ++ s :: after) x dx [] Hx)
        as (b' & s' & d' & a' & Heq & Hf & Hd' & Hb' & Ha').
      * intros y dy Hy Hdy. apply in_app_or in Hy.
        destruct Hy as [Hy|[Hy|Hy]].
        -- specialize (Hb y dy Hy Hdy). lra.
        -- subst y. assert (dy = d) by congruence. subst dy. exact E.
        -- specialize (Ha y dy Hy Hdy). lra.
      * intros y dy [].
      * exact Hrest'.
      * exists b', s', d', a'. split; [|auto].
        rewrite <- Heq. rewrite <- !app_assoc. reflexivity.
    + apply Qlt_bool_false_iff in E.
      destruct (IH before s d (after ++ [x]) Hs Hb)
        as (b' & s' & d' & a' & Heq & Hf & Hd' & Hb' & Ha').
      * intros y dy Hy Hdy. apply in_app_or in Hy.
        destruct Hy as [Hy|[Hy|[]]].
        -- eauto.
        -- subst y. assert (dy = dx) by congruence. subst dy. exact E.
      * exact Hrest'.
      * exists b', s', d', a'. split; [|auto].
        rewrite <- Heq. rewrite <- !app_assoc. cbn [app].
        rewrite <- app_assoc. reflexivity.
Qed.

(** C10.  With an empty list of available strikes [find_strike_by_delta]
    returns [(None, None)]: the loop body never runs and nothing is raised,
    so the strike a caller receives is [None]. *)
Theorem find_strike_by_delta_empty :
  GreeksCalculator.find_strike_by_delta rfr spot tte vol target [] option_type
  = Some (None, None).
Proof. reflexivity. Qed.

Lemma find_strike_by_delta_scan (strikes : list Q) :
  strikes <> [] ->
  (forall k, In k strikes -> exists dk, delta_of k = Some dk) ->
  exists before s d after,
    strikes = before ++ s :: after /\
    delta_of s = Some d /\
    GreeksCalculator.find_strike_by_delta rfr spot tte vol target strikes
      option_type = Some (Some s, Some d) /\
    (forall x dx, In x before -> delta_of x = Some dx -> dist d < dist dx) /\
    (forall x dx, In x after -> delta_of x = Some dx -> dist d <= dist dx).
Proof.
  destruct strikes as [|s0 rest]; [congruence|]. intros _ Hall.
  destruct (Hall s0 (or_introl eq_refl)) as (d0 & Hd0).
  destruct (scan_first_minimum rest [] s0 d0 [] Hd0)
    as (b & s & d & a & Heq & Hf & Hd & Hb & Ha).
  - intros x dx [].
  - intros x dx [].
  - intros x Hx. apply Hall. right. exact Hx.
  - exists b, s, d, a. split; [exact Heq|]. split; [exact Hd|].
    split; [|auto].
    unfold GreeksCalculator.find_strike_by_delta.
    cbn [GreeksCalculator.scan]. unfold GreeksCalculator.scan_step.
    fold (delta_of s0). rewrite Hd0. cbn [lt_ext].
    change (GreeksCalculator.delta_diff option_type target d0) with (dist d0).
    fold (best s0 d0). fold scan. rewrite Hf. reflexivity.
Qed.

(** The scan raises as soon as the delta of a strike does. *)
Lemma find_strike_by_delta_raises (strikes : list Q) (k : Q) :
  In k strikes -> delta_of k = None ->
  GreeksCalculator.find_strike_by_delta rfr spot tte vol target strikes
    option_type = None.
Proof.
  intros Hin Hk. unfold GreeksCalculator.find_strike_by_delta.
  assert (H : forall st, scan strikes st = None).
  { induction strikes as [|x rest IH]; [destruct Hin|]. intro st.
    unfold scan. cbn [GreeksCalculator.scan].
    destruct (GreeksCalculator.scan_step rfr spot tte vol target option_type
                st x) as [st'|] eqn:Est; [|reflexivity].
    destruct Hin as [-> | Hin].
    - unfold GreeksCalculator.scan_step in Est. destruct st as [[bs bd] md].
      fold (delta_of k) in Est. rewrite Hk in Est. discriminate.
    - apply (IH Hin). }
  fold scan. rewrite H. reflexivity.
Qed.

Lemma find_strike_by_delta_returns (strikes : list Q) :
  strikes <> [] ->
  (forall k, In k strikes -> SpecPricing.priceable spot k tte vol) ->
  exists s d,
    GreeksCalculator.find_strike_by_delta rfr spot tte vol target strikes
      option_type = Some (Some s, Some d).
Proof.
  intros Hne Hall.
  destruct (find_strike_by_delta_scan strikes Hne)
    as (b & s & d & a & _ & _ & Hf & _).
  - intros k Hk. apply calculate_delta_priceable. apply Hall. exact Hk.
  - exists s, d. exact Hf.
Qed.

(** C6.  On a non-empty list of strikes at which the delta is computed
    (positive prices, a time to expiry that is not negative, a divisor
    [volatility * sqrt(T)] that is not zero), [find_strike_by_delta]
    returns a strike of the list with its delta, and that strike has the
    least distance [|delta - target_delta|], taken between the absolute
    values for a put; every strike read before it is strictly farther
    from the target, so among equal minima the first one in scan order
    is returned. *)
Theorem find_strike_by_delta_first_min (strikes : list Q) :
  strikes <> [] ->
  (forall k, In k strikes -> SpecPricing.priceable spot k tte vol) ->
  exists before s d after,
    strikes = before ++ s :: after /\
    GreeksCalculator.calculate_delta rfr spot s tte vol option_type None
    = Some d /\
    GreeksCalculator.find_strike_by_delta rfr spot tte vol target strikes
      option_type = Some (Some s, Some d) /\
    (forall x dx,
       In x before ->
       GreeksCalculator.calculate_delta rfr spot x tte vol option_type None
       = Some dx ->
       SpecDelta.distance option_type target d
       < SpecDelta.distance option_type target dx) /\
    (forall x dx,
       In x after ->
       GreeksCalculator.calculate_delta rfr spot x tte vol option_type None
       = Some dx ->
       SpecDelta.distance option_type target d
       <= SpecDelta.distance option_type target dx).
Proof.
  intros Hne Hall.
  apply (find_strike_by_delta_scan strikes Hne).
  intros k Hk. apply calculate_delta_priceable. apply Hall. exact Hk.
Qed.

Lemma find_strike_by_delta_member (strikes : list Q) (s : Q) (d : option Q) :
  GreeksCalculator.find_strike_by_delta rfr spot tte vol target strikes
    option_type = Some (Some s, d) ->
  In s strikes.
Proof.
  intro Hfind.
  assert (Hdec : (forall k, In k strikes -> exists dk, delta_of k = Some dk) \/
                 (exists k, In k strikes /\ delta_of k = None)).
  { clear Hfind. induction strikes as [|x rest IH]; [left; intros k []|].
    destruct (delta_of x) as [dx|] eqn:Ex.
    - destruct IH as [Hall | (k & Hin & Hk)].
      + left. intros k [<- | Hk]; [eauto | apply Hall; exact Hk].
      + right. exists k. split; [right; exact Hin | exact Hk].
    - right. exists x. split; [left; reflexivity | exact Ex]. }
  destruct Hdec as [Hall | (k & Hin & Hk)].
  - destruct strikes as [|s0 rest]; [discriminate Hfind|].
    destruct (find_strike_by_delta_scan (s0 :: rest)) as
      (b & s' & d' & a & Heq & _ & Hf & _); [discriminate | exact Hall |].
    rewrite Hf in Hfind. injection Hfind as <- _.
    rewrite Heq. apply in_or_app. right. left. reflexivity.
  - rewrite (find_strike_by_delta_raises strikes k Hin Hk) in Hfind.
    discriminate.
Qed.

End DeltaScan.

(** A scan with a tie: at spot 2500 the strikes 3300 and 3400 both have
    delta 0, at the distance 3/10 from the target, and 2400 is farther;
    the first of the two is returned. *)
Lemma find_strike_by_delta_first_min_witness :
  @GreeksCalculator.find_strike_by_delta sample_math (7 # 100) 2500
    (30 # 365) (20 # 100) (30 # 100) [2400; 3300; 3400] "CE"
  = Some (Some 3300, Some 0) /\
  @GreeksCalculator.calculate_delta sample_math (7 # 100) 2500 3400
    (30 # 365) (20 # 100) "CE" None = Some 0 /\
  exists before s d after,
    [2400; 3300; 3400] = before ++ s :: after /\
    @GreeksCalculator.calculate_delta sample_math (7 # 100) 2500 s
      (30 # 365) (20 # 100) "CE" None = Some d /\
    @GreeksCalculator.find_strike_by_delta sample_math (7 # 100) 2500
      (30 # 365) (20 # 100) (30 # 100) [2400; 3300; 3400] "CE"
    = Some (Some s, Some d) /\
    (forall x dx,
       In x before ->
       @GreeksCalculator.calculate_delta sample_math (7 # 100) 2500 x
         (30 # 365) (20 # 100) "CE" None = Some dx ->
       SpecDelta.distance "CE" (30 # 100) d
       < SpecDelta.distance "CE" (30 # 100) dx) /\
    (forall x dx,
       In x after ->
       @GreeksCalculator.calculate_delta sample_math (7 # 100) 2500 x
         (30 # 365) (20 # 100) "CE" None = Some dx ->
       SpecDelta.distance "CE" (30 # 100) d
       <= SpecDelta.distance "CE" (30 # 100) dx).
Proof.
  split; [vm_compute; reflexivity|]. split; [vm_compute; reflexivity|].
  apply (@find_strike_by_delta_first_min sample_math (7 # 100) 2500
           (30 # 365) (20 # 100) (30 # 100) "CE" [2400; 3300; 3400]).
  - discriminate.
  - intros k Hk.
    repeat (destruct Hk as [<- | Hk];
            [split; [reflexivity|]; split; [reflexivity|];
             split; [discriminate|]; vm_compute; discriminate|]).
    destruct Hk.
Defined.

(** ** IV percentile *)

Lemma py_sum_ones_from (l : list Q) (acc : Z) :
  fold_left Z.add (map (fun _ : Q => 1%Z) l) acc
  = (acc + Z.of_nat (List.length l))%Z.
Proof.
  revert acc. induction l as [|x l IH]; intro acc; cbn [map fold_left List.length].
  - lia.
  - rewrite IH. lia.
Qed.

Lemma filter_length_strictly_below (current_iv : Q) (l : list Q) :
  List.length (filter (fun iv => Qlt_bool iv current_iv) l)
  = Spec.strictly_below current_iv l.
Proof.
  induction l as [|x l IH]; cbn [filter Spec.strictly_below]; [reflexivity|].
  destruct (Qlt_bool x current_iv); cbn [List.length]; congruence.
Qed.

Lemma below_count_strictly_below (current_iv : Q) (l : list Q) :
  IVPercentileService.below_count current_iv l
  = Z.of_nat (Spec.strictly_below current_iv l).
Proof.
  unfold IVPercentileService.below_count, py_sum.
  rewrite py_sum_ones_from, filter_length_strictly_below. lia.
Qed.

(** C9.  [calculate_iv_percentile] is the percentile of the
    specification: 50 for an empty trailing list, otherwise the number of
    trailing estimates strictly below the current one over the length of
    the list, times 100; an estimate equal to the current one is not
    counted, and one strictly below it is. *)
Theorem calculate_iv_percentile_strictly_below :
  forall (current_iv : Q) (historical_ivs : list Q),
    IVPercentileService.calculate_iv_percentile current_iv historical_ivs
    = Spec.iv_percentile current_iv historical_ivs /\
    IVPercentileService.calculate_iv_percentile current_iv [] = 50 /\
    (forall iv, iv == current_iv ->
       Spec.strictly_below current_iv (iv :: historical_ivs)
       = Spec.strictly_below current_iv historical_ivs) /\
    (forall iv, iv < current_iv ->
       Spec.strictly_below current_iv (iv :: historical_ivs)
       = S (Spec.strictly_below current_iv historical_ivs)).
Proof.
  intros c l. repeat split.
  - destruct l as [|x l]; [reflexivity|].
    unfold IVPercentileService.calculate_iv_percentile, Spec.iv_percentile.
    rewrite below_count_strictly_below. reflexivity.
  - intros iv H. cbn [Spec.strictly_below].
    replace (Qlt_bool iv c) with false; [reflexivity|].
    symmetry. apply Qlt_bool_false_iff. lra.
  - intros iv H. cbn [Spec.strictly_below].
    replace (Qlt_bool iv c) with true; [reflexivity|].
    symmetry. apply Qlt_bool_iff. exact H.
Qed.

(** A trailing list with a tie: two of four estimates are strictly below
    the current one, the percentile is 50. *)
Lemma calculate_iv_percentile_witness :
  IVPercentileService.calculate_iv_percentile (20 # 100)
    [10 # 100; 20 # 100; 15 # 100; 30 # 100] == 50.
Proof.
  rewrite (proj1 (calculate_iv_percentile_strictly_below (20 # 100)
                    [10 # 100; 20 # 100; 15 # 100; 30 # 100])).
  reflexivity.
Defined.

(** ** Rounding *)

Lemma py_round_floor_or_next (x : Q) :
  py_round x = Qfloor x \/ py_round x = (Qfloor x + 1)%Z.
Proof.
  unfold py_round.
  destruct (Qlt_bool _ _); [auto|].
  destruct (Qlt_bool _ _); [auto|].
  destruct (Z.even _); auto.
Qed.

Lemma py_round_mono (x y : Q) : x <= y -> (py_round x <= py_round y)%Z.
Proof.
  intro Hxy.
  pose proof (Qfloor_resp_le x y Hxy) as Hf.
  pose proof (Qfloor_le x) as Hx1. pose proof (Qlt_floor x) as Hx2.
  pose proof (Qfloor_le y) as Hy1. pose proof (Qlt_floor y) as Hy2.
  destruct (Z.eq_dec (Qfloor x) (Qfloor y)) as [E|E].
  - unfold py_round. rewrite <- E.
    destruct (Qlt_bool (x - inject_Z (Qfloor x)) (1 # 2)) eqn:A1;
      destruct (Qlt_bool (y - inject_Z (Qfloor x)) (1 # 2)) eqn:B1;
      destruct (Qlt_bool (1 # 2) (x - inject_Z (Qfloor x))) eqn:A2;
      destruct (Qlt_bool (1 # 2) (y - inject_Z (Qfloor x))) eqn:B2;
      destruct (Z.even (Qfloor x));
      try lia;
      repeat match goal with
             | H : Qlt_bool _ _ = true |- _ => apply Qlt_bool_iff in H
             | H : Qlt_bool _ _ = false |- _ => apply Qlt_bool_false_iff in H
             end; exfalso; lra.
  - assert (Qfloor x + 1 <= Qfloor y)%Z by lia.
    destruct (py_round_floor_or_next x) as [-> | ->];
      destruct (py_round_floor_or_next y) as [-> | ->]; lia.
Qed.

Lemma Qdiv_le_compat_r (x y i : Q) : 0 < i -> x <= y -> x / i <= y / i.
Proof.
  intros Hi Hxy. unfold Qdiv.
  apply Qmult_le_compat_r; [exact Hxy|].
  apply Qlt_le_weak. apply Qinv_lt_0_compat. exact Hi.
Qed.

(** ** The strike ladder *)

Lemma strike_interval_positive (stock_price : Q) :
  0 < _get_strike_interval stock_price.
Proof.
  unfold _get_strike_interval.
  repeat (destruct (Qlt_bool _ _)); reflexivity.
Qed.

Lemma strike_interval_tiers (stock_price : Q) :
  SpecLadder.tier_interval stock_price (_get_strike_interval stock_price).
Proof.
  unfold SpecLadder.tier_interval, _get_strike_interval.
  destruct (Qlt_bool stock_price 100) eqn:E1;
    [apply Qlt_bool_iff in E1 | apply Qlt_bool_false_iff in E1];
  (destruct (Qlt_bool stock_price 500) eqn:E2;
    [apply Qlt_bool_iff in E2 | apply Qlt_bool_false_iff in E2]);
  (destruct (Qlt_bool stock_price 1000) eqn:E3;
    [apply Qlt_bool_iff in E3 | apply Qlt_bool_false_iff in E3]);
  (destruct (Qlt_bool stock_price 2500) eqn:E4;
    [apply Qlt_bool_iff in E4 | apply Qlt_bool_false_iff in E4]);
  (destruct (Qlt_bool stock_price 5000) eqn:E5;
    [apply Qlt_bool_iff in E5 | apply Qlt_bool_false_iff in E5]);
  repeat split; intros; try reflexivity; exfalso; lra.
Qed.

Lemma ladder_indices_ordered (stock_price interval : Q) :
  0 < stock_price -> 0 < interval ->
  (ladder_start_index stock_price interval <=
   ladder_end_index stock_price interval)%Z.
Proof.
  intros Hp Hi. unfold ladder_start_index, ladder_end_index.
  apply py_round_mono. apply Qdiv_le_compat_r; [exact Hi|]. lra.
Qed.

Lemma inject_Z_of_nat_succ (n : nat) :
  inject_Z (Z.of_nat (S n)) == inject_Z (Z.of_nat n) + 1.
Proof.
  rewrite Nat2Z.inj_succ. unfold Z.succ. rewrite inject_Z_plus. reflexivity.
Qed.

(** Every element of the loop's result is [current + n * interval] for a
    step number [n], and is at most [end_]. *)
Lemma strikes_loop_sound (fuel : nat) :
  forall current end_ interval s,
    In s (strikes_loop fuel current end_ interval) ->
    exists n : nat,
      (n < fuel)%nat /\
      s == current + inject_Z (Z.of_nat n) * interval /\ s <= end_.
Proof.
  induction fuel as [|fuel IH]; intros c e i s Hin; cbn [strikes_loop] in Hin.
  - destruct Hin.
  - destruct (Qle_bool c e) eqn:E; [|destruct Hin].
    apply Qle_bool_iff in E.
    destruct Hin as [<- | Hin].
    + exists 0%nat. split; [lia|]. split; [|exact E].
      change (inject_Z (Z.of_nat 0)) with 0. ring.
    + destruct (IH _ _ _ _ Hin) as (n & Hn & Hs & Hle).
      exists (S n). split; [lia|]. split; [|exact Hle].
      rewrite Hs, inject_Z_of_nat_succ. ring.
Qed.

(** Every step that stays at or below [end_] is in the result. *)
Lemma strikes_loop_complete (fuel : nat) :
  forall current end_ interval (n : nat),
    0 < interval ->
    (n < fuel)%nat ->
    current + inject_Z (Z.of_nat n) * interval <= end_ ->
    exists s,
      In s (strikes_loop fuel current end_ interval) /\
      s == current + inject_Z (Z.of_nat n) * interval.
Proof.
  induction fuel as [|fuel IH]; intros c e i n Hi Hn Hle; [lia|].
  cbn [strikes_loop].
  assert (Hpos : 0 <= inject_Z (Z.of_nat n) * i).
  { apply Qmult_le_0_compat; [|lra].
    change 0 with (inject_Z 0). rewrite <- Zle_Qle. lia. }
  assert (Hce : c <= e) by lra.
  apply Qle_bool_iff in Hce. rewrite Hce.
  destruct n as [|n].
  - exists c. split; [left; reflexivity|].
    change (inject_Z (Z.of_nat 0)) with 0. ring.
  - destruct (IH (c + i) e i n Hi) as (s & Hin & Hs); [lia| |].
    + rewrite inject_Z_of_nat_succ in Hle. lra.
    + exists s. split; [right; exact Hin|].
      rewrite Hs, inject_Z_of_nat_succ. ring.
Qed.

(** Once the condition of the loop has failed, more fuel changes nothing. *)
Lemma strikes_loop_stable (fuel : nat) :
  forall current end_ interval (extra : nat),
    0 < interval ->
    end_ < current + (inject_Z (Z.of_nat fuel) - 1) * interval ->
    strikes_loop (fuel + extra) current end_ interval
    = strikes_loop fuel current end_ interval.
Proof.
  induction fuel as [|fuel IH]; intros c e i extra Hi Hlt.
  - cbn [Nat.add strikes_loop].
    change (inject_Z (Z.of_nat 0)) with 0 in Hlt.
    destruct extra as [|extra]; [reflexivity|]. cbn [strikes_loop].
    replace (Qle_bool c e) with false; [reflexivity|].
    symmetry. apply Qle_bool_false_iff. lra.
  - cbn [Nat.add strikes_loop].
    destruct (Qle_bool c e); [|reflexivity].
    f_equal. apply IH; [exact Hi|].
    rewrite inject_Z_of_nat_succ in Hlt. lra.
Qed.

Lemma Qmult_le_reg_r (x y i : Q) : 0 < i -> x * i <= y * i -> x <= y.
Proof. intros Hi H. apply (Qmult_le_r x y i Hi). exact H. Qed.

Lemma generate_strikes_sound (stock_price interval s : Q) :
  0 < interval ->
  In s (_generate_strikes stock_price interval) ->
  exists k, SpecLadder.ladder_point stock_price interval k s.
Proof.
  intros Hi Hin. unfold _generate_strikes in Hin.
  destruct (strikes_loop_sound _ _ _ _ _ Hin) as (n & _ & Hs & Hle).
  exists (ladder_start_index stock_price interval + Z.of_nat n)%Z.
  assert (Hk : s == inject_Z (ladder_start_index stock_price interval
                              + Z.of_nat n) * interval).
  { rewrite Hs, inject_Z_plus. ring. }
  unfold SpecLadder.ladder_point.
  fold (ladder_start_index stock_price interval).
  fold (ladder_end_index stock_price interval).
  split; [lia|]. split; [|exact Hk].
  rewrite Zle_Qle. apply (Qmult_le_reg_r _ _ interval Hi).
  rewrite <- Hk. exact Hle.
Qed.

Lemma generate_strikes_complete (stock_price interval : Q) (k : Z) :
  0 < interval ->
  (ladder_start_index stock_price interval <= k)%Z ->
  (k <= ladder_end_index stock_price interval)%Z ->
  exists s,
    In s (_generate_strikes stock_price interval) /\
    s == inject_Z k * interval.
Proof.
  intros Hi Hlo Hhi. unfold _generate_strikes.
  set (a := ladder_start_index stock_price interval) in *.
  set (b := ladder_end_index stock_price interval) in *.
  assert (Hn : inject_Z (Z.of_nat (Z.to_nat (k - a))) == inject_Z k - inject_Z a).
  { rewrite Z2Nat.id by lia. unfold Zminus.
    rewrite inject_Z_plus, inject_Z_opp. ring. }
  destruct (strikes_loop_complete (ladder_fuel stock_price interval)
              (inject_Z a * interval) (inject_Z b * interval) interval
              (Z.to_nat (k - a)) Hi) as (s & Hin & Hs).
  - unfold ladder_fuel. fold a b. lia.
  - rewrite Hn.
    setoid_replace (inject_Z a * interval + (inject_Z k - inject_Z a) * interval)
      with (inject_Z k * interval) by ring.
    apply Qmult_le_compat_r; [|lra]. rewrite <- Zle_Qle. exact Hhi.
  - exists s. split; [exact Hin|]. rewrite Hs, Hn. ring.
Qed.

Lemma generate_strikes_nonempty (stock_price interval : Q) :
  0 < stock_price -> 0 < interval ->
  _generate_strikes stock_price interval <> [].
Proof.
  intros Hp Hi Hnil.
  destruct (generate_strikes_complete stock_price interval
              (ladder_start_index stock_price interval) Hi)
    as (s & Hin & _); [lia | apply ladder_indices_ordered; assumption |].
  rewrite Hnil in Hin. destruct Hin.
Qed.

(** The loop of [_generate_strikes] ends by its condition: the fuel of
    the model is enough, and any larger fuel gives the same ladder. *)
Lemma strikes_loop_fuel_enough (stock_price interval : Q) (extra : nat) :
  0 < interval ->
  strikes_loop (ladder_fuel stock_price interval + extra)
    (inject_Z (ladder_start_index stock_price interval) * interval)
    (inject_Z (ladder_end_index stock_price interval) * interval) interval
  = _generate_strikes stock_price interval.
Proof.
  intro Hi. unfold _generate_strikes. apply strikes_loop_stable; [exact Hi|].
  unfold ladder_fuel.
  set (a := ladder_start_index stock_price interval).
  set (b := ladder_end_index stock_price interval).
  rewrite inject_Z_of_nat_succ.
  set (N := inject_Z (Z.of_nat (Z.to_nat (b - a + 1)))).
  assert (HN : inject_Z b + 1 - inject_Z a <= N).
  { unfold N.
    assert (H : (b + 1 <= a + Z.of_nat (Z.to_nat (b - a + 1)))%Z) by lia.
    rewrite Zle_Qle, !inject_Z_plus in H.
    change (inject_Z 1) with 1 in H. lra. }
  assert (H0 : 0 <= (N - (inject_Z b + 1 - inject_Z a)) * interval).
  { apply Qmult_le_0_compat; lra. }
  lra.
Qed.

(** ** Nearest strike *)

Lemma min_by_key_In {K : Type} (ltb : K -> K -> bool) (key : Q -> K)
    (l : list Q) :
  forall best, In (min_by_key ltb key best l) (best :: l).
Proof.
  induction l as [|x l IH]; intro best; cbn [min_by_key].
  - left. reflexivity.
  - destruct (ltb (key x) (key best)).
    + right. apply IH.
    + destruct (IH best) as [H|H]; [left; exact H | right; right; exact H].
Qed.

Lemma py_min_key_In {K : Type} (ltb : K -> K -> bool) (key : Q -> K)
    (l : list Q) (s : Q) :
  py_min_key ltb key l = Some s -> In s l.
Proof.
  destruct l as [|x l]; cbn [py_min_key]; [discriminate|].
  intro H. injection H as <-. apply min_by_key_In.
Qed.

Lemma py_min_key_some {K : Type} (ltb : K -> K -> bool) (key : Q -> K)
    (l : list Q) :
  l <> [] -> exists s, py_min_key ltb key l = Some s /\ In s l.
Proof.
  destruct l as [|x l]; [congruence|]. intros _.
  exists (min_by_key ltb key x l). split; [reflexivity|].
  apply min_by_key_In.
Qed.

Lemma nearest_strike_member (strikes : list Q) (target : pyfloat) :
  strikes <> [] ->
  exists s, nearest_strike strikes target = Some s /\ In s strikes.
Proof. apply py_min_key_some. Qed.

(** ** Dictionaries *)

Lemma dict_get_In {V : Type} (k : string) (d : dict V) (v : V) :
  dict_get k d = Some v -> In (k, v) d.
Proof.
  induction d as [|[k' v'] d IH]; cbn [dict_get]; [discriminate|].
  destruct (String.eqb k' k) eqn:E.
  - apply String.eqb_eq in E. subst k'. intro H. injection H as <-.
    left. reflexivity.
  - intro H. right. apply IH. exact H.
Qed.

Lemma dict_get_set_same {V : Type} (k : string) (v : V) (d : dict V) :
  dict_get k (dict_set k v d) = Some v.
Proof.
  induction d as [|[k' v'] d IH]; cbn [dict_set dict_get].
  - rewrite String.eqb_refl. reflexivity.
  - destruct (String.eqb k' k) eqn:E; cbn [dict_get]; rewrite E; auto.
Qed.

Lemma dict_get_set_other {V : Type} (k k0 : string) (v : V) (d : dict V) :
  k0 <> k -> dict_get k0 (dict_set k v d) = dict_get k0 d.
Proof.
  intro Hne. induction d as [|[k' v'] d IH]; cbn [dict_set dict_get].
  - replace (String.eqb k k0) with false; [reflexivity|].
    symmetry. apply String.eqb_neq. congruence.
  - destruct (String.eqb k' k) eqn:E; cbn [dict_get].
    + apply String.eqb_eq in E. subst k'.
      replace (String.eqb k k0) with false; [reflexivity|].
      symmetry. apply String.eqb_neq. congruence.
    + rewrite IH. reflexivity.
Qed.

Lemma dict_set_keys {V : Type} (k : string) (v v0 : V) (d : dict V) :
  dict_get k d = Some v0 -> map fst (dict_set k v d) = map fst d.
Proof.
  induction d as [|[k' v'] d IH]; cbn [dict_set dict_get map fst];
    [discriminate|].
  destruct (String.eqb k' k) eqn:E; cbn [map fst]; [reflexivity|].
  intro H. rewrite IH by exact H. reflexivity.
Qed.

Lemma dict_pop_get {V : Type} (k : string) (d : dict V) (v : V) :
  dict_get k d = Some v -> exists rest, dict_pop k d = Some (v, rest).
Proof.
  induction d as [|[k' v'] d IH]; cbn [dict_get dict_pop]; [discriminate|].
  destruct (String.eqb k' k).
  - intro H. injection H as <-. eauto.
  - intro H. destruct (IH H) as (rest & ->). eauto.
Qed.

Lemma dict_pop_length {V : Type} (k : string) (d : dict V) (v : V)
    (rest : dict V) :
  dict_pop k d = Some (v, rest) ->
  List.length rest = pred (List.length d).
Proof.
  revert v rest. induction d as [|[k' v'] d IH]; intros v rest;
    cbn [dict_pop]; [discriminate|].
  destruct (String.eqb k' k).
  - intro H. injection H as _ <-. reflexivity.
  - destruct (dict_pop k d) as [[x r]|] eqn:E; [|discriminate].
    intro H. injection H as _ <-. cbn [List.length].
    rewrite (IH x r eq_refl). destruct d; [discriminate|reflexivity].
Qed.

(** ** Strike selection stays on the ladder *)

Lemma strike_by_delta_member {M : MathLib} (config : BacktestConfig)
    (stock_price time_to_expiry iv target_delta : Q) (strikes : list Q)
    (s : Q) :
  strike_by_delta config stock_price time_to_expiry iv target_delta strikes
  = Some s ->
  In s strikes.
Proof.
  unfold strike_by_delta.
  destruct (GreeksCalculator.find_strike_by_delta _ _ _ _ _ _ _)
    as [[strike d]|] eqn:E; [|discriminate].
  intros ->. eapply find_strike_by_delta_member. exact E.
Qed.

Lemma strike_by_delta_returns {M : MathLib} (config : BacktestConfig)
    (stock_price time_to_expiry iv target_delta : Q) (strikes : list Q) :
  strikes <> [] ->
  (forall k, In k strikes ->
             SpecPricing.priceable stock_price k time_to_expiry iv) ->
  exists s,
    strike_by_delta config stock_price time_to_expiry iv target_delta strikes
    = Some s.
Proof.
  intros Hne Hall. unfold strike_by_delta.
  destruct (find_strike_by_delta_returns (risk_free_rate config) stock_price
              time_to_expiry iv target_delta "CE" strikes Hne Hall)
    as (s & d & ->).
  eauto.
Qed.

(** Whatever [_select_strike] returns is on the ladder. *)
Lemma select_strike_member {M : MathLib} (config : BacktestConfig)
    (symbol : string) (stock_price time_to_expiry iv : Q)
    (iv_metrics : option IVPercentileService.IVMetrics) (current_date : Z)
    (stock_data : dict DataFrame) (s : Q) :
  _select_strike config symbol stock_price time_to_expiry iv iv_metrics
    current_date stock_data = Some s ->
  In s (_generate_strikes stock_price (_get_strike_interval stock_price)).
Proof.
  unfold _select_strike, nearest_strike.
  destruct (strike_method config);
    try (apply py_min_key_In);
    try (apply strike_by_delta_member).
  - destruct (bollinger_target _ _ _ _ _); apply py_min_key_In.
  - destruct (_calculate_pivot_points _ _ _); apply py_min_key_In.
  - destruct (_calculate_pivot_points _ _ _); apply py_min_key_In.
Qed.

(** For a positive spot [_select_strike] returns a strike; the methods
    that select by delta need the ladder to be priceable for it. *)
Lemma select_strike_returns {M : MathLib} (config : BacktestConfig)
    (symbol : string) (stock_price time_to_expiry iv : Q)
    (iv_metrics : option IVPercentileService.IVMetrics) (current_date : Z)
    (stock_data : dict DataFrame) :
  0 < stock_price ->
  (SpecLadder.selects_by_delta (strike_method config) = true ->
   forall k,
     In k (_generate_strikes stock_price (_get_strike_interval stock_price)) ->
     SpecPricing.priceable stock_price k time_to_expiry iv) ->
  exists s,
    _select_strike config symbol stock_price time_to_expiry iv iv_metrics
      current_date stock_data = Some s.
Proof.
  intros Hp Hpriceable.
  pose proof (generate_strikes_nonempty stock_price _ Hp
                (strike_interval_positive stock_price)) as Hne.
  assert (Hnear : forall target,
            exists s,
              nearest_strike
                (_generate_strikes stock_price
                   (_get_strike_interval stock_price)) target = Some s).
  { intro target. destruct (nearest_strike_member _ target Hne) as (s & Hs & _).
    eauto. }
  unfold _select_strike.
  destruct (strike_method config);
    try (apply Hnear);
    try (apply strike_by_delta_returns;
         [exact Hne | exact (Hpriceable eq_refl)]).
  - destruct (bollinger_target _ _ _ _ _); apply Hnear.
  - destruct (_calculate_pivot_points _ _ _); apply Hnear.
  - destruct (_calculate_pivot_points _ _ _); apply Hnear.
Qed.

(** What a successful [_adjust_position] did. *)
Lemma adjust_position_inv {M : MathLib} (config : BacktestConfig)
    (symbol : string) (current_date : Z)
    (stock_price buyback_price premium_lost time_to_expiry iv : Q)
    (st st' : EngineState) :
  _adjust_position config symbol current_date stock_price buyback_price
    premium_lost time_to_expiry iv st = Some st' ->
  exists position new_strike new_premium new_delta,
    dict_get symbol (positions st) = Some position /\
    ~ stock_price == 0 /\
    (let strikes :=
       _generate_strikes stock_price (_get_strike_interval stock_price) in
     let valid_strikes :=
       filter (fun s => Qle_bool (Position.strike_price position +
                                  (premium_lost / stock_price) * stock_price) s)
              strikes in
     match valid_strikes with
     | [] => py_max strikes
     | _ :: _ => py_min valid_strikes
     end = Some new_strike) /\
    GreeksCalculator.calculate_option_price (risk_free_rate config)
      stock_price new_strike time_to_expiry iv "CE" None = Some new_premium /\
    GreeksCalculator.calculate_delta (risk_free_rate config)
      stock_price new_strike time_to_expiry iv "CE" None = Some new_delta /\
    st' =
      {| positions :=
           dict_set symbol
             (with_fields position new_strike new_premium new_delta true
                (if Qeq_bool (Position.original_premium position) 0
                 then Position.premium_received position
                 else Position.original_premium position)
                (Some current_date) buyback_price
                (Position.profit_high_water_mark position)
                (Position.trailing_stop_active position))
             (positions st);
         trades := trades st;
         cash := cash st
                 - buyback_price * inject_Z (Position.lot_size position)
                 + new_premium * inject_Z (Position.lot_size position) |}.
Proof.
  unfold _adjust_position.
  destruct (dict_get symbol (positions st)) as [position|]; [|discriminate].
  destruct (Qeq_bool stock_price 0) eqn:E0; [discriminate|].
  assert (Hnz : ~ stock_price == 0).
  { intro H. apply Qeq_bool_iff in H. congruence. }
  assert (Hstrike :
            Position.strike_price
              (if Qeq_bool (Position.original_premium position) 0
               then set_original_premium (Position.premium_received position)
                      position
               else position) = Position.strike_price position).
  { destruct (Qeq_bool (Position.original_premium position) 0); reflexivity. }
  rewrite Hstrike.
  set (chosen := match filter _ _ with [] => _ | _ :: _ => _ end).
  destruct chosen as [new_strike|] eqn:Hc; [|discriminate].
  destruct (GreeksCalculator.calculate_option_price _ _ _ _ _ _ _)
    as [new_premium|] eqn:Hprem; [|discriminate].
  destruct (GreeksCalculator.calculate_delta _ _ _ _ _ _ _)
    as [new_delta|] eqn:Hdelta; [|discriminate].
  intro H. injection H as <-.
  exists position, new_strike, new_premium, new_delta.
  split; [reflexivity|]. split; [exact Hnz|].
  split; [exact Hc|]. split; [exact Hprem|]. split; [exact Hdelta|].
  destruct (Qeq_bool (Position.original_premium position) 0); reflexivity.
Qed.

Lemma adjusted_strike_member (stock_price min_new_strike new_strike : Q) :
  (let strikes :=
     _generate_strikes stock_price (_get_strike_interval stock_price) in
   match filter (fun s => Qle_bool min_new_strike s) strikes with
   | [] => py_max strikes
   | _ :: _ => py_min (filter (fun s => Qle_bool min_new_strike s) strikes)
   end = Some new_strike) ->
  In new_strike
     (_generate_strikes stock_price (_get_strike_interval stock_price)).
Proof.
  cbv zeta.
  set (strikes := _generate_strikes _ _).
  destruct (filter _ strikes) as [|v vs] eqn:Ef; intro H.
  - apply py_min_key_In in H. exact H.
  - apply py_min_key_In in H. rewrite <- Ef in H.
    apply filter_In in H. apply H.
Qed.

(** C4.  For a positive spot price, whatever the strike method (the ten
    members, any other value, and every fallback branch), the strike that
    [_select_strike] returns is an element of the ladder generated for
    that spot, and so is the strike that an adjustment at that spot gives
    the position.  A strike is returned by every method that does not
    select by delta, and by the delta methods when the strikes of the
    ladder are priceable (there the pricing raises otherwise).  The ladder
    uses the price-tier interval, its strikes are the integer multiples of
    the interval from 90% to 120% of spot (each end rounded to the
    interval), and every such multiple is on it. *)
Theorem selected_strike_on_ladder {M : MathLib} (config : BacktestConfig)
    (symbol : string) (stock_price time_to_expiry iv : Q)
    (iv_metrics : option IVPercentileService.IVMetrics) (current_date : Z)
    (stock_data : dict DataFrame) :
  0 < stock_price ->
  let interval := _get_strike_interval stock_price in
  let ladder := _generate_strikes stock_price interval in
  SpecLadder.tier_interval stock_price interval /\
  (forall s, In s ladder ->
     exists k, SpecLadder.ladder_point stock_price interval k s) /\
  (forall k s, SpecLadder.ladder_point stock_price interval k s ->
     exists s', In s' ladder /\ s' == s) /\
  (forall s,
     _select_strike config symbol stock_price time_to_expiry iv iv_metrics
       current_date stock_data = Some s ->
     In s ladder) /\
  ((SpecLadder.selects_by_delta (strike_method config) = true ->
    forall k, In k ladder ->
              SpecPricing.priceable stock_price k time_to_expiry iv) ->
   exists s,
     _select_strike config symbol stock_price time_to_expiry iv iv_metrics
       current_date stock_data = Some s /\ In s ladder) /\
  (forall adjustment_date buyback_price premium_lost st st',
     _adjust_position config symbol adjustment_date stock_price buyback_price
       premium_lost time_to_expiry iv st = Some st' ->
     exists position,
       dict_get symbol (positions st') = Some position /\
       In (Position.strike_price position) ladder).
Proof.
  intros Hp interval ladder.
  pose proof (strike_interval_positive stock_price) as Hi.
  split; [apply strike_interval_tiers|].
  split; [intros s Hs; apply generate_strikes_sound; assumption|].
  split.
  { intros k s (Hlo & Hhi & Hs).
    destruct (generate_strikes_complete stock_price interval k Hi Hlo Hhi)
      as (s' & Hin & Hs').
    exists s'. split; [exact Hin|]. rewrite Hs', Hs. reflexivity. }
  split; [intros s Hs; eapply select_strike_member; exact Hs|].
  split.
  { intro Hpriceable.
    destruct (select_strike_returns config symbol stock_price time_to_expiry
                iv iv_metrics current_date stock_data Hp Hpriceable)
      as (s & Hs).
    exists s. split; [exact Hs|]. eapply select_strike_member. exact Hs. }
  intros adjustment_date buyback_price premium_lost st st' Hadj.
  destruct (adjust_position_inv _ _ _ _ _ _ _ _ _ _ Hadj)
    as (position & new_strike & new_premium & new_delta & Hget & _ & Hchosen
        & _ & _ & ->).
  eexists. cbn [positions]. split; [apply dict_get_set_same|].
  cbn [with_fields Position.strike_price].
  eapply adjusted_strike_member. exact Hchosen.
Qed.

(** The strikes of the ladder at spot 1000 are priceable at 30 days and a
    volatility of 20%. *)
Lemma ladder_1000_priceable (k : Q) :
  In k (_generate_strikes 1000 (_get_strike_interval 1000)) ->
  @SpecPricing.priceable sample_math 1000 k (30 # 365) (20 # 100).
Proof.
  intro Hk. vm_compute in Hk.
  repeat (destruct Hk as [<- | Hk];
          [split; [reflexivity|]; split; [reflexivity|];
           split; [discriminate|]; vm_compute; discriminate|]).
  destruct Hk.
Qed.

(** The theorem at spot 1000 (interval 25, ladder 900 to 1200) with the
    [DELTA_30] method. *)
Lemma selected_strike_on_ladder_witness :
  exists s,
    @_select_strike sample_math
      (default_config ["RELIANCE"%string] 0 365 DELTA_30 HOLD_TO_EXPIRY)
      "RELIANCE" 1000 (30 # 365) (20 # 100) None 10 [] = Some s /\
    In s (_generate_strikes 1000 (_get_strike_interval 1000)).
Proof.
  apply (proj1 (proj2 (proj2 (proj2 (proj2
           (@selected_strike_on_ladder sample_math
              (default_config ["RELIANCE"%string] 0 365 DELTA_30
                 HOLD_TO_EXPIRY)
              "RELIANCE" 1000 (30 # 365) (20 # 100) None 10 []
              eq_refl)))))).
  intros _. exact ladder_1000_priceable.
Defined.

(** ** Pivot points *)

Lemma tail_two_rev {A : Type} (l : list A) :
  match rev l with
  | [] => tail 2 l = []
  | [a] => tail 2 l = [a]
  | a :: b :: _ => tail 2 l = [b; a]
  end.
Proof.
  destruct (rev l) as [|a [|b r]] eqn:E;
    apply (f_equal (@rev A)) in E; rewrite rev_involutive in E; subst l.
  - reflexivity.
  - reflexivity.
  - cbn [rev]. rewrite <- app_assoc. cbn [app]. unfold tail.
    rewrite length_app. cbn [List.length].
    replace (List.length (rev r) + 2 - 2)%nat with (List.length (rev r)) by lia.
    rewrite skipn_app, skipn_all, Nat.sub_diag. reflexivity.
Qed.

Lemma calculate_pivot_points_source (symbol : string) (current_date : Z)
    (stock_data : dict DataFrame) :
  _calculate_pivot_points symbol current_date stock_data
  = match dict_get symbol stock_data with
    | None => None
    | Some df =>
        option_map pivots_of_bar (SpecPivot.source_bar current_date df)
    end.
Proof.
  unfold _calculate_pivot_points, SpecPivot.source_bar.
  destruct (dict_get symbol stock_data) as [df|]; [|reflexivity].
  pose proof (tail_two_rev (df_upto current_date df)) as H.
  destruct (rev (df_upto current_date df)) as [|a [|b r]]; rewrite H;
    reflexivity.
Qed.

Lemma chronological_app (l1 l2 : DataFrame) :
  SpecPivot.chronological (l1 ++ l2) ->
  SpecPivot.chronological l1 /\ SpecPivot.chronological l2 /\
  (forall a b, In a l1 -> In b l2 -> (bar_date a < bar_date b)%Z).
Proof.
  induction l1 as [|x l1 IH]; cbn [app SpecPivot.chronological].
  - intro H. repeat split; [exact H | intros a b []].
  - intros [Hx Hrest]. destruct (IH Hrest) as (H1 & H2 & H12).
    repeat split; auto.
    + intros b' Hb'. apply Hx. apply in_or_app. left. exact Hb'.
    + intros a b [<- | Ha] Hb; [|auto].
      apply Hx. apply in_or_app. right. exact Hb.
Qed.

Lemma chronological_filter (f : Bar -> bool) (df : DataFrame) :
  SpecPivot.chronological df -> SpecPivot.chronological (filter f df).
Proof.
  induction df as [|b df IH]; cbn [filter SpecPivot.chronological]; [auto|].
  intros [Hb Hrest]. destruct (f b); cbn [SpecPivot.chronological]; auto.
  split; [|auto]. intros b' Hb'. apply Hb.
  apply filter_In in Hb'. apply Hb'.
Qed.

(** In a chronological table the bar before the last one is dated
    strictly before the current date. *)
Lemma source_bar_before (current_date : Z) (df : DataFrame)
    (last_bar previous : Bar) (older : DataFrame) :
  SpecPivot.chronological df ->
  rev (df_upto current_date df) = last_bar :: previous :: older ->
  In previous df /\ (bar_date previous < bar_date last_bar)%Z /\
  (bar_date last_bar <= current_date)%Z.
Proof.
  intros Hc Hrev.
  apply (f_equal (@rev Bar)) in Hrev. rewrite rev_involutive in Hrev.
  cbn [rev] in Hrev. rewrite <- app_assoc in Hrev. cbn [app] in Hrev.
  assert (Hin : forall b, In b [previous; last_bar] ->
                          In b df /\ (bar_date b <= current_date)%Z).
  { intros b Hb.
    assert (Hb' : In b (df_upto current_date df)).
    { rewrite Hrev. apply in_or_app. right. exact Hb. }
    apply filter_In in Hb'. destruct Hb' as [H1 H2].
    split; [exact H1|]. apply Z.leb_le. exact H2. }
  pose proof (chronological_filter
                (fun b => (bar_date b <=? current_date)%Z) df Hc) as Hf.
  fold (df_upto current_date df) in Hf. rewrite Hrev in Hf.
  apply chronological_app in Hf. destruct Hf as (_ & Hf & _).
  cbn [SpecPivot.chronological] in Hf. destruct Hf as [Hlt _].
  split; [apply Hin; left; reflexivity|].
  split; [apply Hlt; left; reflexivity|].
  apply Hin. right. left. reflexivity.
Qed.

(** C7, as stated, fails on a table whose only bar is the current one:
    the pivots are computed from that bar, dated on the current date, and
    no earlier bar exists. *)
Lemma pivot_points_current_bar_counterexample :
  _calculate_pivot_points "RELIANCE" 5 SpecPivot.single_bar_data
  = Some (pivots_of_bar SpecPivot.single_bar) /\
  bar_date SpecPivot.single_bar = 5%Z /\
  ~ (exists previous,
       In previous [SpecPivot.single_bar] /\ (bar_date previous < 5)%Z).
Proof.
  split; [reflexivity|]. split; [reflexivity|].
  intros (previous & [<- | []] & Hlt). cbn in Hlt. lia.
Qed.

(** C7, amended.  The pivot levels are the standard formulas on one bar:
    of the bars dated at or before the current date, the one before the
    last when there are two or more (in a chronological table a bar dated
    strictly before the current date) and the only one when there is
    exactly one; there are no pivots without such a bar or without data
    for the symbol.  [PIVOT_R1] and [PIVOT_R2] take the ladder strike
    nearest to R1 (R2), and nearest to 2% (5%) above spot when that level
    is at or below spot or there are no pivots. *)
Theorem pivot_points_source_bar {M : MathLib} (config : BacktestConfig)
    (symbol : string) (stock_price time_to_expiry iv : Q)
    (iv_metrics : option IVPercentileService.IVMetrics) (current_date : Z)
    (stock_data : dict DataFrame) :
  let pivots := _calculate_pivot_points symbol current_date stock_data in
  let ladder :=
    _generate_strikes stock_price (_get_strike_interval stock_price) in
  pivots = match dict_get symbol stock_data with
           | None => None
           | Some df =>
               option_map pivots_of_bar (SpecPivot.source_bar current_date df)
           end /\
  (forall df last_bar previous older,
     dict_get symbol stock_data = Some df ->
     SpecPivot.chronological df ->
     rev (df_upto current_date df) = last_bar :: previous :: older ->
     pivots = Some (pivots_of_bar previous) /\
     In previous df /\ (bar_date previous < current_date)%Z) /\
  (forall bar,
     let p := pivots_of_bar bar in
     pivot p == (high bar + low bar + close bar) / 3 /\
     r1 p == 2 * pivot p - low bar /\
     r2 p == pivot p + (high bar - low bar) /\
     r3 p == high bar + 2 * (pivot p - low bar)) /\
  (strike_method config = PIVOT_R1 ->
   _select_strike config symbol stock_price time_to_expiry iv iv_metrics
     current_date stock_data
   = nearest_strike ladder
       (Fin (SpecPivot.resistance_target (102 # 100) stock_price
               (option_map r1 pivots)))) /\
  (strike_method config = PIVOT_R2 ->
   _select_strike config symbol stock_price time_to_expiry iv iv_metrics
     current_date stock_data
   = nearest_strike ladder
       (Fin (SpecPivot.resistance_target (105 # 100) stock_price
               (option_map r2 pivots)))).
Proof.
  intros pivots ladder.
  split; [apply calculate_pivot_points_source|].
  split.
  { intros df last_bar previous older Hget Hc Hrev.
    destruct (source_bar_before _ _ _ _ _ Hc Hrev) as (Hin & Hlt & Hle).
    split; [|split; [exact Hin | lia]].
    unfold pivots. rewrite calculate_pivot_points_source, Hget.
    unfold SpecPivot.source_bar. rewrite Hrev. reflexivity. }
  split.
  { intro bar. cbn [pivots_of_bar pivot r1 r2 r3]. repeat split; reflexivity. }
  split; intro Hm; unfold _select_strike; rewrite Hm; fold ladder;
    fold pivots; destruct pivots as [pv|]; cbn [option_map];
    unfold SpecPivot.resistance_target; reflexivity.
Qed.

(** The amended statement on a table of three bars: the pivots of the
    third day come from the second. *)
Lemma pivot_points_source_bar_witness :
  _calculate_pivot_points "RELIANCE" 7
    [("RELIANCE"%string, SpecPivot.three_bar_table)]
  = Some (pivots_of_bar SpecPivot.second_bar) /\
  In SpecPivot.second_bar SpecPivot.three_bar_table /\
  (bar_date SpecPivot.second_bar < 7)%Z.
Proof.
  pose proof (@pivot_points_source_bar sample_math
                (default_config ["RELIANCE"%string] 0 365 PIVOT_R1
                   HOLD_TO_EXPIRY)
                "RELIANCE" 13 (30 # 365) (20 # 100) None 7
                [("RELIANCE"%string, SpecPivot.three_bar_table)]) as H.
  cbv zeta in H. destruct H as (_ & H & _).
  apply (H SpecPivot.three_bar_table SpecPivot.third_bar
           SpecPivot.second_bar [SpecPivot.single_bar]).
  - reflexivity.
  - cbn. repeat split; intros b' Hb'; cbn in Hb';
      repeat (destruct Hb' as [<- | Hb']; [cbn; lia|]); destruct Hb'.
  - reflexivity.
Defined.

(** ** Expiry *)

Lemma expired_symbols_In (current_date : Z) (st : EngineState)
    (symbol : string) (position : Position.t) :
  dict_get symbol (positions st) = Some position ->
  (Position.expiry_date position <= current_date)%Z ->
  In symbol (expired_symbols current_date st).
Proof.
  intros Hget Hexp. unfold expired_symbols.
  apply in_map_iff. exists (symbol, position). split; [reflexivity|].
  apply filter_In. split; [apply dict_get_In; exact Hget|].
  cbn [snd]. apply Z.leb_le. exact Hexp.
Qed.

Lemma expired_symbols_inv (current_date : Z) (st : EngineState)
    (symbol : string) :
  In symbol (expired_symbols current_date st) ->
  exists position,
    In (symbol, position) (positions st) /\
    (Position.expiry_date position <= current_date)%Z.
Proof.
  unfold expired_symbols. intro H. apply in_map_iff in H.
  destruct H as ([s p] & Hs & Hin). cbn [fst] in Hs. subst s.
  apply filter_In in Hin. destruct Hin as [Hin Hexp]. cbn [snd] in Hexp.
  exists p. split; [exact Hin|]. apply Z.leb_le. exact Hexp.
Qed.

(** ** The roll-up adjustment *)

(** C8.  A successful adjustment changes, in the state, only the position
    of its symbol and the cash: the other positions, the order of the
    dictionary and the trades are as before; in the position the symbol,
    lot size, entry date, stock entry price, expiry date, theta and IV at
    entry (and the trailing-stop fields) are unchanged, while strike,
    premium, delta and the adjustment bookkeeping take their new values. *)
Theorem adjust_position_frame {M : MathLib} (config : BacktestConfig)
    (symbol : string) (current_date : Z)
    (stock_price buyback_price premium_lost time_to_expiry iv : Q)
    (st st' : EngineState) :
  _adjust_position config symbol current_date stock_price buyback_price
    premium_lost time_to_expiry iv st = Some st' ->
  SpecAdjust.frame symbol st st' /\
  (exists before after,
     dict_get symbol (positions st) = Some before /\
     dict_get symbol (positions st') = Some after /\
     Position.adjusted after = true /\
     Position.adjustment_date after = Some current_date /\
     Position.adjustment_cost after = buyback_price /\
     Position.original_premium after =
       (if Qeq_bool (Position.original_premium before) 0
        then Position.premium_received before
        else Position.original_premium before) /\
     GreeksCalculator.calculate_option_price (risk_free_rate config)
       stock_price (Position.strike_price after) time_to_expiry iv "CE" None
     = Some (Position.premium_received after) /\
     GreeksCalculator.calculate_delta (risk_free_rate config)
       stock_price (Position.strike_price after) time_to_expiry iv "CE" None
     = Some (Position.delta_at_entry after) /\
     cash st' ==
       cash st - buyback_price * inject_Z (Position.lot_size before)
       + Position.premium_received after * inject_Z (Position.lot_size before)).
Proof.
  intro Hadj.
  destruct (adjust_position_inv _ _ _ _ _ _ _ _ _ _ Hadj)
    as (position & new_strike & new_premium & new_delta & Hget & _ & _
        & Hprem & Hdelta & ->).
  split.
  - exists position. eexists. cbn [positions trades].
    split; [exact Hget|]. split; [apply dict_get_set_same|].
    split; [repeat split|].
    split; [intros other Hne; apply dict_get_set_other; exact Hne|].
    split; [eapply dict_set_keys; exact Hget | reflexivity].
  - exists position. eexists. cbn [positions cash].
    split; [exact Hget|]. split; [apply dict_get_set_same|].
    cbn [with_fields Position.adjusted Position.adjustment_date
         Position.adjustment_cost Position.original_premium
         Position.premium_received Position.delta_at_entry
         Position.strike_price].
    repeat split; try reflexivity; assumption.
Qed.

(** The adjustment of [SpecAdjust.losing_state], which holds two
    positions. *)
Lemma adjust_position_frame_witness :
  SpecAdjust.frame "RELIANCE" SpecAdjust.losing_state SpecAdjust.adjusted_state.
Proof.
  apply (@adjust_position_frame sample_math SpecAdjust.adjusting_config
           "RELIANCE" 10 1040 45 33 (20 # 365) (20 # 100)
           SpecAdjust.losing_state SpecAdjust.adjusted_state).
  vm_compute. reflexivity.
Defined.

(** ** Early exits *)


Section EarlyExit.

Context {M : MathLib}.
Variable float_repr : Q -> string.
Variable config : BacktestConfig.













End EarlyExit.

Section EarlyExitEntries.

Context {M : MathLib}.
Variable float_repr : Q -> string.
Variable config : BacktestConfig.
Variables (current_date : Z) (stock_data : dict DataFrame).

Lemma evaluate_all_cons (k : string) (p : Position.t) (ps : dict Position.t)
    (evaluated : list (string * (Position.t * ExitAction))) :
  evaluate_all float_repr config current_date stock_data ((k, p) :: ps)
  = Some evaluated ->
  exists r rest,
    evaluate_position float_repr config current_date stock_data k p = Some r /\
    evaluate_all float_repr config current_date stock_data ps = Some rest /\
    evaluated = (k, r) :: rest.
Proof.
  cbn [evaluate_all].
  destruct (evaluate_position _ _ _ _ k p) as [r|]; [|discriminate].
  destruct (evaluate_all _ _ _ _ ps) as [rest|]; [|discriminate].
  intro H. injection H as <-. eauto.
Qed.

(** The loop keeps the keys, in their order. *)
Lemma evaluate_all_keys (ps : dict Position.t) :
  forall evaluated,
    evaluate_all float_repr config current_date stock_data ps = Some evaluated ->
    map fst evaluated = map fst ps.
Proof.
  induction ps as [|[k p] ps IH]; intros evaluated H.
  - injection H as <-. reflexivity.
  - destruct (evaluate_all_cons k p ps evaluated H) as (r & rest & _ & Hr & ->).
    cbn [map fst]. rewrite (IH rest Hr). reflexivity.
Qed.





End EarlyExitEntries.



(** ** Effects of the loops on the dictionary of positions *)

Lemma dict_get_None_iff {V : Type} (k : string) (d : dict V) :
  dict_get k d = None <-> ~ In k (map fst d).
Proof.
  induction d as [|[k' v] d IH]; cbn [dict_get map fst In].
  - tauto.
  - destruct (String.eqb k' k) eqn:E.
    + apply String.eqb_eq in E. split; [discriminate | tauto].
    + apply String.eqb_neq in E. rewrite IH. tauto.
Qed.

Lemma dict_pop_effect {V : Type} (k : string) (d : dict V) (v : V)
    (rest : dict V) :
  dict_pop k d = Some (v, rest) ->
  NoDup (map fst d) ->
  NoDup (map fst rest) /\
  dict_get k rest = None /\
  (forall s, s <> k -> dict_get s rest = dict_get s d) /\
  (forall s, In s (map fst rest) -> In s (map fst d)).
Proof.
  revert v rest. induction d as [|[k' v'] d IH]; intros v rest;
    cbn [dict_pop]; [discriminate|].
  cbn [map fst]. intros Hpop Hnd. inversion Hnd as [|? ? Hnotin Hnd']; subst.
  destruct (String.eqb k' k) eqn:E.
  - apply String.eqb_eq in E. subst k'. injection Hpop as _ <-.
    split; [exact Hnd'|]. split; [apply dict_get_None_iff; exact Hnotin|].
    split.
    + intros s Hs. cbn [dict_get].
      replace (String.eqb k s) with false; [reflexivity|].
      symmetry. apply String.eqb_neq. congruence.
    + intros s Hs. right. exact Hs.
  - destruct (dict_pop k d) as [[x r]|] eqn:Ep; [|discriminate].
    injection Hpop as _ <-.
    destruct (IH x r eq_refl Hnd') as (Hr1 & Hr2 & Hr3 & Hr4).
    cbn [map fst dict_get]. rewrite E.
    split.
    { constructor; [|exact Hr1]. intro H. apply Hnotin. apply Hr4. exact H. }
    split; [exact Hr2|]. split.
    + intros s Hs. destruct (String.eqb k' s); [reflexivity|]. apply Hr3, Hs.
    + intros s [Hs|Hs]; [left; exact Hs | right; apply Hr4; exact Hs].
Qed.

Section Loops.

Context {M : MathLib}.
Variable float_repr : Q -> string.
Variable config : BacktestConfig.





End Loops.

Lemma In_dict_get {V : Type} (k : string) (v : V) (d : dict V) :
  NoDup (map fst d) -> In (k, v) d -> dict_get k d = Some v.
Proof.
  induction d as [|[k' v'] d IH]; cbn [map fst dict_get In]; [tauto|].
  intros Hnd Hin. inversion Hnd as [|? ? Hnotin Hnd']; subst.
  destruct Hin as [Heq | Hin].
  - injection Heq as -> ->. rewrite String.eqb_refl. reflexivity.
  - destruct (String.eqb k' k) eqn:E.
    + apply String.eqb_eq in E. subst k'. exfalso. apply Hnotin.
      apply in_map_iff. exists (k, v). split; [reflexivity | exact Hin].
    + apply IH; assumption.
Qed.

(** ** The expiry check as a whole *)

Lemma NoDup_keys_filter {V : Type} (f : string * V -> bool) (d : dict V) :
  NoDup (map fst d) -> NoDup (map fst (filter f d)).
Proof.
  induction d as [|kv d IH]; cbn [filter map]; [auto|].
  intro Hnd. inversion Hnd as [|? ? Hnotin Hnd']; subst.
  destruct (f kv); cbn [map]; [|auto].
  constructor; [|auto]. intro H. apply Hnotin.
  apply in_map_iff in H. destruct H as (x & Hx & Hin).
  apply filter_In in Hin. apply in_map_iff. exists x. tauto.
Qed.

Section ExpiryLoop.

Variable config : BacktestConfig.
Variables (current_date : Z) (stock_data : dict DataFrame).

(** One settlement: the position is popped, one trade is appended and
    the cash is credited. *)
Lemma handle_expiry_settles (symbol : string) (st : EngineState)
    (position : Position.t) :
  dict_get symbol (positions st) = Some position ->
  let stock_price :=
    SpecExpiry.settlement_price symbol current_date stock_data position in
  exists st' trade,
    _handle_expiry config symbol current_date stock_data st = Some st' /\
    trades st' = trades st ++ [trade] /\
    SpecExpiry.settles symbol current_date stock_price position trade /\
    cash st' == cash st + SpecExpiry.settlement_credit stock_price position /\
    (exists p, dict_pop symbol (positions st) = Some (p, positions st')).
Proof.
  intros Hget stock_price.
  destruct (dict_pop_get _ _ _ Hget) as (rest & Hpop).
  unfold _handle_expiry. rewrite Hget.
  fold (SpecExpiry.settlement_price symbol current_date stock_data position).
  fold stock_price.
  unfold SpecExpiry.settles, SpecExpiry.settlement_reason,
    SpecExpiry.settlement_credit.
  destruct (Qle_bool (Position.strike_price position) stock_price);
    unfold _close_position; rewrite Hpop;
    eexists; eexists; (split; [reflexivity|]);
    cbn [trades cash positions]; (split; [reflexivity|]);
    (split; [repeat split|]); (split; [cbn; ring | eexists; reflexivity]).
Qed.

(** The loop of [_check_expiries] over distinct symbols that all have an
    open position: it does not raise, every symbol of the list is removed
    and has its settlement trade in the ledger, the other positions and
    the earlier trades are kept. *)
Lemma for_each_settles (items : list string) :
  forall st : EngineState,
    NoDup items ->
    NoDup (map fst (positions st)) ->
    (forall s, In s items -> exists p, dict_get s (positions st) = Some p) ->
    exists st',
      for_each (fun symbol => _handle_expiry config symbol current_date stock_data)
               items st = Some st' /\
      (forall s, In s items -> dict_get s (positions st') = None) /\
      (forall s, ~ In s items ->
         dict_get s (positions st') = dict_get s (positions st)) /\
      (forall s p, In s items -> dict_get s (positions st) = Some p ->
         exists trade,
           In trade (trades st') /\
           SpecExpiry.settles s current_date
             (SpecExpiry.settlement_price s current_date stock_data p) p trade) /\
      (forall t, In t (trades st) -> In t (trades st')) /\
      List.length (trades st') = (List.length (trades st) + List.length items)%nat.
Proof.
  induction items as [|a items IH]; intros st Hnd Hkeys Hopen.
  - exists st. cbn [for_each In List.length].
    split; [reflexivity|]. split; [intros s []|]. split; [reflexivity|].
    split; [intros s p []|]. split; [auto | lia].
  - inversion Hnd as [|? ? Hnotin Hnd']; subst.
    destruct (Hopen a (or_introl eq_refl)) as (pa & Hpa).
    destruct (handle_expiry_settles a st pa Hpa)
      as (st1 & trade & Hrun & Htr & Hset & _ & (p0 & Hpop)).
    destruct (dict_pop_effect _ _ _ _ Hpop Hkeys) as (Hkeys1 & Hnone & Hother & _).
    assert (Hne : forall s, In s items -> s <> a).
    { intros s Hs E. subst s. exact (Hnotin Hs). }
    destruct (IH st1 Hnd' Hkeys1) as (st' & Hloop & Hin & Hout & Hsettled & Hmono & Hlen).
    { intros s Hs. rewrite (Hother s (Hne s Hs)). apply Hopen. right. exact Hs. }
    exists st'. cbn [for_each]. rewrite Hrun.
    split; [exact Hloop|]. split; [|split; [|split; [|split]]].
    + intros s Hs.
      destruct (in_dec string_dec s items) as [Hi|Hi]; [apply Hin; exact Hi|].
      rewrite (Hout s Hi). destruct Hs as [<- | Hs]; [exact Hnone | tauto].
    + intros s Hs. rewrite (Hout s) by (intro H; apply Hs; right; exact H).
      apply Hother. intro E. apply Hs. left. symmetry. exact E.
    + intros s p Hs Hp.
      destruct (in_dec string_dec s items) as [Hi|Hi].
      * apply (Hsettled s p Hi). rewrite (Hother s (Hne s Hi)). exact Hp.
      * destruct Hs as [<- | Hs]; [|tauto].
        assert (p = pa) by congruence. subst p.
        exists trade. split; [|exact Hset].
        apply Hmono. rewrite Htr. apply in_or_app. right. left. reflexivity.
    + intros t Ht. apply Hmono. rewrite Htr. apply in_or_app. left. exact Ht.
    + rewrite Hlen, Htr, length_app. cbn [List.length]. lia.
Qed.

Lemma expired_symbols_NoDup (st : EngineState) :
  NoDup (map fst (positions st)) -> NoDup (expired_symbols current_date st).
Proof.
  apply NoDup_keys_filter.
Qed.

(** [_check_expiries] on a dictionary of positions: it returns, and every
    position whose expiry date has been reached is removed with its
    settlement trade in the ledger, while the positions that have not
    expired stay open. *)
Lemma check_expiries_settles (st : EngineState) :
  NoDup (map fst (positions st)) ->
  exists st',
    _check_expiries config current_date stock_data st = Some st' /\
    (forall s p, dict_get s (positions st) = Some p ->
       (Position.expiry_date p <= current_date)%Z ->
       dict_get s (positions st') = None /\
       exists trade,
         In trade (trades st') /\
         SpecExpiry.settles s current_date
           (SpecExpiry.settlement_price s current_date stock_data p) p trade) /\
    (forall s p, dict_get s (positions st) = Some p ->
       (current_date < Position.expiry_date p)%Z ->
       dict_get s (positions st') = Some p) /\
    List.length (trades st') =
      (List.length (trades st) + List.length (expired_symbols current_date st))%nat.
Proof.
  intro Hkeys. unfold _check_expiries.
  destruct (for_each_settles (expired_symbols current_date st) st
              (expired_symbols_NoDup st Hkeys) Hkeys)
    as (st' & Hloop & Hin & Hout & Hsettled & _ & Hlen).
  { intros s Hs. destruct (expired_symbols_inv _ _ _ Hs) as (p & Hp & _).
    exists p. apply In_dict_get; assumption. }
  exists st'. split; [exact Hloop|]. split; [|split; [|exact Hlen]].
  - intros s p Hp Hexp.
    pose proof (expired_symbols_In _ _ _ _ Hp Hexp) as Hs.
    split; [apply Hin; exact Hs | apply Hsettled; assumption].
  - intros s p Hp Hlive. rewrite Hout; [exact Hp|].
    intro Hs. destruct (expired_symbols_inv _ _ _ Hs) as (p' & Hp' & Hexp).
    rewrite (In_dict_get _ _ _ Hkeys Hp') in Hp. injection Hp as ->. lia.
Qed.

End ExpiryLoop.

(** C1.  An open position whose expiry date has been reached is among
    the symbols that [_check_expiries] settles, and [_handle_expiry]
    closes it with one trade: reason ASSIGNED when the stock price is at
    or above the strike (the stock exits at the strike and cash is
    credited strike x lot_size), reason EXPIRY otherwise (cash is credited
    stock price x lot_size minus option exit price x lot_size); the
    option exit price is 0 in both cases, and a stock price equal to the
    strike is ASSIGNED.  On a dictionary of positions (distinct keys) the
    whole check returns, leaves the position closed and has its
    settlement trade in the ledger. *)
Theorem expiry_settlement_boundary (config : BacktestConfig)
    (symbol : string) (current_date : Z) (stock_data : dict DataFrame)
    (st : EngineState) (position : Position.t) :
  dict_get symbol (positions st) = Some position ->
  (Position.expiry_date position <= current_date)%Z ->
  let stock_price :=
    SpecExpiry.settlement_price symbol current_date stock_data position in
  In symbol (expired_symbols current_date st) /\
  (exists st' trade,
     _handle_expiry config symbol current_date stock_data st = Some st' /\
     trades st' = trades st ++ [trade] /\
     SpecExpiry.settles symbol current_date stock_price position trade /\
     cash st' == cash st + SpecExpiry.settlement_credit stock_price position /\
     List.length (positions st') = pred (List.length (positions st))) /\
  (NoDup (map fst (positions st)) ->
   exists st' trade,
     _check_expiries config current_date stock_data st = Some st' /\
     dict_get symbol (positions st') = None /\
     In trade (trades st') /\
     SpecExpiry.settles symbol current_date stock_price position trade) /\
  (Position.strike_price position <= stock_price ->
   SpecExpiry.settlement_reason stock_price position = "ASSIGNED"%string /\
   SpecExpiry.settlement_credit stock_price position
   = Position.strike_price position * inject_Z (Position.lot_size position)) /\
  (stock_price < Position.strike_price position ->
   SpecExpiry.settlement_reason stock_price position = "EXPIRY"%string /\
   SpecExpiry.settlement_credit stock_price position
   = stock_price * inject_Z (Position.lot_size position)
     - 0 * inject_Z (Position.lot_size position)) /\
  (stock_price == Position.strike_price position ->
   SpecExpiry.settlement_reason stock_price position = "ASSIGNED"%string).
Proof.
  intros Hget Hexp stock_price.
  split; [eapply expired_symbols_In; eassumption|].
  split.
  { destruct (handle_expiry_settles config current_date stock_data
                symbol st position Hget)
      as (st' & trade & Hrun & Htr & Hset & Hcash & (p & Hpop)).
    exists st', trade. repeat (split; [assumption|]).
    eapply dict_pop_length; eassumption. }
  split.
  { intro Hkeys.
    destruct (check_expiries_settles config current_date stock_data st Hkeys)
      as (st' & Hrun & Hsettled & _).
    destruct (Hsettled symbol position Hget Hexp) as (Hnone & trade & Hin & Hset).
    exists st', trade. repeat (split; [assumption|]). exact Hset. }
  unfold SpecExpiry.settlement_reason, SpecExpiry.settlement_credit.
  split; [|split].
  - intro H. apply Qle_bool_iff in H. rewrite H. split; reflexivity.
  - intro H. apply Qle_bool_false_iff in H. rewrite H. split; reflexivity.
  - intro H.
    assert (H' : Position.strike_price position <= stock_price) by lra.
    apply Qle_bool_iff in H'. rewrite H'. reflexivity.
Qed.

(** The stock closes exactly at the strike on the expiry date: the
    position is ASSIGNED, by [_handle_expiry] and by the whole check. *)
Lemma expiry_settlement_boundary_witness :
  (exists st' trade,
     _handle_expiry
       (default_config ["RELIANCE"%string] 0 365 DELTA_30 HOLD_TO_EXPIRY)
       "RELIANCE" 30 SpecExpiry.at_strike_data SpecExpiry.at_strike_state
     = Some st' /\
     trades st' = trades SpecExpiry.at_strike_state ++ [trade] /\
     Trade.exit_reason trade = "ASSIGNED"%string /\
     cash st' == 5000 + 1000 * inject_Z 250) /\
  (exists st' trade,
     _check_expiries
       (default_config ["RELIANCE"%string] 0 365 DELTA_30 HOLD_TO_EXPIRY)
       30 SpecExpiry.at_strike_data SpecExpiry.at_strike_state
     = Some st' /\
     dict_get "RELIANCE" (positions st') = None /\
     In trade (trades st') /\
     Trade.exit_reason trade = "ASSIGNED"%string).
Proof.
  destruct (expiry_settlement_boundary
              (default_config ["RELIANCE"%string] 0 365 DELTA_30 HOLD_TO_EXPIRY)
              "RELIANCE" 30 SpecExpiry.at_strike_data
              SpecExpiry.at_strike_state SpecExpiry.at_strike_position
              eq_refl ltac:(cbn; lia))
    as (_ & (st' & trade & Hh & Ht & Hs & Hc & _) & Hloop & _).
  split.
  - exists st', trade. split; [exact Hh|]. split; [exact Ht|].
    split; [apply Hs | exact Hc].
  - destruct Hloop as (st2 & trade2 & Hrun & Hnone & Hin & Hset).
    { cbn. constructor; [intros [] | constructor]. }
    exists st2, trade2. split; [exact Hrun|]. split; [exact Hnone|].
    split; [exact Hin | apply Hset].
Defined.

Lemma dict_get_map_values {V : Type} (f : string -> V -> V) (k : string)
    (d : dict V) :
  dict_get k (map (fun kv => (fst kv, f (fst kv) (snd kv))) d)
  = option_map (f k) (dict_get k d).
Proof.
  induction d as [|[k' v] d IH]; cbn [map dict_get fst snd]; [reflexivity|].
  destruct (String.eqb k' k) eqn:E; [|exact IH].
  apply String.eqb_eq in E. subst k'. reflexivity.
Qed.


Section AdjustLoop.

Context {M : MathLib}.
Variable float_repr : Q -> string.
Variable config : BacktestConfig.

Lemma adjust_position_effect (symbol : string) (current_date : Z)
    (stock_price buyback_price premium_lost time_to_expiry iv : Q)
    (st st' : EngineState) :
  _adjust_position config symbol current_date stock_price buyback_price
    premium_lost time_to_expiry iv st = Some st' ->
  map fst (positions st') = map fst (positions st) /\
  (exists after,
     dict_get symbol (positions st') = Some after /\
     Position.adjusted after = true) /\
  (forall s, s <> symbol ->
     dict_get s (positions st') = dict_get s (positions st)).
Proof.
  intro Hadj.
  destruct (adjust_position_inv _ _ _ _ _ _ _ _ _ _ Hadj)
    as (position & new_strike & new_premium & new_delta & Hget & _ & _
        & _ & _ & ->).
  cbn [positions]. split; [eapply dict_set_keys; exact Hget|].
  split.
  - eexists. split; [apply dict_get_set_same | reflexivity].
  - intros s Hs. apply dict_get_set_other. exact Hs.
Qed.






End AdjustLoop.

(** ** Least and greatest elements *)

Lemma min_by_key_least (key : Q -> Q) (l : list Q) :
  forall best x,
    In x (best :: l) -> key (min_by_key Qlt_bool key best l) <= key x.
Proof.
  induction l as [|y l IH]; intros best x Hx; cbn [min_by_key].
  - destruct Hx as [<- | []]. lra.
  - destruct (Qlt_bool (key y) (key best)) eqn:E.
    + apply Qlt_bool_iff in E.
      destruct Hx as [<- | Hx].
      * assert (H := IH y y (or_introl eq_refl)). lra.
      * apply IH. exact Hx.
    + apply Qlt_bool_false_iff in E.
      destruct Hx as [<- | [<- | Hx]].
      * apply IH. left. reflexivity.
      * assert (H := IH best best (or_introl eq_refl)). lra.
      * apply IH. right. exact Hx.
Qed.

Lemma py_min_least (l : list Q) (m : Q) :
  py_min l = Some m -> In m l /\ forall x, In x l -> m <= x.
Proof.
  intro H. split; [eapply py_min_key_In; exact H|].
  destruct l as [|b l]; [discriminate|].
  unfold py_min in H. cbn [py_min_key] in H. injection H as <-.
  intros x Hx. apply (min_by_key_least (fun q => q) l b x Hx).
Qed.

Lemma py_max_greatest (l : list Q) (m : Q) :
  py_max l = Some m -> In m l /\ forall x, In x l -> x <= m.
Proof.
  intro H. split; [eapply py_min_key_In; exact H|].
  destruct l as [|b l]; [discriminate|].
  unfold py_max in H. cbn [py_min_key] in H. injection H as <-.
  intros x Hx.
  pose proof (min_by_key_least (fun q => - q) l b x Hx) as Hle.
  cbv beta in Hle. lra.
Qed.

Section RollUp.

Context {M : MathLib}.
Variable float_repr : Q -> string.
Variable config : BacktestConfig.



End RollUp.

Section RollUpRun.

Context {M : MathLib}.
Variable float_repr : Q -> string.
Variable config : BacktestConfig.






End RollUpRun.




(** ** Entry filters *)

Lemma shorter_than_iff {A : Type} (historical_data : list A)
    (min_required : Z) :
  shorter_than historical_data min_required = true
  <-> (Z.of_nat (List.length historical_data) < min_required)%Z.
Proof. unfold shorter_than. apply Z.ltb_lt. Qed.

(** The close columns of the tables of a run, read by the trend
    filter. *)
Lemma dict_get_close_frames (symbol : string) (stock_data : dict DataFrame) :
  dict_get symbol (close_frames stock_data)
  = option_map close_frame (dict_get symbol stock_data).
Proof.
  unfold close_frames.
  induction stock_data as [|[k df] d IH]; [reflexivity|].
  cbn [map dict_get fst snd]. destruct (String.eqb k symbol); [reflexivity|].
  exact IH.
Qed.

Lemma cf_upto_close_frame (current_date : Z) (df : DataFrame) :
  cf_upto current_date (close_frame df)
  = close_frame (df_upto current_date df).
Proof.
  unfold cf_upto, close_frame, df_upto.
  induction df as [|b df IH]; [reflexivity|].
  cbn [map filter fst]. destruct (bar_date b <=? current_date)%Z;
    cbn [map]; rewrite IH; reflexivity.
Qed.

(** A moving average of missing prices is missing. *)
Lemma ewm_nan_from_missing (alpha old_wt : Q) (xs : Series) :
  Forall (fun x => x = NaN) xs ->
  ewm_nan_from alpha NaN old_wt xs = xs.
Proof.
  induction 1 as [|x xs Hx _ IH]; [reflexivity|]. subst x.
  cbn [ewm_nan_from isna negb]. rewrite IH. reflexivity.
Qed.

Lemma s_ewm_span_missing (span : Z) (xs : Series) :
  Forall (fun x => x = NaN) xs ->
  iloc_last (s_ewm_span span xs) = NaN.
Proof.
  intro H. unfold s_ewm_span, s_ewm_mean, iloc_last.
  destruct H as [|x xs Hx Hxs]; [reflexivity|]. subst x.
  rewrite (ewm_nan_from_missing _ _ xs Hxs).
  change (NaN :: xs) with ([NaN] ++ xs).
  induction Hxs as [|y ys Hy _ IH]; [reflexivity|]. subst y.
  cbn [app last] in IH |- *. destruct ys; [reflexivity | exact IH].
Qed.

(** In a mode that compares moving averages, the trend filter blocks the
    entry when the closing prices of a history of 200 rows or more are
    all missing. *)
Lemma trend_filter_missing_closes (config : BacktestConfig) (symbol : string)
    (current_date : Z) (stock_data : dict CloseFrame) (df : CloseFrame) :
  In (SpecFilter.trend_mode config) SpecFilter.comparing_modes ->
  dict_get symbol stock_data = Some df ->
  (200 <= Z.of_nat (List.length (cf_upto current_date df)))%Z ->
  Forall (fun x => x = NaN) (map snd (cf_upto current_date df)) ->
  _check_multi_timeframe_trend_filter config symbol current_date stock_data
  = false.
Proof.
  intros Hmode Hget Hlen Hnan. unfold _check_multi_timeframe_trend_filter.
  fold (SpecFilter.trend_mode config). rewrite Hget. cbv zeta.
  replace (shorter_than (cf_upto current_date df) 200) with false
    by (symmetry; apply Z.ltb_ge; exact Hlen).
  replace (shorter_than (cf_upto current_date df) 50) with false
    by (symmetry; apply Z.ltb_ge; lia).
  rewrite andb_false_r, !(s_ewm_span_missing _ _ Hnan).
  unfold SpecFilter.comparing_modes in Hmode.
  destruct Hmode as [<- | [<- | [<- | [<- | [<- | []]]]]]; reflexivity.
Qed.

Ltac exists_nan H :=
  repeat match type of H with
         | Exists _ (_ :: _) => apply Exists_cons in H; destruct H as [H|H]
         | Exists _ [] => apply Exists_nil in H; destruct H
         end.

Section Permissive.

Context {M : MathLib}.
Variable config : BacktestConfig.
Variables (symbol : string) (current_date : Z) (stock_data : dict DataFrame).

Lemma trend_filter_permissive :
  SpecFilter.degraded config TrendFilter symbol current_date stock_data ->
  _check_multi_timeframe_trend_filter config symbol current_date
    (close_frames stock_data)
  = true.
Proof.
  unfold SpecFilter.degraded, _check_multi_timeframe_trend_filter.
  fold (SpecFilter.trend_mode config).
  destruct (String.eqb (SpecFilter.trend_mode config) "NONE"); [reflexivity|].
  rewrite dict_get_close_frames.
  destruct (dict_get symbol stock_data) as [df|]; [|reflexivity].
  cbn [option_map]. rewrite cf_upto_close_frame.
  cbv zeta. fold (SpecFilter.long_trend_mode config).
  set (hd := close_frame (df_upto current_date df)).
  assert (Hhd : List.length hd = List.length (df_upto current_date df))
    by (unfold hd, close_frame; apply length_map).
  rewrite <- Hhd.
  assert (Hshort : (Z.of_nat (List.length hd)
                    < SpecFilter.min_history config TrendFilter)%Z ->
                   (if SpecFilter.long_trend_mode config && shorter_than hd 200
                    then true
                    else if shorter_than hd 50 then true
                    else false) = true).
  { cbn [SpecFilter.min_history].
    destruct (SpecFilter.long_trend_mode config); cbn [andb]; intro H.
    - apply shorter_than_iff in H. rewrite H. reflexivity.
    - apply shorter_than_iff in H. rewrite H.
      destruct (shorter_than hd 200); reflexivity. }
  intros [H | H].
  - specialize (Hshort H).
    destruct (SpecFilter.long_trend_mode config && shorter_than hd 200);
      [reflexivity|].
    destruct (shorter_than hd 50); [reflexivity | discriminate].
  - cbn [SpecFilter.current_values] in H. apply Exists_nil in H.
    destruct H.
Qed.

Lemma rsi_filter_permissive :
  SpecFilter.degraded config RsiFilter symbol current_date stock_data ->
  _check_rsi_filter config symbol current_date stock_data = true.
Proof.
  unfold SpecFilter.degraded, _check_rsi_filter.
  destruct (dict_get symbol stock_data) as [df|]; [|reflexivity].
  cbv zeta. cbn [SpecFilter.min_history SpecFilter.current_values].
  intros [H | H].
  - apply shorter_than_iff in H. rewrite H. reflexivity.
  - destruct (shorter_than _ _); [reflexivity|].
    exists_nan H. rewrite H. reflexivity.
Qed.

Lemma stochastic_filter_permissive :
  SpecFilter.degraded config StochasticFilter symbol current_date stock_data ->
  _check_stochastic_filter config symbol current_date stock_data = true.
Proof.
  unfold SpecFilter.degraded, _check_stochastic_filter.
  destruct (dict_get symbol stock_data) as [df|]; [|reflexivity].
  cbv zeta. cbn [SpecFilter.min_history SpecFilter.current_values].
  intros [H | H].
  - apply shorter_than_iff in H. rewrite H. reflexivity.
  - destruct (shorter_than _ _); [reflexivity|].
    destruct (_calculate_stochastic _ _ _ _) as [slow_k slow_d].
    cbn [fst snd] in H.
    destruct ((List.length slow_k <? 2)%nat || (List.length slow_d <? 2)%nat);
      [reflexivity|].
    exists_nan H; rewrite H; rewrite ?orb_true_r; reflexivity.
Qed.

Lemma supertrend_filter_permissive :
  SpecFilter.degraded config SupertrendFilter symbol current_date stock_data ->
  _check_supertrend_filter config symbol current_date stock_data = true.
Proof.
  unfold SpecFilter.degraded, _check_supertrend_filter.
  destruct (dict_get symbol stock_data) as [df|]; [|reflexivity].
  cbv zeta. cbn [SpecFilter.min_history SpecFilter.current_values].
  intros [H | H].
  - apply shorter_than_iff in H. rewrite H. reflexivity.
  - destruct (shorter_than _ _); [reflexivity|].
    destruct (_calculate_supertrend _ _ _) as [supertrend trend].
    cbn [fst] in H. exists_nan H. rewrite H. reflexivity.
Qed.

Lemma vwap_filter_permissive :
  SpecFilter.degraded config VwapFilter symbol current_date stock_data ->
  _check_vwap_filter config symbol current_date stock_data = true.
Proof.
  unfold SpecFilter.degraded, _check_vwap_filter.
  destruct (dict_get symbol stock_data) as [df|]; [|reflexivity].
  cbv zeta. cbn [SpecFilter.min_history SpecFilter.current_values].
  intros [H | H].
  - apply shorter_than_iff in H. rewrite H. reflexivity.
  - destruct (shorter_than _ _); [reflexivity|].
    exists_nan H. rewrite H, orb_true_r. reflexivity.
Qed.

Lemma adx_filter_permissive :
  SpecFilter.degraded config AdxFilter symbol current_date stock_data ->
  _check_adx_filter config symbol current_date stock_data = true.
Proof.
  unfold SpecFilter.degraded, _check_adx_filter.
  destruct (dict_get symbol stock_data) as [df|]; [|reflexivity].
  cbv zeta. cbn [SpecFilter.min_history SpecFilter.current_values].
  intros [H | H].
  - apply shorter_than_iff in H. rewrite H. reflexivity.
  - destruct (shorter_than _ _); [reflexivity|].
    destruct (_calculate_adx _ _) as [[adx plus_di] minus_di].
    cbn [fst snd] in H.
    exists_nan H; rewrite H; rewrite ?orb_true_r; reflexivity.
Qed.

Lemma bollinger_filter_permissive :
  SpecFilter.degraded config BollingerFilter symbol current_date stock_data ->
  _check_bollinger_filter config symbol current_date stock_data = true.
Proof.
  unfold SpecFilter.degraded, _check_bollinger_filter.
  destruct (dict_get symbol stock_data) as [df|]; [|reflexivity].
  cbv zeta. cbn [SpecFilter.min_history SpecFilter.current_values].
  intros [H | H].
  - apply shorter_than_iff in H. rewrite H. reflexivity.
  - destruct (shorter_than _ _); [reflexivity|].
    destruct (_calculate_bollinger_bands _ _ _) as [[upper middle] lower].
    cbn [fst snd] in H.
    exists_nan H; rewrite H; rewrite ?orb_true_r; reflexivity.
Qed.

Lemma macd_filter_permissive :
  SpecFilter.degraded config MacdFilter symbol current_date stock_data ->
  _check_macd_filter config symbol current_date stock_data = true.
Proof.
  unfold SpecFilter.degraded, _check_macd_filter.
  destruct (dict_get symbol stock_data) as [df|]; [|reflexivity].
  cbv zeta. cbn [SpecFilter.min_history SpecFilter.current_values].
  intros [H | H].
  - apply shorter_than_iff in H. rewrite H. reflexivity.
  - destruct (shorter_than _ _); [reflexivity|].
    destruct (_calculate_macd _ _ _ _) as [[macd_line signal_line] histogram].
    cbn [fst snd] in H.
    destruct ((List.length macd_line <? 2)%nat || _ || _); [reflexivity|].
    exists_nan H; rewrite H; rewrite ?orb_true_r; reflexivity.
Qed.

Lemma williams_filter_permissive :
  SpecFilter.degraded config WilliamsFilter symbol current_date stock_data ->
  _check_williams_filter config symbol current_date stock_data = true.
Proof.
  unfold SpecFilter.degraded, _check_williams_filter.
  destruct (dict_get symbol stock_data) as [df|]; [|reflexivity].
  cbv zeta. cbn [SpecFilter.min_history SpecFilter.current_values].
  intros [H | H].
  - apply shorter_than_iff in H. rewrite H. reflexivity.
  - destruct (shorter_than _ _); [reflexivity|].
    destruct (List.length _ <? 2)%nat; [reflexivity|].
    exists_nan H. rewrite H. reflexivity.
Qed.

Lemma check_filter_permissive (f : EntryFilter) :
  SpecFilter.degraded config f symbol current_date stock_data ->
  check_filter config f symbol current_date stock_data = true.
Proof.
  destruct f; cbn [check_filter].
  - apply trend_filter_permissive.
  - apply rsi_filter_permissive.
  - apply stochastic_filter_permissive.
  - apply supertrend_filter_permissive.
  - apply vwap_filter_permissive.
  - apply adx_filter_permissive.
  - apply bollinger_filter_permissive.
  - apply macd_filter_permissive.
  - apply williams_filter_permissive.
Qed.

End Permissive.

(** Every entry filter passes when the history of the symbol up to the
    date is shorter than the filter's minimum (or there is no table for
    the symbol), and every filter but the trend filter passes when an
    indicator value that it reads at the evaluation date is NaN.  Hence,
    if this holds of every enabled filter, the chain of filters of
    [_check_new_entries] lets the entry through. *)
Lemma entry_filters_permissive {M : MathLib} (config : BacktestConfig)
    (symbol : string) (current_date : Z) (stock_data : dict DataFrame) :
  (forall f,
     SpecFilter.degraded config f symbol current_date stock_data ->
     check_filter config f symbol current_date stock_data = true) /\
  ((forall f,
      filter_enabled config f = true ->
      SpecFilter.degraded config f symbol current_date stock_data) ->
   entry_filters_pass config symbol current_date stock_data = true).
Proof.
  split.
  - intros f Hf. apply check_filter_permissive. exact Hf.
  - intro Hall. unfold entry_filters_pass. apply forallb_forall.
    intros f _. destruct (filter_enabled config f) eqn:E; [|reflexivity].
    apply check_filter_permissive. apply Hall. exact E.
Qed.

(** Five bars for a 14-period RSI filter: the entry is allowed.  Thirty
    bars of a flat price: the RSI and the Stochastic values are NaN, and
    both filters pass. *)
Lemma entry_filters_permissive_on_flat_prices :
  @check_filter sample_math SpecFilter.filtering_config RsiFilter "RELIANCE" 4
    [("RELIANCE"%string, SpecFilter.flat_table 5)] = true /\
  @check_filter sample_math SpecFilter.filtering_config RsiFilter "RELIANCE" 29
    [("RELIANCE"%string, SpecFilter.flat_table 30)] = true /\
  @check_filter sample_math SpecFilter.filtering_config StochasticFilter
    "RELIANCE" 29 [("RELIANCE"%string, SpecFilter.flat_table 30)] = true.
Proof.
  split; [|split].
  - apply (proj1 (@entry_filters_permissive sample_math
                    SpecFilter.filtering_config "RELIANCE" 4
                    [("RELIANCE"%string, SpecFilter.flat_table 5)])).
    left. vm_compute. reflexivity.
  - apply (proj1 (@entry_filters_permissive sample_math
                    SpecFilter.filtering_config "RELIANCE" 29
                    [("RELIANCE"%string, SpecFilter.flat_table 30)])).
    right. apply Exists_cons_hd. vm_compute. reflexivity.
  - apply (proj1 (@entry_filters_permissive sample_math
                    SpecFilter.filtering_config "RELIANCE" 29
                    [("RELIANCE"%string, SpecFilter.flat_table 30)])).
    right. apply Exists_cons_hd. vm_compute. reflexivity.
Qed.


(** * Further properties of the code *)

(** ** The strike nearest to an OTM target *)

(** Invariant of Python's [min(l, key=f)]: the element kept is a first
    minimum of the part of the list read so far. *)
Lemma min_by_key_first (key : Q -> Q) (l : list Q) :
  forall before best after,
    (forall x, In x before -> key best < key x) ->
    (forall x, In x after -> key best <= key x) ->
    exists before' s after',
      (before ++ best :: after) ++ l = before' ++ s :: after' /\
      min_by_key Qlt_bool key best l = s /\
      (forall x, In x before' -> key s < key x) /\
      (forall x, In x after' -> key s <= key x).
Proof.
  induction l as [|x l IH]; intros before best after Hb Ha.
  - exists before, best, after. rewrite app_nil_r. auto.
  - cbn [min_by_key].
    destruct (Qlt_bool (key x) (key best)) eqn:E.
    + apply Qlt_bool_iff in E.
      destruct (IH (before ++ best :: after) x [])
        as (b' & s' & a' & Heq & Hf & Hb' & Ha').
      * intros y Hy. apply in_app_or in Hy. destruct Hy as [Hy|[Hy|Hy]].
        -- specialize (Hb y Hy). lra.
        -- subst y. exact E.
        -- specialize (Ha y Hy). lra.
      * intros y [].
      * exists b', s', a'. repeat split; auto.
        rewrite <- Heq. rewrite <- !app_assoc. reflexivity.
    + apply Qlt_bool_false_iff in E.
      destruct (IH before best (after ++ [x]))
        as (b' & s' & a' & Heq & Hf & Hb' & Ha').
      * exact Hb.
      * intros y Hy. apply in_app_or in Hy. destruct Hy as [Hy|[Hy|[]]].
        -- auto.
        -- subst y. exact E.
      * exists b', s', a'. repeat split; auto.
        rewrite <- Heq. rewrite <- !app_assoc. cbn [app].
        rewrite <- app_assoc. reflexivity.
Qed.

(** X1.  [find_strike_by_otm_percent] raises on an empty list of strikes
    ([min] of an empty sequence); on a non-empty list it returns the
    strike nearest to [spot * (1 + otm_percent)] for a call and to
    [spot * (1 - otm_percent)] for a put: no strike of the list is
    strictly nearer, and every strike listed before the result is
    strictly farther, so of two equally near strikes the first one
    listed wins. *)
Theorem find_strike_by_otm_percent_nearest (spot otm_percent : Q)
    (available_strikes : list Q) (option_type : string) :
  let target_strike :=
    if String.eqb option_type "CE" then spot * (1 + otm_percent)
    else spot * (1 - otm_percent) in
  (GreeksCalculator.find_strike_by_otm_percent spot otm_percent []
     option_type = None) /\
  (available_strikes <> [] ->
   exists before s after,
     available_strikes = before ++ s :: after /\
     GreeksCalculator.find_strike_by_otm_percent spot otm_percent
       available_strikes option_type = Some s /\
     (forall x, In x before ->
        Qabs (s - target_strike) < Qabs (x - target_strike)) /\
     (forall x, In x after ->
        Qabs (s - target_strike) <= Qabs (x - target_strike))).
Proof.
  intro target_strike. split; [reflexivity|].
  destruct available_strikes as [|s0 rest]; [congruence|]. intros _.
  destruct (min_by_key_first (fun x => Qabs (x - target_strike)) rest [] s0 [])
    as (b & s & a & Heq & Hf & Hb & Ha).
  - intros x [].
  - intros x [].
  - exists b, s, a. split; [exact Heq|]. split; [|split; assumption].
    unfold GreeksCalculator.find_strike_by_otm_percent. fold target_strike.
    cbn [py_min_key]. rewrite Hf. reflexivity.
Qed.

(** The strikes 2500 and 2600 are equally near to the target 2550 of a
    call 2% out of the money on a spot of 2500: the first one is
    returned. *)
Lemma find_strike_by_otm_percent_nearest_witness :
  exists before s after,
    [2400; 2500; 2600] = before ++ s :: after /\
    GreeksCalculator.find_strike_by_otm_percent 2500 (2 # 100)
      [2400; 2500; 2600] "CE" = Some s /\
    (forall x, In x before ->
       Qabs (s - 2500 * (1 + (2 # 100))) < Qabs (x - 2500 * (1 + (2 # 100)))) /\
    (forall x, In x after ->
       Qabs (s - 2500 * (1 + (2 # 100))) <= Qabs (x - 2500 * (1 + (2 # 100)))).
Proof.
  apply (proj2 (find_strike_by_otm_percent_nearest 2500 (2 # 100)
                  [2400; 2500; 2600] "CE")).
  discriminate.
Defined.

(** ** IV percentile, IV rank and the regime targets *)

Lemma strictly_below_le_length (current_iv : Q) (l : list Q) :
  (Spec.strictly_below current_iv l <= List.length l)%nat.
Proof.
  rewrite <- filter_length_strictly_below. apply filter_length_le.
Qed.

Lemma strictly_below_mono (c c' : Q) (l : list Q) :
  c <= c' ->
  (Spec.strictly_below c l <= Spec.strictly_below c' l)%nat.
Proof.
  intro Hc. induction l as [|x l IH]; cbn [Spec.strictly_below]; [lia|].
  destruct (Qlt_bool x c) eqn:E.
  - apply Qlt_bool_iff in E.
    replace (Qlt_bool x c') with true; [lia|].
    symmetry. apply Qlt_bool_iff. lra.
  - destruct (Qlt_bool x c'); lia.
Qed.

Lemma inject_Z_nonzero (z : Z) : z <> 0%Z -> ~ inject_Z z == 0.
Proof.
  intros Hz H. apply Hz. apply (proj1 (inject_Z_injective z 0)). exact H.
Qed.

Lemma percentile_of_count (n len : nat) :
  (0 < len)%nat ->
  inject_Z (Z.of_nat n) / inject_Z (Z.of_nat len) * 100
  == inject_Z (100 * Z.of_nat n) / inject_Z (Z.of_nat len).
Proof.
  intro Hlen. rewrite inject_Z_mult. field.
  apply inject_Z_nonzero. lia.
Qed.

Lemma count_ratio_le (a b len : Z) :
  (0 < len)%Z -> (a <= b)%Z ->
  inject_Z a / inject_Z len <= inject_Z b / inject_Z len.
Proof.
  intros Hlen Hab. apply Qdiv_le_compat_r.
  - change 0 with (inject_Z 0). rewrite <- Zlt_Qlt. exact Hlen.
  - rewrite <- Zle_Qle. exact Hab.
Qed.

(** X2.  The IV percentile is always between 0 and 100, and it never
    decreases when the current IV increases against the same history. *)
Theorem calculate_iv_percentile_range (current_iv higher_iv : Q)
    (historical_ivs : list Q) :
  0 <= IVPercentileService.calculate_iv_percentile current_iv historical_ivs /\
  IVPercentileService.calculate_iv_percentile current_iv historical_ivs <= 100 /\
  (current_iv <= higher_iv ->
   IVPercentileService.calculate_iv_percentile current_iv historical_ivs <=
   IVPercentileService.calculate_iv_percentile higher_iv historical_ivs).
Proof.
  destruct historical_ivs as [|x l].
  - cbn. repeat split; intros; lra.
  - unfold IVPercentileService.calculate_iv_percentile.
    rewrite !below_count_strictly_below.
    set (h := x :: l).
    assert (Hlen : (0 < List.length h)%nat) by (cbn; lia).
    rewrite !(percentile_of_count _ _ Hlen).
    pose proof (strictly_below_le_length current_iv h) as Hle.
    assert (H0 : inject_Z 0 / inject_Z (Z.of_nat (List.length h)) == 0).
    { change (inject_Z 0) with 0. unfold Qdiv. ring. }
    assert (H100 : inject_Z (100 * Z.of_nat (List.length h)) /
                   inject_Z (Z.of_nat (List.length h)) == 100).
    { rewrite inject_Z_mult. field.
      apply inject_Z_nonzero. lia. }
    split; [|split].
    + rewrite <- H0. apply count_ratio_le; lia.
    + rewrite <- H100. apply count_ratio_le; lia.
    + intro Hc. apply count_ratio_le; [lia|].
      pose proof (strictly_below_mono current_iv higher_iv h Hc). lia.
Qed.

Lemma calculate_iv_percentile_range_witness :
  IVPercentileService.calculate_iv_percentile (15 # 100)
    [10 # 100; 20 # 100; 15 # 100; 30 # 100] <=
  IVPercentileService.calculate_iv_percentile (25 # 100)
    [10 # 100; 20 # 100; 15 # 100; 30 # 100].
Proof.
  apply (calculate_iv_percentile_range (15 # 100) (25 # 100)
           [10 # 100; 20 # 100; 15 # 100; 30 # 100]).
  discriminate.
Defined.

(** X3.  The IV rank is always between 0 and 100; it is 50 when the
    52-week high and low coincide, and for a current IV inside a proper
    range [low < high] it is the position of the current IV in that
    range, in percent, without clamping. *)
Theorem calculate_iv_rank_range (current_iv iv_high iv_low : Q) :
  0 <= IVPercentileService.calculate_iv_rank current_iv iv_high iv_low /\
  IVPercentileService.calculate_iv_rank current_iv iv_high iv_low <= 100 /\
  (iv_high == iv_low ->
   IVPercentileService.calculate_iv_rank current_iv iv_high iv_low = 50) /\
  (iv_low < iv_high -> iv_low <= current_iv -> current_iv <= iv_high ->
   IVPercentileService.calculate_iv_rank current_iv iv_high iv_low
   = ((current_iv - iv_low) / (iv_high - iv_low)) * 100).
Proof.
  unfold IVPercentileService.calculate_iv_rank, IVPercentileService.Qclamp.
  set (r := ((current_iv - iv_low) / (iv_high - iv_low)) * 100).
  split; [|split; [|split]].
  - destruct (Qeq_bool iv_high iv_low); [lra|].
    destruct (Qlt_bool r 0) eqn:E1; [lra|]. apply Qlt_bool_false_iff in E1.
    destruct (Qlt_bool 100 r); lra.
  - destruct (Qeq_bool iv_high iv_low); [lra|].
    destruct (Qlt_bool r 0) eqn:E1; [lra|].
    destruct (Qlt_bool 100 r) eqn:E2; [lra|].
    apply Qlt_bool_false_iff in E2. exact E2.
  - intro H. apply Qeq_bool_iff in H. rewrite H. reflexivity.
  - intros Hr Hlo Hhi.
    destruct (Qeq_bool iv_high iv_low) eqn:E.
    { apply Qeq_bool_iff in E. lra. }
    assert (Hd : 0 < iv_high - iv_low) by lra.
    assert (H01 : 0 <= (current_iv - iv_low) / (iv_high - iv_low) /\
                  (current_iv - iv_low) / (iv_high - iv_low) <= 1).
    { split.
      - apply Qle_shift_div_l; [exact Hd|]. lra.
      - apply Qle_shift_div_r; [exact Hd|]. lra. }
    replace (Qlt_bool r 0) with false
      by (symmetry; apply Qlt_bool_false_iff; unfold r; lra).
    replace (Qlt_bool 100 r) with false
      by (symmetry; apply Qlt_bool_false_iff; unfold r; lra).
    reflexivity.
Qed.

Lemma calculate_iv_rank_range_witness :
  IVPercentileService.calculate_iv_rank (20 # 100) (30 # 100) (10 # 100)
  = (((20 # 100) - (10 # 100)) / ((30 # 100) - (10 # 100))) * 100.
Proof.
  apply (calculate_iv_rank_range (20 # 100) (30 # 100) (10 # 100));
    [reflexivity | discriminate | discriminate].
Defined.

Lemma get_regime_cases (p : Q) :
  (p < 25 /\ IVPercentileService.get_regime p = "LOW"%string) \/
  (25 <= p /\ p < 50 /\ IVPercentileService.get_regime p = "NORMAL"%string) \/
  (50 <= p /\ p < 75 /\ IVPercentileService.get_regime p = "ELEVATED"%string) \/
  (75 <= p /\ IVPercentileService.get_regime p = "HIGH"%string).
Proof.
  unfold IVPercentileService.get_regime.
  destruct (Qlt_bool p 25) eqn:E1;
    [apply Qlt_bool_iff in E1; auto | apply Qlt_bool_false_iff in E1].
  destruct (Qlt_bool p 50) eqn:E2;
    [apply Qlt_bool_iff in E2; auto | apply Qlt_bool_false_iff in E2].
  destruct (Qlt_bool p 75) eqn:E3;
    [apply Qlt_bool_iff in E3; auto 6 | apply Qlt_bool_false_iff in E3].
  auto 6.
Qed.

(** X4.  The look-ups [DELTA_MAP[regime]] and [OTM_MAP[regime]] never
    raise: every regime that [get_regime] returns is a key of both maps.
    A higher IV percentile never gives a higher target delta nor a
    smaller OTM distance; the delta stays within 0.20 .. 0.35 and the OTM
    distance within 3.5% .. 8.5%. *)
Theorem regime_targets_monotone (p q : Q) :
  p <= q ->
  IVPercentileService.getitem IVPercentileService.DELTA_MAP
    (IVPercentileService.get_regime p)
  = Some (IVPercentileService.get_target_delta p) /\
  (exists otm_p otm_q,
     IVPercentileService.get_target_otm_pct p = Some otm_p /\
     IVPercentileService.get_target_otm_pct q = Some otm_q /\
     otm_p <= otm_q /\ 35 # 1000 <= otm_p /\ otm_q <= 85 # 1000) /\
  IVPercentileService.get_target_delta q <=
  IVPercentileService.get_target_delta p /\
  20 # 100 <= IVPercentileService.get_target_delta q /\
  IVPercentileService.get_target_delta p <= 35 # 100.
Proof.
  intro Hpq.
  unfold IVPercentileService.get_target_otm_pct,
    IVPercentileService.get_target_delta.
  destruct (get_regime_cases p) as [(Hp & ->) | [(Hp1 & Hp2 & ->) |
                                     [(Hp1 & Hp2 & ->) | (Hp & ->)]]];
    destruct (get_regime_cases q) as [(Hq & ->) | [(Hq1 & Hq2 & ->) |
                                       [(Hq1 & Hq2 & ->) | (Hq & ->)]]];
    try (exfalso; lra);
    (split; [reflexivity|]);
    (split; [eexists; eexists; split; [reflexivity|]; split; [reflexivity|];
             repeat split; discriminate|]);
    repeat split; discriminate.
Qed.

Lemma regime_targets_monotone_witness :
  IVPercentileService.get_target_delta 80 <=
  IVPercentileService.get_target_delta 30.
Proof.
  apply (regime_targets_monotone 30 80). discriminate.
Defined.

(** ** The price of a date *)

Lemma chronological_find (df : DataFrame) (bar : Bar) :
  SpecPivot.chronological df -> In bar df ->
  find (fun b => (bar_date b =? bar_date bar)%Z) df = Some bar.
Proof.
  induction df as [|b0 df IH]; cbn [SpecPivot.chronological In find];
    [tauto|].
  intros [Hb0 Hrest] [-> | Hin].
  - rewrite Z.eqb_refl. reflexivity.
  - specialize (Hb0 bar Hin).
    replace (bar_date b0 =? bar_date bar)%Z with false
      by (symmetry; apply Z.eqb_neq; lia).
    apply IH; assumption.
Qed.

Lemma df_upto_In (date : Z) (df : DataFrame) (bar : Bar) :
  In bar (df_upto date df) <-> In bar df /\ (bar_date bar <= date)%Z.
Proof.
  unfold df_upto. rewrite filter_In, Z.leb_le. tauto.
Qed.

(** X7.  [_get_price] never reads a bar dated after the requested date:
    a price it returns is the close of a bar of the symbol's table dated
    at or before that date.  It returns [None] exactly when the symbol
    has no table or every bar of its table is dated later.  On a table
    in chronological order the price is the close of the latest bar dated
    at or before the date (the bar of the date itself when there is
    one). *)
Theorem get_price_latest_close (symbol : string) (date : Z)
    (stock_data : dict DataFrame) :
  (forall p, _get_price symbol date stock_data = Some p ->
     exists df bar,
       dict_get symbol stock_data = Some df /\ In bar df /\
       (bar_date bar <= date)%Z /\ close bar = p) /\
  (_get_price symbol date stock_data = None <->
   match dict_get symbol stock_data with
   | None => True
   | Some df => forall bar, In bar df -> (date < bar_date bar)%Z
   end) /\
  (forall df bar,
     dict_get symbol stock_data = Some df ->
     SpecPivot.chronological df ->
     In bar df -> (bar_date bar <= date)%Z ->
     (forall b, In b df -> (bar_date b <= date)%Z ->
        (bar_date b <= bar_date bar)%Z) ->
     _get_price symbol date stock_data = Some (close bar)).
Proof.
  unfold _get_price, loc_close.
  destruct (dict_get symbol stock_data) as [df|];
    [|split; [discriminate | split; [tauto | discriminate]]].
  assert (Hnearest : forall nearest older,
            rev (df_upto date df) = nearest :: older ->
            In nearest df /\ (bar_date nearest <= date)%Z /\
            exists b, find (fun b => (bar_date b =? bar_date nearest)%Z) df
                      = Some b /\ In b df /\ bar_date b = bar_date nearest).
  { intros nearest older Hrev.
    assert (Hin : In nearest (df_upto date df)).
    { apply in_rev. rewrite Hrev. left. reflexivity. }
    apply df_upto_In in Hin. destruct Hin as [Hin Hle].
    split; [exact Hin|]. split; [exact Hle|].
    destruct (find (fun b => (bar_date b =? bar_date nearest)%Z) df)
      as [b|] eqn:Hf.
    - exists b. split; [reflexivity|].
      apply find_some in Hf. destruct Hf as [Hb Hd].
      apply Z.eqb_eq in Hd. auto.
    - exfalso. pose proof (find_none _ _ Hf nearest Hin) as H.
      cbv beta in H. rewrite Z.eqb_refl in H. discriminate. }
  split; [|split].
  - intros p Hp. exists df.
    destruct (find (fun b => (bar_date b =? date)%Z) df) as [b|] eqn:Hf.
    + cbn [option_map] in Hp. injection Hp as <-.
      apply find_some in Hf. destruct Hf as [Hb Hd]. apply Z.eqb_eq in Hd.
      exists b. repeat split; [exact Hb | lia].
    + cbn [option_map] in Hp.
      destruct (rev (df_upto date df)) as [|nearest older] eqn:Hrev;
        [discriminate|].
      destruct (Hnearest nearest older eq_refl)
        as (_ & Hle & b & Hfb & Hb & Hd).
      rewrite Hfb in Hp. cbn [option_map] in Hp. injection Hp as <-.
      exists b. repeat split; [exact Hb | lia].
  - split.
    + intros Hnone bar Hbar.
      destruct (Z.lt_ge_cases date (bar_date bar)) as [Hlt|Hge];
        [exact Hlt|]. exfalso.
      destruct (find (fun b => (bar_date b =? date)%Z) df) as [b|];
        [discriminate|].
      destruct (rev (df_upto date df)) as [|nearest older] eqn:Hrev.
      * assert (Hin : In bar (df_upto date df))
          by (apply df_upto_In; split; [exact Hbar | lia]).
        apply in_rev in Hin. rewrite Hrev in Hin. destruct Hin.
      * destruct (Hnearest nearest older eq_refl) as (_ & _ & b & Hfb & _).
        rewrite Hfb in Hnone. discriminate.
    + intro Hall.
      destruct (find (fun b => (bar_date b =? date)%Z) df) as [b|] eqn:Hf.
      { apply find_some in Hf. destruct Hf as [Hb Hd]. apply Z.eqb_eq in Hd.
        specialize (Hall b Hb). lia. }
      destruct (rev (df_upto date df)) as [|nearest older] eqn:Hrev;
        [reflexivity|].
      destruct (Hnearest nearest older eq_refl) as (Hin & Hle & _).
      specialize (Hall nearest Hin). lia.
  - intros df' bar Hdf Hchrono Hbar Hle Hmax. injection Hdf as <-.
    assert (Huniq : forall b, In b df -> bar_date b = bar_date bar -> b = bar).
    { intros b Hb Hd.
      pose proof (chronological_find df b Hchrono Hb) as H1.
      pose proof (chronological_find df bar Hchrono Hbar) as H2.
      rewrite Hd in H1. congruence. }
    destruct (find (fun b => (bar_date b =? date)%Z) df) as [b|] eqn:Hf.
    + apply find_some in Hf. destruct Hf as [Hb Hd]. apply Z.eqb_eq in Hd.
      cbn [option_map]. f_equal. f_equal. apply Huniq; [exact Hb|].
      specialize (Hmax b Hb). lia.
    + destruct (rev (df_upto date df)) as [|nearest older] eqn:Hrev.
      * assert (Hin : In bar (df_upto date df))
          by (apply df_upto_In; split; assumption).
        apply in_rev in Hin. rewrite Hrev in Hin. destruct Hin.
      * destruct (Hnearest nearest older eq_refl) as (Hin & Hnle & _).
        assert (Heq : nearest = bar).
        { apply Huniq; [exact Hin|].
          pose proof (Hmax nearest Hin Hnle) as H1.
          pose proof (chronological_filter
                        (fun b => (bar_date b <=? date)%Z) df Hchrono) as Hc.
          fold (df_upto date df) in Hc.
          apply (f_equal (@rev Bar)) in Hrev.
          rewrite rev_involutive in Hrev. cbn [rev] in Hrev.
          rewrite Hrev in Hc. apply chronological_app in Hc.
          destruct Hc as (_ & _ & Hc).
          assert (Hb' : In bar (rev older ++ [nearest])).
          { rewrite <- Hrev. apply df_upto_In. split; assumption. }
          apply in_app_or in Hb'. destruct Hb' as [Hb' | [Hb' | []]].
          - specialize (Hc bar nearest Hb' (or_introl eq_refl)). lia.
          - rewrite Hb'. reflexivity. }
        subst nearest.
        rewrite (chronological_find df bar Hchrono Hbar). reflexivity.
Qed.

(** On the table of three bars dated 5, 6 and 7 the price of day 9 is the
    close of the bar of day 7. *)
Lemma get_price_latest_close_witness :
  _get_price "RELIANCE" 9 [("RELIANCE"%string, SpecPivot.three_bar_table)]
  = Some (close SpecPivot.third_bar).
Proof.
  apply (proj2 (proj2 (get_price_latest_close "RELIANCE" 9
                         [("RELIANCE"%string, SpecPivot.three_bar_table)]))
           SpecPivot.three_bar_table SpecPivot.third_bar eq_refl).
  - cbn. repeat split; intros b' Hb';
      repeat (destruct Hb' as [<- | Hb']; [cbn; lia|]); destruct Hb'.
  - right. right. left. reflexivity.
  - cbn. lia.
  - intros b Hb _.
    repeat (destruct Hb as [<- | Hb]; [cbn; lia|]); destruct Hb.
Defined.

(** ** The shape of the strike ladder *)






(** ** The end of the run *)

Section EndOfRun.

Context {M : MathLib}.
Variable config : BacktestConfig.
Variables (exit_date : Z) (stock_data : dict DataFrame).

(** One iteration of the loop, on the first key of the dictionary. *)
Lemma close_all_body_head (k : string) (p : Position.t)
    (ps : dict Position.t) (tr : list Trade.t) (c : Q) (st1 : EngineState) :
  close_all_body config exit_date stock_data k
    {| positions := (k, p) :: ps; trades := tr; cash := c |} = Some st1 ->
  exists trade c1,
    st1 = {| positions := ps; trades := tr ++ [trade]; cash := c1 |} /\
    Trade.symbol trade = k /\
    Trade.exit_reason trade = "END_OF_BACKTEST"%string /\
    Trade.exit_date trade = exit_date.
Proof.
  unfold close_all_body. cbn [positions dict_get]. rewrite String.eqb_refl.
  cbv zeta.
  destruct (if (0 <? Z.max (Position.expiry_date p - exit_date) 0)%Z
            then _ else _) as [option_price|]; [|discriminate].
  unfold _close_position. cbn [positions dict_pop].
  rewrite String.eqb_refl. cbv zeta. cbn [trades cash].
  intro H. injection H as <-.
  eexists. eexists. split; [reflexivity|]. repeat split.
Qed.

Lemma close_all_body_returns (k : string) (p : Position.t)
    (ps : dict Position.t) (tr : list Trade.t) (c : Q) :
  SpecClose.valued exit_date stock_data k p ->
  exists st1,
    close_all_body config exit_date stock_data k
      {| positions := (k, p) :: ps; trades := tr; cash := c |} = Some st1.
Proof.
  intro Hvalued.
  unfold close_all_body. cbn [positions dict_get]. rewrite String.eqb_refl.
  cbv zeta. fold (SpecClose.closing_price exit_date stock_data k p).
  assert (Hprice : exists option_price,
            (if (0 <? Z.max (Position.expiry_date p - exit_date) 0)%Z
             then GreeksCalculator.calculate_option_price
                    (risk_free_rate config)
                    (SpecClose.closing_price exit_date stock_data k p)
                    (Position.strike_price p)
                    (inject_Z (Z.max (Position.expiry_date p - exit_date) 0)
                     / 365)
                    (Position.iv_at_entry p) "CE" None
             else Some (py_max2 0
                          (SpecClose.closing_price exit_date stock_data k p
                           - Position.strike_price p)))
            = Some option_price).
  { destruct (0 <? Z.max (Position.expiry_date p - exit_date) 0)%Z eqn:E;
      [|eauto].
    apply Z.ltb_lt in E.
    destruct Hvalued as [Hexp | Hpriceable]; [lia|].
    replace (Z.max (Position.expiry_date p - exit_date) 0)
      with (Position.expiry_date p - exit_date)%Z by lia.
    apply calculate_option_price_priceable. exact Hpriceable. }
  destruct Hprice as (option_price & ->).
  unfold _close_position. cbn [positions dict_pop].
  rewrite String.eqb_refl. eauto.
Qed.

(** The loop of [_close_all_positions] on the keys of the dictionary it
    closes. *)
Lemma close_all_loop (ps : dict Position.t) :
  forall (tr : list Trade.t) (c : Q) (st' : EngineState),
    for_each (close_all_body config exit_date stock_data) (map fst ps)
      {| positions := ps; trades := tr; cash := c |} = Some st' ->
    positions st' = [] /\
    exists new_trades,
      trades st' = tr ++ new_trades /\
      map Trade.symbol new_trades = map fst ps /\
      (forall t, In t new_trades ->
         Trade.exit_reason t = "END_OF_BACKTEST"%string /\
         Trade.exit_date t = exit_date).
Proof.
  induction ps as [|[k p] ps IH]; intros tr c st' Hrun.
  - cbn [map for_each] in Hrun. injection Hrun as <-.
    split; [reflexivity|]. exists []. cbn [trades]. rewrite app_nil_r.
    split; [reflexivity|]. split; [reflexivity | intros t []].
  - cbn [map fst for_each] in Hrun.
    destruct (close_all_body config exit_date stock_data k _) as [st1|] eqn:Hb;
      [|discriminate].
    destruct (close_all_body_head k p ps tr c st1 Hb)
      as (trade & c1 & -> & Hsym & Hreason & Hdate).
    destruct (IH _ _ _ Hrun) as (Hpos & new_trades & Htr & Hsyms & Hall).
    split; [exact Hpos|]. exists (trade :: new_trades).
    split; [rewrite Htr, <- app_assoc; reflexivity|].
    split; [cbn [map]; rewrite Hsym, Hsyms; reflexivity|].
    intros t [<- | Ht]; [split; assumption | apply Hall; exact Ht].
Qed.

Lemma close_all_loop_returns (ps : dict Position.t) :
  (forall k p, In (k, p) ps -> SpecClose.valued exit_date stock_data k p) ->
  forall (tr : list Trade.t) (c : Q),
  exists st',
    for_each (close_all_body config exit_date stock_data) (map fst ps)
      {| positions := ps; trades := tr; cash := c |} = Some st'.
Proof.
  induction ps as [|[k p] ps IH]; intros Hvalued tr c.
  - cbn [map for_each]. eauto.
  - cbn [map fst for_each].
    destruct (close_all_body_returns k p ps tr c
                (Hvalued k p (or_introl eq_refl))) as (st1 & Hb).
    rewrite Hb.
    destruct (close_all_body_head k p ps tr c st1 Hb)
      as (trade & c1 & -> & _).
    apply IH. intros k' p' Hin. apply Hvalued. right. exact Hin.
Qed.

End EndOfRun.

(** X10.  When [_close_all_positions] returns it leaves no position
    open: it has appended one trade per open position, in the order of
    the dictionary, each with exit reason END_OF_BACKTEST and the given
    exit date, and kept the trades recorded before.  It returns when the
    option of every open position can be valued on the exit date: the
    option has expired, or prices, time to expiry and volatility are in
    the domain of the pricing. *)
Theorem close_all_positions_closes_everything {M : MathLib}
    (config : BacktestConfig) (exit_date : Z) (stock_data : dict DataFrame)
    (st : EngineState) :
  (forall st',
     _close_all_positions config exit_date stock_data st = Some st' ->
     positions st' = [] /\
     exists new_trades,
       trades st' = trades st ++ new_trades /\
       map Trade.symbol new_trades = map fst (positions st) /\
       (forall t, In t new_trades ->
          Trade.exit_reason t = "END_OF_BACKTEST"%string /\
          Trade.exit_date t = exit_date)) /\
  ((forall symbol position,
      In (symbol, position) (positions st) ->
      SpecClose.valued exit_date stock_data symbol position) ->
   exists st',
     _close_all_positions config exit_date stock_data st = Some st').
Proof.
  destruct st as [ps tr c]. unfold _close_all_positions. cbn [positions trades].
  split.
  - intros st' Hrun.
    exact (close_all_loop config exit_date stock_data ps tr c st' Hrun).
  - intro Hvalued.
    exact (close_all_loop_returns config exit_date stock_data ps Hvalued tr c).
Qed.

(** The final close-out of [SpecLedger.two_positions] on day 40, after
    the expiry of both options. *)
Lemma close_all_positions_closes_everything_witness :
  exists st',
    @_close_all_positions sample_math
      (default_config ["RELIANCE"%string] 0 365 DELTA_30 HOLD_TO_EXPIRY)
      40 [] SpecLedger.two_positions = Some st' /\
    positions st' = [].
Proof.
  destruct (@close_all_positions_closes_everything sample_math
              (default_config ["RELIANCE"%string] 0 365 DELTA_30
                 HOLD_TO_EXPIRY)
              40 [] SpecLedger.two_positions) as [Hclosed Hreturns].
  destruct Hreturns as (st' & Hrun).
  - intros symbol position [H | [H | []]]; injection H as <- <-;
      left; vm_compute; discriminate.
  - exists st'. split; [exact Hrun|]. apply (Hclosed st' Hrun).
Defined.

(** ** The ledger of trades *)

Lemma ledger_extended_refl (st : EngineState) :
  SpecLedger.ledger_extended st st.
Proof.
  exists []. rewrite app_nil_r. cbn [List.length]. split; [reflexivity | lia].
Qed.

Lemma ledger_extended_trans (st1 st2 st3 : EngineState) :
  SpecLedger.ledger_extended st1 st2 -> SpecLedger.ledger_extended st2 st3 ->
  SpecLedger.ledger_extended st1 st3.
Proof.
  intros (n1 & H1 & L1) (n2 & H2 & L2). exists (n1 ++ n2).
  rewrite H2, H1, <- app_assoc, length_app. split; [reflexivity | lia].
Qed.

Lemma dict_pop_length_S {V : Type} (k : string) (d : dict V) (v : V)
    (rest : dict V) :
  dict_pop k d = Some (v, rest) -> List.length d = S (List.length rest).
Proof.
  revert v rest. induction d as [|[k' v'] d IH]; intros v rest;
    cbn [dict_pop]; [discriminate|].
  destruct (String.eqb k' k).
  - intro H. injection H as _ <-. reflexivity.
  - destruct (dict_pop k d) as [[x r]|]; [|discriminate].
    intro H. injection H as _ <-. cbn [List.length]. f_equal.
    eapply IH. reflexivity.
Qed.

Lemma for_each_ledger {A : Type}
    (body : A -> EngineState -> option EngineState) :
  (forall a st st', body a st = Some st' -> SpecLedger.ledger_extended st st') ->
  forall items st st',
    for_each body items st = Some st' -> SpecLedger.ledger_extended st st'.
Proof.
  intros Hbody items. induction items as [|a items IH]; intros st st' Hrun;
    cbn [for_each] in Hrun.
  - injection Hrun as <-. apply ledger_extended_refl.
  - destruct (body a st) as [st1|] eqn:Hb; [|discriminate].
    eapply ledger_extended_trans; [eapply Hbody; exact Hb | apply IH; exact Hrun].
Qed.

Section Ledger.

Context {M : MathLib}.
Variable float_repr : Q -> string.
Variable config : BacktestConfig.

Lemma close_position_ledger (symbol : string) (exit_date : Z)
    (stock_exit_price option_exit_price : Q) (exit_reason : string)
    (st st' : EngineState) :
  _close_position config symbol exit_date stock_exit_price option_exit_price
    exit_reason st = Some st' ->
  SpecLedger.ledger_extended st st'.
Proof.
  unfold _close_position.
  destruct (dict_pop symbol (positions st)) as [[p rest]|] eqn:Hpop;
    [|discriminate].
  intro H. injection H as <-. eexists. cbn [trades positions].
  split; [reflexivity|]. cbn [List.length].
  rewrite (dict_pop_length_S _ _ _ _ Hpop). lia.
Qed.

Lemma adjust_position_ledger (symbol : string) (current_date : Z)
    (stock_price buyback_price premium_lost time_to_expiry iv : Q)
    (st st' : EngineState) :
  _adjust_position config symbol current_date stock_price buyback_price
    premium_lost time_to_expiry iv st = Some st' ->
  SpecLedger.ledger_extended st st'.
Proof.
  intro H.
  pose proof (adjust_position_effect config _ _ _ _ _ _ _ _ _ H) as (Hkeys & _).
  exists []. rewrite app_nil_r. cbn [List.length].
  apply (f_equal (@List.length string)) in Hkeys. rewrite !length_map in Hkeys.
  split; [|lia].
  destruct (adjust_position_inv _ _ _ _ _ _ _ _ _ _ H)
    as (position & new_strike & new_premium & new_delta & _ & _ & _
        & _ & _ & ->).
  reflexivity.
Qed.

(** X12.  The list of trades is append-only and loses no position: when
    the expiry check, the early-exit check or the final close-out of a
    day returns, the trades recorded before are an unchanged prefix of
    the new list, and the number of trades appended is the number of
    positions that were closed. *)
Theorem trades_ledger_append_only (current_date : Z)
    (stock_data : dict DataFrame) (st st' : EngineState) :
  (_check_expiries config current_date stock_data st = Some st' ->
   SpecLedger.ledger_extended st st') /\
  (_check_early_exits float_repr config current_date stock_data st = Some st' ->
   SpecLedger.ledger_extended st st') /\
  (_close_all_positions config current_date stock_data st = Some st' ->
   SpecLedger.ledger_extended st st').
Proof.
  split; [|split].
  - unfold _check_expiries. apply for_each_ledger.
    intros symbol s s'. unfold _handle_expiry.
    destruct (dict_get symbol (positions s)); [|discriminate].
    destruct (Qle_bool _ _); apply close_position_ledger.
  - unfold _check_early_exits.
    destruct (evaluate_all float_repr config current_date stock_data
                (positions st)) as [evaluated|] eqn:Hev; [|discriminate].
    set (st1 := {| positions := _; trades := trades st; cash := cash st |}).
    destruct (for_each _ _ st1) as [st2|] eqn:Hadj; [|discriminate].
    intro Hclose.
    apply (ledger_extended_trans st st1); [|apply (ledger_extended_trans st1 st2)].
    + exists []. rewrite app_nil_r. unfold st1. cbn [trades positions List.length].
      pose proof (evaluate_all_keys float_repr config current_date stock_data
                    _ _ Hev) as Hkeys.
      apply (f_equal (@List.length string)) in Hkeys.
      rewrite !length_map in Hkeys. rewrite !length_map.
      split; [reflexivity | lia].
    + revert Hadj. apply for_each_ledger.
      intros [[[[[symbol sp] bp] pl] tte] iv] s s'. unfold adjust_body.
      apply adjust_position_ledger.
    + revert Hclose. apply for_each_ledger.
      intros [[[symbol sp] op] reason] s s'. unfold close_body.
      apply close_position_ledger.
  - unfold _close_all_positions. apply for_each_ledger.
    intros symbol s s'. unfold close_all_body.
    destruct (dict_get symbol (positions s)); [|discriminate].
    cbv zeta. destruct (if (0 <? _)%Z then _ else _); [|discriminate].
    apply close_position_ledger.
Qed.

End Ledger.

(** On day 40 the expiry check settles both positions of the state: two
    trades are appended to the empty ledger. *)
Lemma trades_ledger_append_only_witness :
  exists st',
    _check_expiries
      (default_config ["RELIANCE"%string] 0 365 DELTA_30 HOLD_TO_EXPIRY)
      40 [] SpecLedger.two_positions = Some st' /\
    SpecLedger.ledger_extended SpecLedger.two_positions st'.
Proof.
  eexists. split; [reflexivity|].
  apply (proj1 (@trades_ledger_append_only sample_math (fun _ => "2.0"%string)
                  (default_config ["RELIANCE"%string] 0 365 DELTA_30
                     HOLD_TO_EXPIRY)
                  40 [] SpecLedger.two_positions _)).
  reflexivity.
Defined.

(** ** Early exits without exit rules *)

Section NoExitRules.

Context {M : MathLib}.
Variable float_repr : Q -> string.
Variable config : BacktestConfig.

Hypothesis Hstrategy : exit_strategy config = HOLD_TO_EXPIRY.
Hypothesis Hdte : use_dte_exit config = false.
Hypothesis Htrailing : use_trailing_stop config = false.

Lemma evaluate_position_no_rules (current_date : Z)
    (stock_data : dict DataFrame) (symbol : string) (position : Position.t)
    (r : Position.t * ExitAction) :
  evaluate_position float_repr config current_date stock_data symbol position
  = Some r ->
  r = (position, NoAction).
Proof.
  unfold evaluate_position.
  destruct (_get_price symbol current_date stock_data);
    [|intro H; injection H as <-; reflexivity].
  destruct (_ <=? 0)%Z; [intro H; injection H as <-; reflexivity|].
  cbv zeta.
  destruct (GreeksCalculator.calculate_option_price _ _ _ _ _ _ _);
    [|discriminate].
  unfold dte_exit_block. rewrite Hdte.
  unfold trailing_stop_block. rewrite Htrailing.
  unfold profit_target_block, stop_loss_block, check_profit_target,
    check_stop_loss.
  rewrite Hstrategy. intro H. injection H as <-. reflexivity.
Qed.

Lemma evaluate_all_no_rules (current_date : Z) (stock_data : dict DataFrame)
    (ps : dict Position.t) :
  forall evaluated,
    evaluate_all float_repr config current_date stock_data ps
    = Some evaluated ->
    map (fun e : string * (Position.t * ExitAction) => (fst e, fst (snd e)))
        evaluated = ps /\
    symbols_to_adjust evaluated = [] /\
    symbols_to_close evaluated = [].
Proof.
  unfold symbols_to_adjust, symbols_to_close.
  induction ps as [|[k p] ps IH]; intros evaluated H.
  - injection H as <-. auto.
  - destruct (evaluate_all_cons float_repr config current_date stock_data
                k p ps evaluated H) as (r & rest & Hr & Hrest & ->).
    apply evaluate_position_no_rules in Hr. subst r.
    destruct (IH rest Hrest) as (IH1 & IH2 & IH3).
    cbn [map flat_map fst snd adjust_entries close_entries app].
    rewrite IH1, IH2, IH3. auto.
Qed.

(** The option of every position that the loop values is priceable. *)
Lemma evaluate_all_returns (current_date : Z) (stock_data : dict DataFrame)
    (ps : dict Position.t) :
  (forall symbol position price,
     In (symbol, position) ps ->
     _get_price symbol current_date stock_data = Some price ->
     (0 < Position.expiry_date position - current_date)%Z ->
     SpecPricing.priceable price (Position.strike_price position)
       (inject_Z (Position.expiry_date position - current_date) / 365)
       (Position.iv_at_entry position)) ->
  exists evaluated,
    evaluate_all float_repr config current_date stock_data ps
    = Some evaluated.
Proof.
  induction ps as [|[k p] ps IH]; intro Hpriceable; [cbn; eauto|].
  cbn [evaluate_all].
  assert (Hr : exists r,
            evaluate_position float_repr config current_date stock_data k p
            = Some r).
  { unfold evaluate_position.
    destruct (_get_price k current_date stock_data) as [price|] eqn:Hp;
      [|eauto].
    destruct (Position.expiry_date p - current_date <=? 0)%Z eqn:Hd;
      [eauto|].
    apply Z.leb_gt in Hd. cbv zeta.
    destruct (calculate_option_price_priceable (risk_free_rate config)
                price
                (inject_Z (Position.expiry_date p - current_date) / 365)
                (Position.iv_at_entry p) "CE" (Position.strike_price p)
                (Hpriceable k p price (or_introl eq_refl) Hp Hd))
      as (value & ->).
    eauto. }
  destruct Hr as (r & ->).
  destruct IH as (rest & ->); [|eauto].
  intros symbol position price Hin. apply Hpriceable. right. exact Hin.
Qed.

End NoExitRules.

(** X13.  With the exit strategy HOLD_TO_EXPIRY and neither the DTE exit
    nor the trailing stop enabled, [_check_early_exits] changes nothing:
    when it returns, it returns the state it was given.  It returns when
    the option of every open position that has a price on the date and
    its expiry ahead is priceable (the loop values these options before
    it looks at any rule). *)
Theorem check_early_exits_without_rules {M : MathLib}
    (float_repr : Q -> string) (config : BacktestConfig)
    (current_date : Z) (stock_data : dict DataFrame) (st : EngineState) :
  exit_strategy config = HOLD_TO_EXPIRY ->
  use_dte_exit config = false ->
  use_trailing_stop config = false ->
  (forall st',
     _check_early_exits float_repr config current_date stock_data st
     = Some st' ->
     st' = st) /\
  ((forall symbol position price,
      In (symbol, position) (positions st) ->
      _get_price symbol current_date stock_data = Some price ->
      (0 < Position.expiry_date position - current_date)%Z ->
      SpecPricing.priceable price (Position.strike_price position)
        (inject_Z (Position.expiry_date position - current_date) / 365)
        (Position.iv_at_entry position)) ->
   _check_early_exits float_repr config current_date stock_data st
   = Some st).
Proof.
  intros Hs Hd Ht.
  assert (Hsame : forall st',
            _check_early_exits float_repr config current_date stock_data st
            = Some st' -> st' = st).
  { intro st'. unfold _check_early_exits.
    destruct (evaluate_all float_repr config current_date stock_data
                (positions st)) as [evaluated|] eqn:Hev; [|discriminate].
    destruct (evaluate_all_no_rules float_repr config Hs Hd Ht current_date
                stock_data (positions st) evaluated Hev) as (H1 & H2 & H3).
    rewrite H1, H2, H3. cbn [for_each]. intro H. injection H as <-.
    destruct st; reflexivity. }
  split; [exact Hsame|].
  intro Hpriceable.
  destruct (evaluate_all_returns float_repr config current_date stock_data
              (positions st) Hpriceable) as (evaluated & Hev).
  destruct (_check_early_exits float_repr config current_date stock_data st)
    as [st'|] eqn:Hrun.
  - rewrite (Hsame st' eq_refl). reflexivity.
  - exfalso. unfold _check_early_exits in Hrun. rewrite Hev in Hrun.
    destruct (evaluate_all_no_rules float_repr config Hs Hd Ht current_date
                stock_data (positions st) evaluated Hev) as (H1 & H2 & H3).
    rewrite H2, H3 in Hrun. cbn [for_each] in Hrun. discriminate.
Qed.

(** Day 10 of [SpecAdjust.losing_state], with a price for one of its
    two symbols. *)
Lemma check_early_exits_without_rules_witness :
  @_check_early_exits sample_math (fun _ => "2.0"%string)
    (default_config ["RELIANCE"%string] 0 365 DELTA_30 HOLD_TO_EXPIRY)
    10 SpecRollUp.stop_day_data SpecAdjust.losing_state
  = Some SpecAdjust.losing_state.
Proof.
  apply (@check_early_exits_without_rules sample_math);
    [reflexivity | reflexivity | reflexivity |].
  intros symbol position price [H | [H | []]] Hprice Hdte;
    injection H as <- <-.
  - discriminate Hprice.
  - vm_compute in Hprice. injection Hprice as <-.
    split; [reflexivity|]. split; [reflexivity|].
    split; [discriminate|]. vm_compute. discriminate.
Defined.

(** ** The monthly expiry *)

Section MonthlyExpiry.

Import Calendar.
Local Open Scope Z_scope.

Lemma monthrange_days_bounds (y m dim : Z) :
  monthrange_days y m = Some dim -> 1 <= m <= 12 /\ 28 <= dim <= 31.
Proof.
  unfold monthrange_days.
  destruct ((1 <=? m) && (m <=? 12)) eqn:E; [|discriminate].
  apply andb_true_iff in E. destruct E as [E1 E2].
  apply Z.leb_le in E1. apply Z.leb_le in E2.
  intro H. injection H as <-. split; [lia|].
  assert (Hm : m = 1 \/ m = 2 \/ m = 3 \/ m = 4 \/ m = 5 \/ m = 6 \/
               m = 7 \/ m = 8 \/ m = 9 \/ m = 10 \/ m = 11 \/ m = 12) by lia.
  destruct Hm as [-> | [-> | [-> | [-> | [-> | [-> |
                 [-> | [-> | [-> | [-> | [-> | ->]]]]]]]]]]];
    cbn [mdays Z.eqb Pos.eqb andb]; try lia.
  destruct (isleap y); lia.
Qed.

(** Some Thursday lies at most six days back. *)
Lemma thursday_offset (o : Z) :
  exists k : nat,
    (k <= 6)%nat /\ (o + 6 - Z.of_nat k) mod 7 = 3 /\
    forall j, 0 <= j < Z.of_nat k -> (o + 6 - j) mod 7 <> 3.
Proof.
  exists (Z.to_nat ((o + 3) mod 7)).
  pose proof (Z.mod_pos_bound (o + 3) 7 ltac:(lia)) as Hk.
  rewrite Z2Nat.id by lia.
  split; [lia|]. split.
  - Z.to_euclidean_division_equations. lia.
  - intros j Hj. Z.to_euclidean_division_equations. lia.
Qed.

Lemma last_thursday_loop_spec (k : nat) :
  forall (fuel : nat) (d : datetime),
    (k < fuel)%nat -> Z.of_nat k < day d ->
    (toordinal d + 6 - Z.of_nat k) mod 7 = 3 ->
    (forall j, 0 <= j < Z.of_nat k -> (toordinal d + 6 - j) mod 7 <> 3) ->
    last_thursday_loop fuel d
    = Some {| year := year d; month := month d; day := day d - Z.of_nat k |}.
Proof.
  induction k as [|k IH]; intros fuel d Hfuel Hday Hthu Hmin;
    (destruct fuel as [|fuel]; [lia|]); cbn [last_thursday_loop].
  - unfold weekday. replace (toordinal d + 6 - Z.of_nat 0) with (toordinal d + 6) in Hthu by lia.
    rewrite Hthu. cbn [Z.eqb Pos.eqb negb].
    destruct d as [y m dd]. cbn [year month day]. do 2 f_equal. lia.
  - unfold weekday.
    replace ((toordinal d + 6) mod 7 =? 3) with false.
    2:{ symmetry. apply Z.eqb_neq.
        replace (toordinal d + 6) with (toordinal d + 6 - 0) by lia.
        apply Hmin. lia. }
    cbn [negb]. unfold minus_one_day.
    replace (1 <? day d) with true by (symmetry; apply Z.ltb_lt; lia).
    rewrite (IH fuel); cbn [year month day]; unfold toordinal; cbn [year month day].
    + do 2 f_equal. lia.
    + lia.
    + lia.
    + rewrite <- Hthu. unfold toordinal. f_equal. lia.
    + intros j Hj.
      replace (days_before_year (year d) + days_before_month (year d) (month d)
               + (day d - 1) + 6 - j)
        with (toordinal d + 6 - (j + 1)) by (unfold toordinal; lia).
      apply Hmin. lia.
Qed.

Lemma isleap_cases (y : Z) :
  (isleap y = true /\ days_before_year (y + 1) = days_before_year y + 366) \/
  (isleap y = false /\ days_before_year (y + 1) = days_before_year y + 365).
Proof.
  unfold isleap, days_before_year.
  replace (y + 1 - 1) with y by lia.
  destruct (y mod 4 =? 0) eqn:E4; [apply Z.eqb_eq in E4 | apply Z.eqb_neq in E4];
  (destruct (y mod 100 =? 0) eqn:E100;
     [apply Z.eqb_eq in E100 | apply Z.eqb_neq in E100]);
  (destruct (y mod 400 =? 0) eqn:E400;
     [apply Z.eqb_eq in E400 | apply Z.eqb_neq in E400]);
  cbn [andb orb negb]; [left | right | left | left | right | right | right | right];
  (split; [reflexivity|]);
  Z.to_euclidean_division_equations; lia.
Qed.

(** The ordinal of a day of the next month. *)
Lemma toordinal_next_month (y m dim d : Z) :
  monthrange_days y m = Some dim ->
  let '(y', m') := if 12 <? m + 1 then (y + 1, 1) else (y, m + 1) in
  toordinal {| year := y'; month := m'; day := d |}
  = toordinal {| year := y; month := m; day := dim |} + d.
Proof.
  intro Hdim. pose proof (monthrange_days_bounds _ _ _ Hdim) as [Hm _].
  revert Hdim. unfold monthrange_days.
  replace ((1 <=? m) && (m <=? 12)) with true
    by (symmetry; apply andb_true_iff; split; apply Z.leb_le; lia).
  intro H. injection H as <-.
  assert (Hcases : m = 1 \/ m = 2 \/ m = 3 \/ m = 4 \/ m = 5 \/ m = 6 \/
               m = 7 \/ m = 8 \/ m = 9 \/ m = 10 \/ m = 11 \/ m = 12) by lia.
  unfold toordinal; cbn [year month day]; unfold days_before_month.
  destruct (isleap_cases y) as [[Hl Hy] | [Hl Hy]];
  destruct Hcases as [-> | [-> | [-> | [-> | [-> | [-> |
                     [-> | [-> | [-> | [-> | [-> | ->]]]]]]]]]]];
    cbn [Z.ltb Z.add Z.compare Pos.compare Pos.compare_cont Pos.add Pos.succ
         Pos.add_carry mdays Z.eqb Pos.eqb andb];
    rewrite ?Hl; cbn [andb]; try lia.
Qed.

(** What [_get_monthly_expiry] returns for an existing date. *)
Lemma monthly_expiry_spec (current_date : datetime) :
  valid current_date ->
  day current_date <= 20 \/ month current_date < 12 \/
  year current_date < 9999 ->
  exists expiry last_day,
    _get_monthly_expiry current_date = Some expiry /\
    weekday expiry = 3 /\
    monthrange_days (year expiry) (month expiry) = Some last_day /\
    last_day - 6 <= day expiry <= last_day /\
    (year expiry, month expiry)
    = (if 20 <? day current_date
       then (if 12 <? month current_date + 1
             then (year current_date + 1, 1)
             else (year current_date, month current_date + 1))
       else (year current_date, month current_date)) /\
    (day current_date <= 20 ->
     days_between expiry current_date = day expiry - day current_date) /\
    2 <= days_between expiry current_date.
Proof.
  intros (Hy & Hm & dim & Hdim & Hd) Hbound.
  pose proof (monthrange_days_bounds _ _ _ Hdim) as [_ Hdim28].
  unfold _get_monthly_expiry. cbv zeta.
  set (target := if 20 <? day current_date then _ else _).
  assert (Ht0 : target
                = if 20 <? day current_date
                  then (if 12 <? month current_date + 1
                        then (year current_date + 1, 1)
                        else (year current_date, month current_date + 1))
                  else (year current_date, month current_date)) by reflexivity.
  clearbody target.
  destruct target as [ty tm]. rename Ht0 into Ht.
  assert (Hty : 1 <= ty <= 9999 /\ 1 <= tm <= 12).
  { destruct (20 <? day current_date) eqn:E20;
      [apply Z.ltb_lt in E20 | apply Z.ltb_ge in E20].
    - destruct (12 <? month current_date + 1) eqn:E12;
        [apply Z.ltb_lt in E12 | apply Z.ltb_ge in E12];
        injection Ht as -> ->; lia.
    - injection Ht as -> ->. lia. }
  destruct (monthrange_days ty tm) as [last_day|] eqn:Hlast.
  2:{ exfalso. unfold monthrange_days in Hlast.
      replace ((1 <=? tm) && (tm <=? 12)) with true in Hlast
        by (symmetry; apply andb_true_iff; split; apply Z.leb_le; lia).
      discriminate. }
  pose proof (monthrange_days_bounds _ _ _ Hlast) as [_ Hlast28].
  unfold make_datetime. rewrite Hlast.
  replace ((1 <=? ty) && (ty <=? 9999) && (1 <=? last_day) &&
           (last_day <=? last_day)) with true
    by (symmetry; rewrite !andb_true_iff; repeat split; apply Z.leb_le; lia).
  set (last_date := {| year := ty; month := tm; day := last_day |}).
  destruct (thursday_offset (toordinal last_date)) as (k & Hk & Hthu & Hmin).
  rewrite (last_thursday_loop_spec k 7 last_date); [|lia | cbn; lia | exact Hthu | exact Hmin].
  cbn [year month day].
  set (expiry := {| year := ty; month := tm; day := last_day - Z.of_nat k |}).
  assert (Hord : toordinal expiry = toordinal last_date - Z.of_nat k)
    by (unfold toordinal, expiry, last_date; cbn [year month day]; lia).
  exists expiry, last_day.
  split; [reflexivity|].
  split; [unfold weekday; rewrite Hord, <- Hthu; f_equal; lia|].
  split; [exact Hlast|].
  split; [cbn [expiry day]; lia|].
  split; [reflexivity|].
  unfold days_between.
  destruct (20 <? day current_date) eqn:E20;
    [apply Z.ltb_lt in E20 | apply Z.ltb_ge in E20].
  - split; [lia|].
    pose proof (toordinal_next_month (year current_date) (month current_date)
                  dim (last_day - Z.of_nat k) Hdim) as Hnext.
    rewrite <- Ht in Hnext. fold expiry in Hnext. rewrite Hnext.
    unfold toordinal; cbn [year month day]. lia.
  - injection Ht as -> ->.
    assert (Hsame : toordinal expiry - toordinal current_date
                    = day expiry - day current_date)
      by (unfold toordinal, expiry; cbn [year month day]; lia).
    split; [intros _; exact Hsame|].
    rewrite Hsame. cbn [expiry day]. lia.
Qed.

End MonthlyExpiry.

(** X14.  For an existing date before year 9999, [_get_monthly_expiry]
    returns the last Thursday of the target month: the month of the
    date when its day is at most 20, the following month otherwise
    (January of the next year after December).  The result is a
    Thursday within the last seven days of that month, so no later day
    of the month is a Thursday, and it is at least two days after the
    given date. *)
Theorem monthly_expiry_last_thursday (current_date : Calendar.datetime) :
  Calendar.valid current_date ->
  (Calendar.year current_date < 9999)%Z ->
  exists expiry last_day,
    _get_monthly_expiry current_date = Some expiry /\
    Calendar.weekday expiry = 3%Z /\
    Calendar.monthrange_days (Calendar.year expiry) (Calendar.month expiry)
    = Some last_day /\
    (last_day - 6 <= Calendar.day expiry <= last_day)%Z /\
    (Calendar.year expiry, Calendar.month expiry)
    = (if (20 <? Calendar.day current_date)%Z
       then (if (12 <? Calendar.month current_date + 1)%Z
             then ((Calendar.year current_date + 1)%Z, 1%Z)
             else (Calendar.year current_date,
                   (Calendar.month current_date + 1)%Z))
       else (Calendar.year current_date, Calendar.month current_date)) /\
    (2 <= Calendar.days_between expiry current_date)%Z.
Proof.
  intros Hvalid Hyear.
  destruct (monthly_expiry_spec current_date Hvalid)
    as (expiry & last_day & H1 & H2 & H3 & H4 & H5 & _ & H7); [lia|].
  exists expiry, last_day. auto 10.
Qed.

(** From 25 December 2023 the expiry is Thursday 25 January 2024. *)
Lemma monthly_expiry_last_thursday_witness :
  exists expiry,
    _get_monthly_expiry
      {| Calendar.year := 2023; Calendar.month := 12; Calendar.day := 25 |}
    = Some expiry /\
    Calendar.weekday expiry = 3%Z /\
    (Calendar.year expiry, Calendar.month expiry) = (2024%Z, 1%Z).
Proof.
  destruct (monthly_expiry_last_thursday
              {| Calendar.year := 2023; Calendar.month := 12;
                 Calendar.day := 25 |})
    as (expiry & last_day & H1 & H2 & _ & _ & H5 & _).
  - unfold Calendar.valid. cbn. repeat split; try lia.
    exists 31%Z. split; [reflexivity | lia].
  - cbn. lia.
  - exists expiry. auto.
Defined.

(** X15.  On an entry day (a day of the month up to the 5th) the expiry
    that [_open_position] computes is the last Thursday of the same
    month, at least 17 days ahead: the days to expiry are never below
    7, so the branch of [_open_position] that skips an entry too close
    to expiry is not taken for a date that [_is_entry_day] accepts. *)
Theorem entry_day_expiry_far_enough (current_date : Calendar.datetime) :
  Calendar.valid current_date ->
  _is_entry_day current_date = true ->
  exists expiry,
    _get_monthly_expiry current_date = Some expiry /\
    Calendar.year expiry = Calendar.year current_date /\
    Calendar.month expiry = Calendar.month current_date /\
    Calendar.weekday expiry = 3%Z /\
    let dte := Calendar.days_between expiry current_date in
    (17 <= dte)%Z /\ (dte <? 7)%Z = false.
Proof.
  intros Hvalid Hentry. unfold _is_entry_day in Hentry.
  destruct (Calendar.day current_date <=? 5)%Z eqn:E; [|discriminate].
  apply Z.leb_le in E.
  destruct (monthly_expiry_spec current_date Hvalid)
    as (expiry & last_day & H1 & H2 & H3 & H4 & H5 & H6 & _); [lia|].
  replace (20 <? Calendar.day current_date)%Z with false in H5
    by (symmetry; apply Z.ltb_ge; lia).
  injection H5 as Hy Hm.
  pose proof (monthrange_days_bounds _ _ _ H3) as [_ Hdim].
  exists expiry. repeat split; try assumption.
  - rewrite H6 by lia. lia.
  - apply Z.ltb_ge. rewrite H6 by lia. lia.
Qed.

(** From Monday 4 March 2024 the expiry is Thursday 28 March 2024. *)
Lemma entry_day_expiry_far_enough_witness :
  exists expiry,
    _get_monthly_expiry
      {| Calendar.year := 2024; Calendar.month := 3; Calendar.day := 4 |}
    = Some expiry /\
    Calendar.weekday expiry = 3%Z /\
    (17 <=
     Calendar.days_between expiry
       {| Calendar.year := 2024; Calendar.month := 3; Calendar.day := 4 |})%Z.
Proof.
  destruct (entry_day_expiry_far_enough
              {| Calendar.year := 2024; Calendar.month := 3;
                 Calendar.day := 4 |})
    as (expiry & H1 & _ & _ & H4 & H5 & _).
  - unfold Calendar.valid. cbn. repeat split; try lia.
    exists 31%Z. split; [reflexivity | lia].
  - reflexivity.
  - exists expiry. auto.
Defined.

(** ** Volatility estimates *)

(** The clamp [max(0.10, min(0.80, iv))] returns a number between 0.10
    and 0.80 for every float, NaN and the infinities included. *)
Lemma iv_clamp_range (iv : pyfloat) :
  exists q,
    fmax2 (Fin (10 # 100)) (fmin2 (Fin (80 # 100)) iv) = Fin q /\
    10 # 100 <= q /\ q <= 80 # 100.
Proof.
  destruct iv as [v| | |]; unfold fmin2, fmax2, fgt; cbn [flt].
  - destruct (Qlt_bool v (80 # 100)) eqn:E1; cbn [flt].
    + apply Qlt_bool_iff in E1.
      destruct (Qlt_bool (10 # 100) v) eqn:E2.
      * apply Qlt_bool_iff in E2. exists v. repeat split; lra.
      * exists (10 # 100). repeat split; lra.
    + exists (80 # 100). cbn. repeat split; lra.
  - exists (80 # 100). cbn. repeat split; lra.
  - exists (10 # 100). cbn. repeat split; lra.
  - exists (80 # 100). cbn. repeat split; lra.
Qed.

(** X16.  [_estimate_iv] always returns a finite number: the configured
    default IV when the symbol has no table or fewer than 10 of its bars
    are dated up to the current date, and otherwise a value between 0.10
    and 0.80, whatever the prices are (zero or negative closes, whose
    log returns are infinite or NaN, included). *)
Theorem estimate_iv_range {M : MathLib} (config : BacktestConfig)
    (symbol : string) (current_date : Z) (stock_data : dict DataFrame) :
  (exists q,
     _estimate_iv config symbol current_date stock_data = Fin q /\
     (q = default_iv config \/ (10 # 100 <= q /\ q <= 80 # 100))) /\
  (dict_get symbol stock_data = None ->
   _estimate_iv config symbol current_date stock_data
   = Fin (default_iv config)) /\
  (forall df,
     dict_get symbol stock_data = Some df ->
     (List.length (df_upto current_date df) < 10)%nat ->
     _estimate_iv config symbol current_date stock_data
     = Fin (default_iv config)) /\
  (forall df,
     dict_get symbol stock_data = Some df ->
     (10 <= List.length (df_upto current_date df))%nat ->
     exists q,
       _estimate_iv config symbol current_date stock_data = Fin q /\
       10 # 100 <= q /\ q <= 80 # 100).
Proof.
  unfold _estimate_iv. split; [|split; [|split]].
  - destruct (dict_get symbol stock_data) as [df|]; [|eauto].
    destruct (_ <? 10)%nat; [eauto|].
    cbv zeta.
    match goal with
    | |- context [fmin2 _ ?iv] => destruct (iv_clamp_range iv) as (q & Hq & Hr)
    end.
    exists q. split; [exact Hq | right; exact Hr].
  - intros ->. reflexivity.
  - intros df -> Hlen.
    replace (List.length (tail 30 (df_upto current_date df)) <? 10)%nat
      with true; [reflexivity|].
    symmetry. apply Nat.ltb_lt. unfold tail. rewrite length_skipn. lia.
  - intros df -> Hlen.
    replace (List.length (tail 30 (df_upto current_date df)) <? 10)%nat
      with false.
    + cbv zeta. apply iv_clamp_range.
    + symmetry. apply Nat.ltb_ge. unfold tail. rewrite length_skipn. lia.
Qed.

(** Three bars give the default IV of 0.20.  Thirty bars reach the
    estimate, which the clamp keeps in the range: on the sample
    functions it is cut to 0.80, not the default. *)
Lemma estimate_iv_range_witness :
  let config :=
    default_config ["RELIANCE"%string] 0 365 DELTA_30 HOLD_TO_EXPIRY in
  @_estimate_iv sample_math config "RELIANCE" 9
    [("RELIANCE"%string, SpecPivot.three_bar_table)]
  = Fin (20 # 100) /\
  (exists q,
     @_estimate_iv sample_math config "RELIANCE" 29
       [("RELIANCE"%string, SpecFilter.flat_table 30)] = Fin q /\
     10 # 100 <= q /\ q <= 80 # 100) /\
  @_estimate_iv sample_math config "RELIANCE" 29
    [("RELIANCE"%string, SpecFilter.flat_table 30)]
  = Fin (80 # 100).
Proof.
  intro config. split; [|split].
  - apply (proj1 (proj2 (proj2 (@estimate_iv_range sample_math config
                                  "RELIANCE" 9
                                  [("RELIANCE"%string,
                                    SpecPivot.three_bar_table)])))
             SpecPivot.three_bar_table eq_refl).
    cbn. lia.
  - apply (proj2 (proj2 (proj2 (@estimate_iv_range sample_math config
                                  "RELIANCE" 29
                                  [("RELIANCE"%string,
                                    SpecFilter.flat_table 30)])))
             (SpecFilter.flat_table 30) eq_refl).
    vm_compute. lia.
  - vm_compute. reflexivity.
Defined.

(** X17.  [calculate_iv_from_hv] always returns a finite number between
    0.10 and 0.80: the default 0.20 for fewer than 10 returns, and the
    clamped estimate otherwise, also when the standard deviation is NaN
    or infinite. *)
Theorem calculate_iv_from_hv_range {M : MathLib} (returns : Series)
    (annualize : bool) :
  (exists q,
     IVEstimates.calculate_iv_from_hv returns annualize = Fin q /\
     10 # 100 <= q /\ q <= 80 # 100) /\
  ((List.length returns < 10)%nat ->
   IVEstimates.calculate_iv_from_hv returns annualize = Fin (20 # 100)).
Proof.
  unfold IVEstimates.calculate_iv_from_hv. split.
  - destruct (_ <? 10)%nat.
    + exists (20 # 100). repeat split; lra.
    + cbv zeta. apply iv_clamp_range.
  - intro Hlen.
    replace (List.length returns <? 10)%nat with true; [reflexivity|].
    symmetry. apply Nat.ltb_lt. exact Hlen.
Qed.

Lemma calculate_iv_from_hv_range_witness :
  @IVEstimates.calculate_iv_from_hv sample_math [Fin (1 # 100); NaN; PInf] true
  = Fin (20 # 100).
Proof.
  apply (@calculate_iv_from_hv_range sample_math). cbn. lia.
Defined.

(** ** How near the selected strike is to its target *)

Lemma py_round_near (x : Q) :
  - (1 # 2) <= inject_Z (py_round x) - x /\
  inject_Z (py_round x) - x <= 1 # 2.
Proof.
  pose proof (Qfloor_le x) as H1. pose proof (Qlt_floor x) as H2.
  rewrite inject_Z_plus in H2. change (inject_Z 1) with 1 in H2.
  unfold py_round.
  destruct (Qlt_bool (x - inject_Z (Qfloor x)) (1 # 2)) eqn:E1;
    [apply Qlt_bool_iff in E1; lra | apply Qlt_bool_false_iff in E1].
  destruct (Qlt_bool (1 # 2) (x - inject_Z (Qfloor x))) eqn:E2;
    [apply Qlt_bool_iff in E2 | apply Qlt_bool_false_iff in E2].
  - rewrite inject_Z_plus. change (inject_Z 1) with 1. lra.
  - destruct (Z.even (Qfloor x)); [lra|].
    rewrite inject_Z_plus. change (inject_Z 1) with 1. lra.
Qed.

Lemma nearest_strike_finite (target : Q) (l : list Q) :
  forall best,
    min_by_key flt (fun x => fabs (fsub (Fin x) (Fin target))) best l
    = min_by_key Qlt_bool (fun x => Qabs (x + - target)) best l.
Proof.
  induction l as [|x l IH]; intro best; cbn [min_by_key]; [reflexivity|].
  cbn [fsub fadd fneg fabs flt]. rewrite !IH. reflexivity.
Qed.

(** On the ladder of a positive price, the strike nearest to a target
    between 90% and 120% of the price is within half an interval of it. *)
Lemma nearest_on_ladder (stock_price target : Q) :
  0 < stock_price ->
  stock_price * (9 # 10) <= target -> target <= stock_price * (12 # 10) ->
  exists strike,
    nearest_strike
      (_generate_strikes stock_price (_get_strike_interval stock_price))
      (Fin target) = Some strike /\
    Qabs (strike - target) <= _get_strike_interval stock_price / 2.
Proof.
  intros Hp Hlo Hhi.
  set (i := _get_strike_interval stock_price).
  pose proof (strike_interval_positive stock_price) as Hi. fold i in Hi.
  set (k := py_round (target / i)).
  destruct (generate_strikes_complete stock_price i k Hi) as (s & Hs & Hsk).
  { apply py_round_mono. apply Qdiv_le_compat_r; assumption. }
  { apply py_round_mono. apply Qdiv_le_compat_r; assumption. }
  assert (Hnear : Qabs (s - target) <= i / 2).
  { destruct (py_round_near (target / i)) as [Ha Hb]. fold k in Ha, Hb.
    assert (Ht : target == (target / i) * i) by (field; lra).
    apply Qabs_Qle_condition. rewrite Hsk.
    assert (E : inject_Z k * i - target == (inject_Z k - target / i) * i)
      by (field; lra).
    rewrite E.
    set (a := inject_Z k - target / i) in *.
    assert (H1 : 0 <= (a + (1 # 2)) * i)
      by (apply Qmult_le_0_compat; lra).
    assert (H2 : 0 <= ((1 # 2) - a) * i)
      by (apply Qmult_le_0_compat; lra).
    setoid_replace ((a + (1 # 2)) * i) with (a * i + i / 2) in H1 by field.
    setoid_replace (((1 # 2) - a) * i) with (i / 2 - a * i) in H2 by field.
    set (ai := a * i) in *.
    split; lra. }
  unfold nearest_strike.
  destruct (_generate_strikes stock_price i) as [|b l] eqn:El; [destruct Hs|].
  cbn [py_min_key]. rewrite nearest_strike_finite.
  eexists. split; [reflexivity|].
  pose proof (min_by_key_least (fun x => Qabs (x + - target)) l b s Hs) as Hle.
  cbv beta in Hle.
  assert (E1 : forall x, Qabs (x + - target) == Qabs (x - target))
    by (intro x; reflexivity).
  rewrite !E1 in Hle. lra.
Qed.

(** X18.  For a positive stock price the three percentage methods select
    a strike within half a strike interval of their target: the spot for
    ATM, 102% of it for OTM_2PCT and 105% of it for OTM_5PCT. *)
Theorem select_strike_near_target {M : MathLib} (config : BacktestConfig)
    (symbol : string) (stock_price time_to_expiry iv : Q)
    (iv_metrics : option IVPercentileService.IVMetrics)
    (current_date : Z) (stock_data : dict DataFrame) :
  0 < stock_price ->
  forall target,
    (strike_method config = ATM /\ target = stock_price) \/
    (strike_method config = OTM_2PCT /\ target = stock_price * (102 # 100)) \/
    (strike_method config = OTM_5PCT /\ target = stock_price * (105 # 100)) ->
    exists strike,
      _select_strike config symbol stock_price time_to_expiry iv iv_metrics
        current_date stock_data = Some strike /\
      Qabs (strike - target) <= _get_strike_interval stock_price / 2.
Proof.
  intros Hp target Hmethod. unfold _select_strike.
  destruct Hmethod as [[-> ->] | [[-> ->] | [-> ->]]];
    apply nearest_on_ladder; lra.
Qed.

(** A stock at 1003 with the ATM method: the strike 1000 is selected,
    3 away from the spot, the interval being 25. *)
Lemma select_strike_near_target_witness :
  exists strike,
    @_select_strike sample_math
      (default_config ["RELIANCE"%string] 0 365 ATM HOLD_TO_EXPIRY)
      "RELIANCE" 1003 (30 # 365) (20 # 100) None 10 [] = Some strike /\
    Qabs (strike - 1003) <= _get_strike_interval 1003 / 2.
Proof.
  apply (@select_strike_near_target sample_math
           (default_config ["RELIANCE"%string] 0 365 ATM HOLD_TO_EXPIRY)
           "RELIANCE" 1003 (30 # 365) (20 # 100) None 10 []).
  - reflexivity.
  - left. split; reflexivity.
Defined.

(** ** The days of a run *)

Lemma insert_sorted_In (x : Z) (l : list Z) (y : Z) :
  In y (insert_sorted x l) <-> y = x \/ In y l.
Proof.
  induction l as [|z l IH]; cbn [insert_sorted In].
  - split; [intros [H|[]]; auto | intros [H|[]]; auto].
  - destruct (x <=? z)%Z; cbn [In]; [|rewrite IH]; intuition auto.
Qed.

Lemma insert_sorted_increasing (x : Z) (l : list Z) :
  SpecDates.increasing l -> ~ In x l ->
  SpecDates.increasing (insert_sorted x l).
Proof.
  induction l as [|z l IH]; cbn [insert_sorted SpecDates.increasing In].
  - intros _ _. split; [intros y []|exact I].
  - intros [Hz Hl] Hx.
    destruct (x <=? z)%Z eqn:E;
      [apply Z.leb_le in E | apply Z.leb_gt in E];
      cbn [SpecDates.increasing].
    + split; [|split; assumption].
      intros y [<- | Hy]; [lia|]. specialize (Hz y Hy). lia.
    + split; [|apply IH; tauto].
      intros y Hy. apply insert_sorted_In in Hy.
      destruct Hy as [-> | Hy]; [exact E | apply Hz; exact Hy].
Qed.

Lemma py_sorted_spec (l : list Z) :
  NoDup l ->
  SpecDates.increasing (py_sorted l) /\
  forall y, In y (py_sorted l) <-> In y l.
Proof.
  induction l as [|x l IH]; intro Hnd; cbn [py_sorted fold_right].
  - split; [exact I | tauto].
  - inversion Hnd as [|? ? Hx Hl]; subst.
    destruct (IH Hl) as [Hinc Hin]. fold (py_sorted l).
    split.
    + apply insert_sorted_increasing; [exact Hinc|]. rewrite Hin. exact Hx.
    + intro y. rewrite insert_sorted_In, Hin. cbn [In]. intuition auto.
Qed.

(** X19.  [_get_trading_dates] returns, in strictly increasing order and
    so without duplicates, exactly the dates that are in the index of
    some table of [stock_data] and lie between the start date and the
    end date of the configuration, both included. *)
Theorem trading_dates_sorted_in_range (config : BacktestConfig)
    (stock_data : dict DataFrame) :
  SpecDates.increasing (_get_trading_dates config stock_data) /\
  forall d,
    In d (_get_trading_dates config stock_data) <->
    (start_date config <= d <= end_date config)%Z /\
    exists symbol df bar,
      In (symbol, df) stock_data /\ In bar df /\ bar_date bar = d.
Proof.
  unfold _get_trading_dates, py_set. cbv zeta.
  match goal with |- context [nodup _ ?l] => set (all := l) end.
  match goal with |- context [filter ?f _] => set (keep := f) end.
  destruct (py_sorted_spec (filter keep (nodup Z.eq_dec all))) as [Hinc Hin].
  { apply NoDup_filter. apply NoDup_nodup. }
  split; [exact Hinc|].
  intro d. rewrite Hin, filter_In, nodup_In. unfold keep, all.
  rewrite andb_true_iff, !Z.leb_le, in_flat_map.
  split.
  - intros [([s df] & Hs & Hd) Hr]. split; [exact Hr|].
    cbn [snd] in Hd. apply in_map_iff in Hd. destruct Hd as (bar & Hb & Hbar).
    exists s, df, bar. auto.
  - intros [Hr (s & df & bar & Hs & Hbar & Hb)]. split; [|exact Hr].
    exists (s, df). split; [exact Hs|]. cbn [snd].
    apply in_map_iff. exists bar. auto.
Qed.

(** ** Performance metrics *)

Section Drawdown.

Import MetricsCalculator.

(** A drawdown entry of a positive curve: a fraction in [0, 1), zero
    when [flat] holds. *)
Let dd_entry (flat : Prop) (y : pyfloat) : Prop :=
  exists d, y = Fin d /\ 0 <= d /\ d < 1 /\ (flat -> d == 0).

Lemma drawdown_entry (flat : Prop) (m e : Q) :
  0 < e -> e <= m -> (flat -> m == e) ->
  dd_entry flat (fdiv (fsub (Fin m) (Fin e)) (Fin m)).
Proof.
  intros He Hm Hflat. unfold dd_entry. cbn [fsub fadd fneg fdiv].
  destruct (Qeq_bool m 0) eqn:E; [apply Qeq_bool_iff in E; lra|].
  exists ((m + - e) / m). split; [reflexivity|].
  assert (Hpos : 0 < m) by lra.
  split; [|split].
  - apply Qle_shift_div_l; [exact Hpos | lra].
  - apply Qlt_shift_div_r; [exact Hpos | lra].
  - intro Hf. rewrite (Hflat Hf). field. lra.
Qed.

Lemma drawdown_from (l : list Q) :
  forall (v : Q) (flat : Prop),
    0 < v ->
    (forall x, In x l -> 0 < x) ->
    (flat -> SpecCurve.nondecreasing l /\ forall x, In x l -> v <= x) ->
    forall y,
      In y (s_map2 fdiv
              (s_map2 fsub (cummax_from (Some (Fin v)) (of_Q l)) (of_Q l))
              (cummax_from (Some (Fin v)) (of_Q l))) ->
      dd_entry flat y.
Proof.
  induction l as [|x l IH]; intros v flat Hv Hpos Hflat y Hy.
  - destruct Hy.
  - cbn [of_Q map cummax_from isna flt] in Hy.
    fold (of_Q l) in Hy.
    assert (Hx : 0 < x) by (apply Hpos; left; reflexivity).
    set (v' := if Qlt_bool v x then x else v) in *.
    assert (Hv' : x <= v' /\ v <= v' /\ 0 < v' /\ (flat -> v' == x)).
    { unfold v'. destruct (Qlt_bool v x) eqn:E;
        [apply Qlt_bool_iff in E | apply Qlt_bool_false_iff in E].
      - split; [lra|]. split; [lra|]. split; [lra|]. intros _. reflexivity.
      - split; [lra|]. split; [lra|]. split; [lra|]. intro Hf.
        destruct (Hflat Hf) as [_ Hle]. specialize (Hle x (or_introl eq_refl)).
        lra. }
    destruct Hv' as (H1 & H2 & H3 & H4).
    replace (if Qlt_bool v x then Fin x else Fin v) with (Fin v') in Hy
      by (unfold v'; destruct (Qlt_bool v x); reflexivity).
    unfold s_map2 in Hy. cbn [combine map fst snd In] in Hy.
    destruct Hy as [<- | Hy].
    + apply drawdown_entry; assumption.
    + apply (IH v' flat H3); [intros z Hz; apply Hpos; right; exact Hz | |exact Hy].
      intro Hf. destruct (Hflat Hf) as [[Hx' Hnd] Hle]. split; [exact Hnd|].
      intros z Hz. specialize (Hx' z Hz). rewrite (H4 Hf). exact Hx'.
Qed.

Lemma series_max_In (s : Series) :
  s <> [] -> (forall y, In y s -> isna y = false) -> In (series_max s) s.
Proof.
  intros Hne Hfin. unfold series_max.
  assert (Hd : dropna s = s).
  { unfold dropna. clear Hne. induction s as [|a s IH]; [reflexivity|].
    cbn [filter]. rewrite (Hfin a (or_introl eq_refl)). cbn [negb].
    f_equal. apply IH. intros y Hy. apply Hfin. right. exact Hy. }
  rewrite Hd. destruct s as [|x r]; [congruence|].
  clear. revert x.
  induction r as [|y r IH]; intro x; cbn [fold_left]; [left; reflexivity|].
  destruct (flt x y).
  - destruct (IH y) as [H|H]; [right; left; exact H | right; right; exact H].
  - destruct (IH x) as [H|H]; [left; exact H | right; right; exact H].
Qed.

(** X20.  For an equity curve of positive values [calculate_max_drawdown]
    returns a finite percentage between 0 and 100, both included; it is
    0 for a curve that never falls, and 0 for the empty curve. *)
Theorem max_drawdown_range (equity : list Q) :
  (forall e, In e equity -> 0 < e) ->
  exists d,
    calculate_max_drawdown (of_Q equity) = Fin d /\
    0 <= d /\ d <= 100 /\
    (SpecCurve.nondecreasing equity -> d == 0).
Proof.
  intro Hpos. unfold calculate_max_drawdown.
  destruct equity as [|x l].
  { exists 0. cbn. split; [reflexivity|]. split; [lra|]. split; [lra|].
    intros _. reflexivity. }
  replace (List.length (of_Q (x :: l)) =? 0)%nat with false by reflexivity.
  cbv zeta.
  set (drawdown := s_map2 fdiv _ _).
  assert (Hall : forall y, In y drawdown ->
                   dd_entry (SpecCurve.nondecreasing (x :: l)) y).
  { intros y Hy. unfold drawdown, cummax in Hy.
    cbn [of_Q map cummax_from isna] in Hy. fold (of_Q l) in Hy.
    unfold s_map2 in Hy. cbn [combine map fst snd In] in Hy.
    assert (Hx : 0 < x) by (apply Hpos; left; reflexivity).
    destruct Hy as [<- | Hy].
    - apply drawdown_entry; [exact Hx | lra | intros _; reflexivity].
    - apply (drawdown_from l x _ Hx); [intros z Hz; apply Hpos; right; exact Hz | |exact Hy].
      intros [Hx' Hnd]. split; assumption. }
  assert (Hne : drawdown <> []).
  { unfold drawdown, cummax. cbn [of_Q map cummax_from isna].
    unfold s_map2. cbn [combine map]. discriminate. }
  assert (Hin : In (series_max drawdown) drawdown).
  { apply series_max_In; [exact Hne|].
    intros y Hy. destruct (Hall y Hy) as (d & -> & _). reflexivity. }
  destruct (Hall _ Hin) as (d & -> & H0 & H1 & Hflat).
  exists (d * 100). cbn [fmul]. split; [reflexivity|].
  split; [lra|]. split; [lra|]. intro Hnd. rewrite (Hflat Hnd). ring.
Qed.

End Drawdown.

(** The curve 100, 120, 90, 110: the drawdown from 120 to 90 is 25%. *)
Lemma max_drawdown_range_witness :
  exists d,
    MetricsCalculator.calculate_max_drawdown (of_Q [100; 120; 90; 110])
    = Fin d /\ 0 <= d /\ d <= 100.
Proof.
  destruct (max_drawdown_range [100; 120; 90; 110]) as (d & H1 & H2 & H3 & _).
  - intros e He.
    repeat (destruct He as [<- | He]; [reflexivity|]). destruct He.
  - exists d. auto.
Defined.

(** X21.  The trade counts of [calculate_all_metrics]: the profitable
    and the losing trades add up to the total, a trade with a P&L of
    exactly zero being counted as losing; the win rate and the
    assignment rate are percentages between 0 and 100, and all of them
    are 0 when no trade was made. *)
Theorem trade_counts_consistent (trades : list Trade.t) :
  let m := MetricsCalculator.trade_counts trades in
  (MetricsCalculator.profitable_trades m + MetricsCalculator.losing_trades m
   = MetricsCalculator.total_trades m)%Z /\
  MetricsCalculator.total_trades m = Z.of_nat (List.length trades) /\
  MetricsCalculator.losing_trades m
  = Z.of_nat (List.length
                (filter (fun t => Qle_bool (Trade.total_pnl t) 0) trades)) /\
  0 <= MetricsCalculator.win_rate m /\
  MetricsCalculator.win_rate m <= 100 /\
  0 <= MetricsCalculator.assignment_rate m /\
  MetricsCalculator.assignment_rate m <= 100.
Proof.
  intro m. unfold m, MetricsCalculator.trade_counts.
  destruct trades as [|t0 l].
  { cbn. repeat split; try lia; lra. }
  replace (0 <? List.length (t0 :: l))%nat with true by reflexivity.
  set (trades := t0 :: l).
  cbn [MetricsCalculator.profitable_trades MetricsCalculator.losing_trades
       MetricsCalculator.total_trades MetricsCalculator.win_rate
       MetricsCalculator.assignment_rate].
  assert (Hlen : (0 < List.length trades)%nat) by (cbn; lia).
  assert (Hsplit : forall ts : list Trade.t,
            (List.length (filter (fun t => Qlt_bool 0 (Trade.total_pnl t)) ts) +
             List.length (filter (fun t => Qle_bool (Trade.total_pnl t) 0) ts)
             = List.length ts)%nat).
  { induction ts as [|t ts IH]; [reflexivity|]. cbn [filter].
    unfold Qlt_bool at 1.
    destruct (Qle_bool (Trade.total_pnl t) 0); cbn [negb List.length]; lia. }
  assert (Hrate : forall n : nat,
            (n <= List.length trades)%nat ->
            0 <= inject_Z (Z.of_nat n) / inject_Z (Z.of_nat (List.length trades)) * 100 /\
            inject_Z (Z.of_nat n) / inject_Z (Z.of_nat (List.length trades)) * 100 <= 100).
  { intros n Hn. rewrite (percentile_of_count _ _ Hlen).
    assert (H0 : inject_Z 0 / inject_Z (Z.of_nat (List.length trades)) == 0).
    { change (inject_Z 0) with 0. unfold Qdiv. ring. }
    assert (H100 : inject_Z (100 * Z.of_nat (List.length trades)) /
                   inject_Z (Z.of_nat (List.length trades)) == 100).
    { rewrite inject_Z_mult. field. apply inject_Z_nonzero. lia. }
    split.
    - rewrite <- H0. apply count_ratio_le; lia.
    - rewrite <- H100. apply count_ratio_le; lia. }
  unfold MetricsCalculator.calculate_win_rate,
    MetricsCalculator.calculate_assignment_rate.
  replace (Z.of_nat (List.length trades) <=? 0)%Z with false
    by (symmetry; apply Z.leb_gt; lia).
  pose proof (Hsplit trades) as Hs.
  split; [lia|]. split; [reflexivity|]. split; [lia|].
  split; [apply Hrate; apply filter_length_le|].
  split; [apply Hrate; apply filter_length_le|].
  split; apply Hrate; apply filter_length_le.
Qed.

(** ** Sums *)

Lemma q_sum_from (l : list Q) :
  forall acc, fold_left Qplus l acc == acc + q_sum l.
Proof.
  unfold q_sum. induction l as [|x l IH]; intro acc; cbn [fold_left].
  - ring.
  - rewrite (IH (acc + x)), (IH (0 + x)). ring.
Qed.

Lemma q_sum_cons (x : Q) (l : list Q) : q_sum (x :: l) == x + q_sum l.
Proof.
  unfold q_sum at 1. cbn [fold_left]. rewrite q_sum_from. ring.
Qed.

(** ** The range of the RSI *)

Lemma s_map2_In (f : pyfloat -> pyfloat -> pyfloat) (a b : Series)
    (y : pyfloat) :
  In y (s_map2 f a b) -> exists x1 x2, In x1 a /\ In x2 b /\ y = f x1 x2.
Proof.
  unfold s_map2. intro H. apply in_map_iff in H.
  destruct H as ([x1 x2] & Hy & Hin). cbn [fst snd] in Hy.
  exists x1, x2. split; [eapply in_combine_l; exact Hin|].
  split; [eapply in_combine_r; exact Hin | auto].
Qed.

Lemma ewm_from_nonneg (alpha : Q) (xs : list Q) :
  0 <= alpha -> alpha <= 1 ->
  forall prev, 0 <= prev -> (forall x, In x xs -> 0 <= x) ->
  forall y, In y (ewm_from alpha prev xs) -> 0 <= y.
Proof.
  intros Ha0 Ha1. induction xs as [|x xs IH]; intros prev Hprev Hxs y Hy;
    cbn [ewm_from] in Hy; [destruct Hy|].
  assert (Hx : 0 <= x) by (apply Hxs; left; reflexivity).
  assert (Hnew : 0 <= (1 - alpha) * prev + alpha * x).
  { assert (H1 : 0 <= (1 - alpha) * prev) by (apply Qmult_le_0_compat; lra).
    assert (H2 : 0 <= alpha * x) by (apply Qmult_le_0_compat; lra).
    lra. }
  destruct Hy as [<- | Hy]; [exact Hnew|].
  apply (IH _ Hnew); [|exact Hy]. intros z Hz. apply Hxs. right. exact Hz.
Qed.

Lemma ewm_mean_nonneg (alpha : Q) (xs : list Q) :
  0 <= alpha -> alpha <= 1 ->
  (forall x, In x xs -> 0 <= x) ->
  forall y, In y (ewm_mean alpha xs) -> 0 <= y.
Proof.
  intros Ha0 Ha1 Hxs y Hy. destruct xs as [|x xs]; [destruct Hy|].
  cbn [ewm_mean] in Hy.
  assert (Hx : 0 <= x) by (apply Hxs; left; reflexivity).
  destruct Hy as [<- | Hy]; [exact Hx|].
  apply (ewm_from_nonneg alpha xs Ha0 Ha1 x Hx); [|exact Hy].
  intros z Hz. apply Hxs. right. exact Hz.
Qed.

Lemma mask_min_periods_In (min_periods : nat) (ys : list Q) (x : pyfloat) :
  In x (mask_min_periods min_periods ys) ->
  x = NaN \/ exists y, x = Fin y /\ In y ys.
Proof.
  unfold mask_min_periods. intro H. apply in_map_iff in H.
  destruct H as ([i y] & Hx & Hin). cbn [fst snd] in Hx.
  destruct (S i <? min_periods)%nat; [left; auto|].
  right. exists y. split; [auto|]. eapply in_combine_r. exact Hin.
Qed.

(** X24.  For a period of at least 1, every entry of the Series that
    [_calculate_rsi] returns is NaN or a number between 0 and 100,
    whatever the prices are; the value 100 is taken when the average
    loss is zero and the average gain is not. *)
Theorem calculate_rsi_range (prices : list Q) (period : Z) (x : pyfloat) :
  (1 <= period)%Z ->
  In x (_calculate_rsi prices period) ->
  x = NaN \/ exists v, x = Fin v /\ 0 <= v /\ v <= 100.
Proof.
  intros Hperiod Hx. unfold _calculate_rsi in Hx. cbv zeta in Hx.
  assert (Halpha : 0 <= 1 / inject_Z period /\ 1 / inject_Z period <= 1).
  { assert (Hp : 1 <= inject_Z period)
      by (change 1 with (inject_Z 1); rewrite <- Zle_Qle; exact Hperiod).
    split.
    - apply Qle_shift_div_l; lra.
    - apply Qle_shift_div_r; lra. }
  destruct Halpha as [Ha0 Ha1].
  set (delta := s_diff (of_Q prices)) in Hx.
  assert (Havg : forall (g : pyfloat -> pyfloat) (a : pyfloat),
            (forall d q, g d = Fin q -> 0 <= q) ->
            In a (mask_min_periods (Z.to_nat period)
                    (ewm_mean (1 / inject_Z period)
                       (finite_values (map g delta)))) ->
            a = NaN \/ exists q, a = Fin q /\ 0 <= q).
  { intros g a Hg Ha. apply mask_min_periods_In in Ha.
    destruct Ha as [Ha | (y & -> & Hy)]; [left; exact Ha|].
    right. exists y. split; [reflexivity|].
    apply (ewm_mean_nonneg _ _ Ha0 Ha1) in Hy; [exact Hy|].
    intros z Hz. unfold finite_values in Hz. apply in_flat_map in Hz.
    destruct Hz as (e & He & Hz). apply in_map_iff in He.
    destruct He as (d & <- & _).
    destruct (g d) as [q| | |] eqn:Egd;
      [|destruct Hz | destruct Hz | destruct Hz].
    destruct Hz as [<- | []]. eapply Hg. exact Egd. }
  apply in_map_iff in Hx. destruct Hx as (r & <- & Hr).
  apply s_map2_In in Hr. destruct Hr as (g & l & Hg & Hl & ->).
  apply Havg in Hg.
  2:{ intros d q. destruct (fgt d (Fin 0)) eqn:E.
      - intros ->. unfold fgt in E. cbn [flt] in E.
        apply Qlt_bool_iff in E. lra.
      - intro H. injection H as <-. lra. }
  apply Havg in Hl.
  2:{ intros d q. destruct (flt d (Fin 0)) eqn:E.
      - destruct d as [v| | |]; cbn [fneg flt] in *; try discriminate.
        intro H. injection H as <-. apply Qlt_bool_iff in E. lra.
      - intro H. injection H as <-. lra. }
  destruct Hg as [-> | (a & -> & Ha)]; [left; reflexivity|].
  destruct Hl as [-> | (b & -> & Hb)]; [left; reflexivity|].
  cbn [fdiv].
  destruct (Qeq_bool b 0) eqn:Eb.
  - destruct (Qeq_bool a 0) eqn:Ea; [left; reflexivity|].
    assert (Hapos : 0 < a).
    { destruct (Qlt_le_dec 0 a) as [H|H]; [exact H|].
      assert (Hz : a == 0) by lra. apply Qeq_bool_iff in Hz. congruence. }
    apply Qlt_bool_iff in Hapos. rewrite Hapos.
    right. cbn. exists (100 + - 0). split; [reflexivity | split; lra].
  - cbn [fadd fdiv fsub fneg].
    assert (Hbpos : 0 < b).
    { destruct (Qlt_le_dec 0 b) as [H|H]; [exact H|].
      assert (Hz : b == 0) by lra. apply Qeq_bool_iff in Hz. congruence. }
    assert (Hrs : 0 <= a / b) by (apply Qle_shift_div_l; lra).
    destruct (Qeq_bool (1 + a / b) 0) eqn:E1.
    { apply Qeq_bool_iff in E1. lra. }
    right. exists (100 + - (100 / (1 + a / b))). split; [reflexivity|].
    assert (H1 : 0 <= 100 / (1 + a / b)) by (apply Qle_shift_div_l; lra).
    assert (H2 : 100 / (1 + a / b) <= 100) by (apply Qle_shift_div_r; lra).
    split; lra.
Qed.

Lemma calculate_rsi_range_witness :
  iloc_last (_calculate_rsi [10; 11; 12; 11; 13] 2) = NaN \/
  exists v,
    iloc_last (_calculate_rsi [10; 11; 12; 11; 13] 2) = Fin v /\
    0 <= v /\ v <= 100.
Proof.
  apply (calculate_rsi_range [10; 11; 12; 11; 13] 2).
  - lia.
  - vm_compute. right. right. right. right. left. reflexivity.
Defined.

(** ** The legacy trend filter *)

(** X25.  The deprecated flag keeps its meaning: in the mode BEARISH,
    and in the mode NONE with [use_trend_filter] set, the multi-timeframe
    filter decides exactly as the legacy [_check_trend_filter] does, for
    every symbol, date and price table; in the mode NONE without the flag
    it lets every entry pass. *)
Theorem legacy_trend_filter_agrees {M : MathLib} (config : BacktestConfig)
    (symbol : string) (current_date : Z) (stock_data : dict CloseFrame) :
  (trend_filter_mode config = "BEARISH"%string \/
   (trend_filter_mode config = "NONE"%string /\
    use_trend_filter config = true) ->
   _check_multi_timeframe_trend_filter config symbol current_date stock_data
   = _check_trend_filter symbol current_date stock_data) /\
  (trend_filter_mode config = "NONE"%string ->
   use_trend_filter config = false ->
   _check_multi_timeframe_trend_filter config symbol current_date stock_data
   = true).
Proof.
  unfold _check_multi_timeframe_trend_filter, _check_trend_filter.
  split.
  - intros [Hmode | [Hmode Hflag]]; rewrite Hmode; [|rewrite Hflag];
      cbn [String.eqb Ascii.eqb Bool.eqb andb orb];
      (destruct (dict_get symbol stock_data) as [df|]; [|reflexivity]);
      destruct (shorter_than (cf_upto current_date df) 50); reflexivity.
  - intros Hmode Hflag. rewrite Hmode, Hflag. reflexivity.
Qed.

Lemma legacy_trend_filter_agrees_witness :
  _check_multi_timeframe_trend_filter
    (with_filters
       (default_config ["RELIANCE"%string] 0 365 DELTA_30 HOLD_TO_EXPIRY)
       true false false)
    "RELIANCE" 9
    [("RELIANCE"%string, close_frame SpecPivot.three_bar_table)]
  = _check_trend_filter "RELIANCE" 9
      [("RELIANCE"%string, close_frame SpecPivot.three_bar_table)].
Proof.
  apply (proj1 (@legacy_trend_filter_agrees sample_math
                  (with_filters
                     (default_config ["RELIANCE"%string] 0 365 DELTA_30
                        HOLD_TO_EXPIRY)
                     true false false)
                  "RELIANCE" 9
                  [("RELIANCE"%string,
                    close_frame SpecPivot.three_bar_table)])).
  right. split; reflexivity.
Defined.

(** ** The range of the indicators *)

Lemma s_map3_In (f : pyfloat -> pyfloat -> pyfloat -> pyfloat)
    (a b c : Series) (y : pyfloat) :
  In y (s_map3 f a b c) ->
  exists x1 x2 x3, In x1 a /\ In x2 b /\ In x3 c /\ y = f x1 x2 x3.
Proof.
  unfold s_map3. intro H. apply in_map_iff in H.
  destruct H as ([[x1 x2] x3] & Hy & Hin). cbn [fst snd] in Hy.
  exists x1, x2, x3.
  pose proof (in_combine_l _ _ _ _ Hin) as H12.
  split; [eapply in_combine_l; exact H12|].
  split; [eapply in_combine_r; exact H12|].
  split; [eapply in_combine_r; exact Hin | auto].
Qed.

Lemma s_map2_cons (f : pyfloat -> pyfloat -> pyfloat) (x y : pyfloat)
    (a b : Series) :
  s_map2 f (x :: a) (y :: b) = f x y :: s_map2 f a b.
Proof. reflexivity. Qed.

Lemma s_map3_cons (f : pyfloat -> pyfloat -> pyfloat -> pyfloat)
    (x y z : pyfloat) (a b c : Series) :
  s_map3 f (x :: a) (y :: b) (z :: c) = f x y z :: s_map3 f a b c.
Proof. reflexivity. Qed.

Lemma s_map2_length (f : pyfloat -> pyfloat -> pyfloat) (a b : Series) :
  List.length (s_map2 f a b) = Nat.min (List.length a) (List.length b).
Proof. unfold s_map2. rewrite length_map. apply length_combine. Qed.

Lemma s_map3_length (f : pyfloat -> pyfloat -> pyfloat -> pyfloat)
    (a b c : Series) :
  List.length (s_map3 f a b c)
  = Nat.min (Nat.min (List.length a) (List.length b)) (List.length c).
Proof. unfold s_map3. rewrite length_map, !length_combine. reflexivity. Qed.

Lemma of_Q_In (l : list Q) (x : pyfloat) :
  In x (of_Q l) -> exists q, x = Fin q /\ In q l.
Proof.
  unfold of_Q. intro H. apply in_map_iff in H. destruct H as (q & <- & Hq).
  exists q. split; [reflexivity | exact Hq].
Qed.

Lemma removelast_In {A : Type} (l : list A) (x : A) :
  In x (removelast l) -> In x l.
Proof.
  rewrite removelast_firstn_len. intro H.
  rewrite <- (firstn_skipn (Nat.pred (List.length l)) l).
  apply in_or_app. left. exact H.
Qed.

Lemma q_sum_nonneg (l : list Q) :
  (forall x, In x l -> 0 <= x) -> 0 <= q_sum l.
Proof.
  induction l as [|x l IH]; intro H.
  - unfold q_sum. cbn [fold_left]. lra.
  - rewrite q_sum_cons.
    assert (0 <= x) by (apply H; left; reflexivity).
    assert (0 <= q_sum l) by (apply IH; intros z Hz; apply H; right; exact Hz).
    lra.
Qed.

Lemma agg_mean_nonneg (l : list Q) :
  l <> [] -> (forall x, In x l -> 0 <= x) ->
  exists v, agg_mean l = Fin v /\ 0 <= v.
Proof.
  intros Hne Hl. destruct l as [|x l]; [congruence|].
  unfold agg_mean. eexists. split; [reflexivity|].
  apply Qle_shift_div_l.
  - change 0 with (inject_Z 0). rewrite <- Zlt_Qlt. cbn [List.length]. lia.
  - rewrite Qmult_0_l. apply q_sum_nonneg. exact Hl.
Qed.

(** X26.  The average true range is a finite number that is not
    negative: for a period of at least 1 and closing prices that are not
    negative, [_calculate_atr] returns such a number whatever the table
    holds otherwise, also for an unknown symbol (0) and for fewer than
    [period + 1] rows (2% of the mean close). *)
Theorem calculate_atr_nonneg (symbol : string) (current_date : Z)
    (stock_data : dict DataFrame) (period : nat) :
  (1 <= period)%nat ->
  (forall df b, dict_get symbol stock_data = Some df -> In b df ->
                0 <= close b) ->
  exists v,
    _calculate_atr symbol current_date stock_data period = Fin v /\ 0 <= v.
Proof.
  intros Hperiod Hclose. unfold _calculate_atr.
  destruct (dict_get symbol stock_data) as [df|] eqn:Hdf.
  2:{ exists 0. split; [reflexivity | lra]. }
  cbv zeta.
  set (hist := tail (period + 1) (df_upto current_date df)).
  assert (Hhist : forall b, In b hist -> 0 <= close b).
  { intros b Hb. apply (Hclose df b eq_refl).
    unfold hist, tail in Hb.
    assert (Hin : In b (df_upto current_date df)).
    { rewrite <- (firstn_skipn
                    (List.length (df_upto current_date df) - (period + 1))
                    (df_upto current_date df)).
      apply in_or_app. right. exact Hb. }
    unfold df_upto in Hin. apply filter_In in Hin. apply Hin. }
  assert (Hlen : (List.length hist <= period + 1)%nat).
  { unfold hist, tail. rewrite length_skipn. lia. }
  destruct (List.length hist <? period + 1)%nat eqn:Eshort.
  - destruct (0 <? List.length hist)%nat eqn:Epos.
    2:{ exists 0. split; [reflexivity | lra]. }
    apply Nat.ltb_lt in Epos.
    destruct (agg_mean_nonneg (map close hist)) as (v & -> & Hv).
    + destruct hist; [cbn in Epos; lia | discriminate].
    + intros x Hx. apply in_map_iff in Hx. destruct Hx as (b & <- & Hb).
      apply Hhist. exact Hb.
    + exists (v * (2 # 100)). split; [reflexivity|].
      apply Qmult_le_0_compat; [exact Hv | discriminate].
  - apply Nat.ltb_ge in Eshort.
    assert (Hlen' : List.length hist = S period) by lia.
    destruct hist as [|b0 rest] eqn:Ehist; [discriminate|].
    cbn [List.length] in Hlen'.
    assert (Hrest : List.length rest = period) by lia.
    unfold true_range_of. cbv zeta.
    unfold col, of_Q. cbn [map s_shift].
    set (prev_close := removelast (Fin (close b0) :: map Fin (map close rest))).
    assert (Hprev : forall x, In x prev_close -> exists q, x = Fin q).
    { intros x Hx. apply removelast_In in Hx.
      destruct Hx as [<- | Hx]; [eauto|].
      apply in_map_iff in Hx. destruct Hx as (q & <- & _). eauto. }
    assert (Hplen : List.length prev_close = period).
    { unfold prev_close. rewrite removelast_firstn_len.
      rewrite length_firstn. cbn [List.length]. rewrite !length_map. lia. }
    rewrite !s_map2_cons. cbn [map]. rewrite s_map3_cons.
    set (trs := s_map3 row_max3 _ _ _).
    assert (Htlen : List.length trs = period).
    { unfold trs. rewrite s_map3_length, !length_map, !s_map2_length,
        !length_map. lia. }
    assert (Htail : tail period (row_max3 (fsub (Fin (high b0)) (Fin (low b0)))
                                   (fabs (fsub (Fin (high b0)) NaN))
                                   (fabs (fsub (Fin (low b0)) NaN)) :: trs)
                    = trs).
    { unfold tail. cbn [List.length]. rewrite Htlen.
      replace (S period - period)%nat with 1%nat by lia. reflexivity. }
    rewrite Htail.
    assert (Hfin : forall y, In y trs -> exists q, y = Fin q /\ 0 <= q).
    { intros y Hy. unfold trs in Hy. apply s_map3_In in Hy.
      destruct Hy as (x1 & x2 & x3 & H1 & H2 & H3 & ->).
      apply s_map2_In in H1. destruct H1 as (h & l & Hh & Hl & ->).
      apply in_map_iff in Hh. destruct Hh as (hq & <- & _).
      apply in_map_iff in Hl. destruct Hl as (lq & <- & _).
      apply in_map_iff in H2. destruct H2 as (d2 & <- & H2).
      apply s_map2_In in H2. destruct H2 as (h2 & c2 & Hh2 & Hc2 & ->).
      apply in_map_iff in Hh2. destruct Hh2 as (hq2 & <- & _).
      destruct (Hprev _ Hc2) as (cq2 & ->).
      apply in_map_iff in H3. destruct H3 as (d3 & <- & H3).
      apply s_map2_In in H3. destruct H3 as (l3 & c3 & Hl3 & Hc3 & ->).
      apply in_map_iff in Hl3. destruct Hl3 as (lq3 & <- & _).
      destruct (Hprev _ Hc3) as (cq3 & ->).
      unfold row_max3, agg_max. cbn [fsub fneg fadd fabs finite_values flat_map app].
      destruct (py_max _) as [m|] eqn:Em; [|discriminate Em].
      exists m. split; [reflexivity|].
      apply py_max_greatest in Em. destruct Em as [_ Hm].
      assert (H := Hm (Qabs (hq2 + - cq2))
                      (or_intror (or_introl eq_refl))).
      pose proof (Qabs_nonneg (hq2 + - cq2)). lra. }
    apply agg_mean_nonneg.
    + destruct trs as [|y trs']; [cbn in Htlen; lia|].
      destruct (Hfin y (or_introl eq_refl)) as (q & -> & _). discriminate.
    + intros x Hx. unfold finite_values in Hx. apply in_flat_map in Hx.
      destruct Hx as (y & Hy & Hx). destruct (Hfin y Hy) as (q & -> & Hq).
      destruct Hx as [<- | []]. exact Hq.
Qed.
Lemma nth_error_s_map2 (f : pyfloat -> pyfloat -> pyfloat) (a b : Series)
    (i : nat) (y : pyfloat) :
  nth_error (s_map2 f a b) i = Some y ->
  exists x1 x2,
    nth_error a i = Some x1 /\ nth_error b i = Some x2 /\ y = f x1 x2.
Proof.
  revert b i. induction a as [|x a IH]; intros b i; [destruct i; discriminate|].
  destruct b as [|z b]; [destruct i; discriminate|].
  rewrite s_map2_cons. destruct i as [|i]; cbn [nth_error].
  - intro H. injection H as <-. eauto.
  - apply IH.
Qed.

Lemma nth_error_rolling (w min_periods : nat) (agg : list Q -> pyfloat)
    (s : Series) (i : nat) (y : pyfloat) :
  nth_error (rolling w min_periods agg s) i = Some y ->
  (i < List.length s)%nat /\
  y = (if (List.length (finite_values (window_at w s i)) <? min_periods)%nat
       then NaN else agg (finite_values (window_at w s i))).
Proof.
  unfold rolling. rewrite nth_error_map, nth_error_seq.
  destruct (i <? List.length s)%nat eqn:E; [|discriminate].
  cbn [option_map Nat.add]. intro H. injection H as <-.
  apply Nat.ltb_lt in E. split; [exact E | reflexivity].
Qed.

Lemma window_at_current (w : nat) (s : Series) (i : nat) (e : pyfloat) :
  (1 <= w)%nat -> nth_error s i = Some e -> In e (window_at w s i).
Proof.
  intros Hw He. unfold window_at.
  apply (nth_error_In _ (i - (S i - w))).
  rewrite nth_error_skipn, nth_error_firstn.
  replace (S i - w + (i - (S i - w)))%nat with i by lia.
  replace (i <? S i)%nat with true by (symmetry; apply Nat.ltb_lt; lia).
  exact He.
Qed.

Lemma window_at_In (w : nat) (s : Series) (i : nat) (e : pyfloat) :
  In e (window_at w s i) -> In e s.
Proof.
  unfold window_at. intro H.
  assert (H1 : In e (firstn (S i) s)).
  { rewrite <- (firstn_skipn (S i - w) (firstn (S i) s)).
    apply in_or_app. right. exact H. }
  rewrite <- (firstn_skipn (S i) s). apply in_or_app. left. exact H1.
Qed.

Lemma finite_values_In (s : Series) (q : Q) :
  In q (finite_values s) <-> In (Fin q) s.
Proof.
  unfold finite_values. rewrite in_flat_map. split.
  - intros (x & Hx & Hq).
    destruct x as [q0| | |]; [|destruct Hq | destruct Hq | destruct Hq].
    destruct Hq as [<- | []]. exact Hx.
  - intro H. exists (Fin q). split; [exact H | left; reflexivity].
Qed.

Lemma nth_error_col (f : Bar -> Q) (df : DataFrame) (i : nat) (x : pyfloat) :
  nth_error (col f df) i = Some x ->
  exists b, nth_error df i = Some b /\ x = Fin (f b).
Proof.
  unfold col, of_Q. rewrite !nth_error_map.
  destruct (nth_error df i) as [b|]; [|discriminate].
  cbn [option_map]. intro H. injection H as <-. eauto.
Qed.

(** The rolling maximum of a column at a row is NaN or at least the
    entry of that row; the rolling minimum is NaN or at most that entry. *)
Lemma rolling_max_current (f : Bar -> Q) (df : DataFrame) (w i : nat)
    (b : Bar) (y : pyfloat) :
  (1 <= w)%nat -> nth_error df i = Some b ->
  nth_error (rolling w w agg_max (col f df)) i = Some y ->
  y = NaN \/ exists m, y = Fin m /\ f b <= m.
Proof.
  intros Hw Hb Hy. apply nth_error_rolling in Hy. destruct Hy as [_ ->].
  destruct (_ <? _)%nat; [left; reflexivity|].
  unfold agg_max. destruct (py_max _) as [m|] eqn:Em; [|left; reflexivity].
  right. exists m. split; [reflexivity|].
  apply py_max_greatest in Em. apply Em. apply finite_values_In.
  apply window_at_current; [exact Hw|].
  unfold col, of_Q. rewrite !nth_error_map, Hb. reflexivity.
Qed.

Lemma rolling_min_current (f : Bar -> Q) (df : DataFrame) (w i : nat)
    (b : Bar) (y : pyfloat) :
  (1 <= w)%nat -> nth_error df i = Some b ->
  nth_error (rolling w w agg_min (col f df)) i = Some y ->
  y = NaN \/ exists m, y = Fin m /\ m <= f b.
Proof.
  intros Hw Hb Hy. apply nth_error_rolling in Hy. destruct Hy as [_ ->].
  destruct (_ <? _)%nat; [left; reflexivity|].
  unfold agg_min. destruct (py_min _) as [m|] eqn:Em; [|left; reflexivity].
  right. exists m. split; [reflexivity|].
  apply py_min_least in Em. apply Em. apply finite_values_In.
  apply window_at_current; [exact Hw|].
  unfold col, of_Q. rewrite !nth_error_map, Hb. reflexivity.
Qed.

(** A part [n] of a positive whole [d], as a fraction. *)
Lemma fraction_range (n d : Q) :
  0 <= n -> n <= d -> ~ d == 0 -> 0 <= n / d /\ n / d <= 1.
Proof.
  intros Hn Hnd Hd. assert (0 < d) by lra. split.
  - apply Qle_shift_div_l; lra.
  - apply Qle_shift_div_r; lra.
Qed.

(** X27.  Williams %R stays on its scale: for a period of at least 1 and
    bars whose close lies between their low and their high, every entry
    of the Series of [_calculate_williams_r] is NaN or a number between
    -100 and 0. *)
Theorem williams_r_range (df : DataFrame) (period : Z) (x : pyfloat) :
  (1 <= period)%Z ->
  (forall b, In b df -> low b <= close b /\ close b <= high b) ->
  In x (_calculate_williams_r df period) ->
  x = NaN \/ exists v, x = Fin v /\ -100 <= v /\ v <= 0.
Proof.
  intros Hperiod Hbars Hx. unfold _calculate_williams_r in Hx. cbv zeta in Hx.
  assert (Hw : (1 <= Z.to_nat period)%nat) by lia.
  apply In_nth_error in Hx. destruct Hx as (i & Hx).
  rewrite nth_error_map in Hx.
  destruct (nth_error (s_map2 fdiv _ _) i) as [q|] eqn:Hq; [|discriminate].
  cbn [option_map] in Hx. injection Hx as <-.
  apply nth_error_s_map2 in Hq. destruct Hq as (num & r & Hnum & Hr & ->).
  apply nth_error_s_map2 in Hnum. destruct Hnum as (hh & c & Hhh & Hc & ->).
  apply nth_error_col in Hc. destruct Hc as (b & Hb & ->).
  unfold s_replace_zero in Hr. rewrite nth_error_map in Hr.
  destruct (nth_error (s_map2 fsub _ _) i) as [r0|] eqn:Hr0; [|discriminate].
  cbn [option_map] in Hr. injection Hr as <-.
  apply nth_error_s_map2 in Hr0. destruct Hr0 as (hh' & ll & Hhh' & Hll & ->).
  rewrite Hhh in Hhh'. injection Hhh' as <-.
  destruct (Hbars b (nth_error_In _ _ Hb)) as [Hlc Hch].
  destruct (rolling_max_current high df _ i b hh Hw Hb Hhh)
    as [-> | (H & -> & HH)]; [left; reflexivity|].
  destruct (rolling_min_current low df _ i b ll Hw Hb Hll)
    as [-> | (L & -> & HL)]; [left; reflexivity|].
  cbn [fsub fneg fadd].
  destruct (Qeq_bool (H + - L) 0) eqn:Ez; [left; reflexivity|].
  cbn [fdiv]. rewrite Ez. cbn [fmul].
  right. eexists. split; [reflexivity|].
  apply Qeq_bool_neq in Ez.
  destruct (fraction_range (H + - close b) (H + - L)) as [H0 H1];
    [lra | lra | exact Ez |].
  set (t := (H + - close b) / (H + - L)) in *. lra.
Qed.

Lemma calculate_atr_nonneg_witness :
  exists v,
    _calculate_atr "RELIANCE" 9
      [("RELIANCE"%string, SpecPivot.three_bar_table)] 2 = Fin v /\ 0 <= v.
Proof.
  apply (calculate_atr_nonneg "RELIANCE" 9
           [("RELIANCE"%string, SpecPivot.three_bar_table)] 2).
  - lia.
  - intros df b Hdf Hb. injection Hdf as <-.
    destruct Hb as [<- | [<- | [<- | []]]]; discriminate.
Defined.

Lemma williams_r_range_witness :
  iloc_last (_calculate_williams_r SpecPivot.three_bar_table 2) = NaN \/
  exists v,
    iloc_last (_calculate_williams_r SpecPivot.three_bar_table 2) = Fin v /\
    -100 <= v /\ v <= 0.
Proof.
  apply (williams_r_range SpecPivot.three_bar_table 2).
  - lia.
  - intros b Hb.
    destruct Hb as [<- | [<- | [<- | []]]]; split; discriminate.
  - vm_compute. right. right. left. reflexivity.
Defined.
